(** * R36Shell: the shell execution engine of [Terminal/r36s_terminal.py]

    A shallow embedding of the parts of [ShellExecutor] that keep the
    command history, filter the pseudo-terminal stream, probe the shell
    environment, resolve interpreter aliases and switch the acting user,
    of the line typed into a PTY session, of the [TextEditor] class and
    of three screen helpers, followed by the properties proved about
    them.

    Conventions of the model.
    - A Python [str] is a [string]; one [ascii] stands for one code point,
      so the model speaks about text whose code points are below 256.  The
      character classes ([isspace], [isalpha], [isdigit], [lower]) are the
      ones CPython uses on that range.
    - Byte strings read from a subprocess are carried as the text they
      decode to; the delimiters the code splits them at (newline, NUL,
      the equals sign) are ASCII, so splitting and decoding commute.
    - Python integers are [Z]; [True] and [False] read from a JSON document
      count as the integers [1] and [0], as they do under Python's [==],
      [max] and [+].
    - The history file is the JSON value it holds: what [json.dump]
      writes, [json.load] reads back.
    - An uncaught Python exception is the [Raise] outcome.
    - Everything the code asks of the operating system (the executable
      search path, the file system, the effective user id, the result of a
      subprocess) is a field of [Host] or an explicit argument.
    - The file of the editor is the text stored in it, handed to
      [load_file] and returned by [save_file]; text mode is the one of
      Linux, where writing keeps newlines as they are and reading turns
      CR LF and CR into LF.
    - A loop that may not end takes fuel: [wrap_text] either returns
      its lines or has not finished within the fuel. *)

From Stdlib Require Import ZArith Lia Ascii String List Bool.
From Stdlib Require Import DecimalString DecimalZ.
From stdpp Require Import base option list strings gmap.

Local Open Scope Z_scope.

(** ** Outcomes: a value or an uncaught exception *)

Inductive exn : Type :=
| ValueError (msg : string)
| IndexError (msg : string)
| AttributeError (msg : string)
| OSError (msg : string).

Inductive outcome (A : Type) : Type :=
| Ok (a : A)
| Raise (e : exn).

Arguments Ok {A} a.
Arguments Raise {A} e.

#[global] Instance outcome_ret : MRet outcome := fun _ a => Ok a.

#[global] Instance outcome_bind : MBind outcome := fun _ _ k m =>
  match m with
  | Ok a => k a
  | Raise e => Raise e
  end.

#[global] Instance outcome_fmap : FMap outcome := fun _ _ f m =>
  match m with
  | Ok a => Ok (f a)
  | Raise e => Raise e
  end.

(** ** Python string primitives *)

Module PyStr.

Definition ord (c : ascii) : Z := Z.of_nat (nat_of_ascii c).

Definition in_range (lo hi : Z) (c : ascii) : bool :=
  (lo <=? ord c) && (ord c <=? hi).

Definition chars (s : string) : list ascii := list_ascii_of_string s.
Definition text (l : list ascii) : string := string_of_list_ascii l.

Definition len (s : string) : Z := Z.of_nat (String.length s).

(** [str.isspace] on one code point: TAB..CR, FS..US, space, NEL, NBSP. *)
Definition isspace (c : ascii) : bool :=
  in_range 9 13 c || in_range 28 32 c || (ord c =? 133) || (ord c =? 160).

(** [str.isalpha] on one code point: the ASCII letters and the
    Latin-1 letters (feminine and masculine ordinal, micro sign,
    U+00C0..U+00FF without the multiplication and division signs). *)
Definition isalpha (c : ascii) : bool :=
  in_range 65 90 c || in_range 97 122 c
  || (ord c =? 170) || (ord c =? 181) || (ord c =? 186)
  || in_range 192 214 c || in_range 216 246 c || in_range 248 255 c.

Definition is_decimal (c : ascii) : bool := in_range 48 57 c.

(** One code point with the Unicode digit property: [0-9] and the
    superscripts one, two and three. *)
Definition isdigit_char (c : ascii) : bool :=
  is_decimal c || (ord c =? 178) || (ord c =? 179) || (ord c =? 185).

(** [s.isdigit()]: non-empty and every code point is a digit. *)
Definition isdigit (s : string) : bool :=
  match chars s with
  | [] => false
  | l => forallb isdigit_char l
  end.

Definition lower_char (c : ascii) : ascii :=
  if in_range 65 90 c || in_range 192 214 c || in_range 216 222 c
  then ascii_of_nat (nat_of_ascii c + 32)
  else c.

(** [s.lower()] *)
Definition lower (s : string) : string := text (map lower_char (chars s)).

Fixpoint lstrip_chars (space : ascii -> bool) (l : list ascii) : list ascii :=
  match l with
  | c :: l' => if space c then lstrip_chars space l' else l
  | [] => []
  end.

Definition strip_with (space : ascii -> bool) (s : string) : string :=
  text (rev (lstrip_chars space (rev (lstrip_chars space (chars s))))).

(** [s.lstrip()], [s.rstrip()], [s.strip()] *)
Definition lstrip (s : string) : string := text (lstrip_chars isspace (chars s)).
Definition rstrip (s : string) : string :=
  text (rev (lstrip_chars isspace (rev (chars s)))).
Definition strip (s : string) : string := strip_with isspace s.

(** Truth value of a string: non-empty. *)
Definition truthy (s : string) : bool :=
  match s with
  | EmptyString => false
  | String _ _ => true
  end.

(** [s.startswith(p)] and [s.endswith(p)] *)
Fixpoint startswith (p s : string) : bool :=
  match p with
  | EmptyString => true
  | String a p' =>
      match s with
      | EmptyString => false
      | String b s' => Ascii.eqb a b && startswith p' s'
      end
  end.

Definition endswith (p s : string) : bool :=
  startswith (text (rev (chars p))) (text (rev (chars s))).

(** [s[n:]] and [s[:n]] for [0 <= n] *)
Definition tail_from (n : nat) (s : string) : string :=
  text (List.skipn n (chars s)).
Definition head_to (n : nat) (s : string) : string :=
  text (List.firstn n (chars s)).

(** [s.find(c)] for a single character: the first position or [None]
    (Python's [-1]). *)
Fixpoint find_char (c : ascii) (l : list ascii) : option nat :=
  match l with
  | [] => None
  | d :: l' =>
      if Ascii.eqb c d then Some O
      else match find_char c l' with
           | Some n => Some (S n)
           | None => None
           end
  end.

(** The digits of [int(s)]: a decimal digit, then decimal digits each
    optionally preceded by one underscore.  [after_us] records that the
    previous character was an underscore. *)
Fixpoint int_digits (acc : Z) (after_us : bool) (l : list ascii) : option Z :=
  match l with
  | [] => if after_us then None else Some acc
  | c :: l' =>
      if is_decimal c then int_digits (10 * acc + (ord c - 48)) false l'
      else if Ascii.eqb c "_"%char then
             if after_us then None else int_digits acc true l'
      else None
  end.

Definition int_unsigned (l : list ascii) : option Z :=
  match l with
  | c :: _ => if is_decimal c then int_digits 0 false l else None
  | [] => None
  end.

(** The white space [int] skips around the number: the ASCII white
    space of C, and NEL and NBSP, but not the separators FS..US. *)
Definition int_space (c : ascii) : bool :=
  in_range 9 13 c || (ord c =? 32) || (ord c =? 133) || (ord c =? 160).

(** [int(s)] in base ten: surrounding white space is skipped, one sign
    is allowed.  [None] is Python's [ValueError].  (The interpreter's
    optional limit on the number of digits is not modelled.) *)
Definition int (s : string) : option Z :=
  match chars (strip_with int_space s) with
  | "-"%char :: l => Z.opp <$> int_unsigned l
  | "+"%char :: l => int_unsigned l
  | l => int_unsigned l
  end.

(** [str(n)] for an integer *)
Definition of_Z (n : Z) : string := NilZero.string_of_int (Z.to_int n).

(** [format(n, "4d")]: right-aligned in a field of at least four. *)
Definition format_4d (n : Z) : string :=
  let s := of_Z n in
  text (repeat " "%char (4 - String.length s)%nat) +:+ s.

Fixpoint join_with (sep : string) (l : list string) : string :=
  match l with
  | [] => ""
  | [s] => s
  | s :: l' => s +:+ sep +:+ join_with sep l'
  end.

End PyStr.


(** ** [shlex.split] in POSIX mode

    The standard library tokenizer as [shlex.split(s)] configures it:
    white space splits words, there are no comment characters, quotes are
    removed, a backslash escapes the next character (inside double quotes
    only the quote and the backslash).  An unclosed quotation or a
    trailing backslash raises [ValueError]. *)

Module Shlex.

Inductive state : Type :=
| Blank                            (* state ' ' *)
| Word                             (* state 'a' *)
| InQuote (q : ascii)              (* state is the opening quote *)
| Escape (escapedstate : option ascii).
    (* state is the backslash; [None] stands for escapedstate 'a' *)

Definition is_whitespace (c : ascii) : bool :=
  Ascii.eqb c " " || (PyStr.ord c =? 9) || (PyStr.ord c =? 13) || (PyStr.ord c =? 10).

Definition is_quote (c : ascii) : bool :=
  Ascii.eqb c "'" || Ascii.eqb c "034".

Definition is_escape (c : ascii) : bool := Ascii.eqb c "\".

Fixpoint read (st : state) (token : list ascii) (l : list ascii)
  : outcome (list string) :=
  match l with
  | [] =>
      match st with
      | Blank => Ok []
      | Word => Ok [PyStr.text token]
      | InQuote _ => Raise (ValueError "No closing quotation")
      | Escape _ => Raise (ValueError "No escaped character")
      end
  | c :: l' =>
      match st with
      | Blank =>
          if is_whitespace c then read Blank [] l'
          else if is_escape c then read (Escape None) [] l'
          else if is_quote c then read (InQuote c) [] l'
          else read Word [c] l'
      | Word =>
          if is_whitespace c then cons (PyStr.text token) <$> read Blank [] l'
          else if is_quote c then read (InQuote c) token l'
          else if is_escape c then read (Escape None) token l'
          else read Word (token ++ [c]) l'
      | InQuote q =>
          if Ascii.eqb c q then read Word token l'
          else if is_escape c && Ascii.eqb q "034"
               then read (Escape (Some q)) token l'
          else read (InQuote q) (token ++ [c]) l'
      | Escape None => read Word (token ++ [c]) l'
      | Escape (Some q) =>
          if negb (is_escape c) && negb (Ascii.eqb c q)
          then read (InQuote q) (token ++ ["\"%char; c]) l'
          else read (InQuote q) (token ++ [c]) l'
      end
  end.

Definition split (s : string) : outcome (list string) :=
  read Blank [] (PyStr.chars s).

End Shlex.

(** ** [strip_ansi_codes]: the three regular-expression passes *)

Module Ansi.

Definition ESC : ascii := "027".
Definition BEL : ascii := "007".
Definition CR : ascii := "013".
Definition LF : ascii := "010".
Definition TAB : ascii := "009".
Definition BS : ascii := "008".
Definition DEL : ascii := "127".

(** Length of the longest prefix whose characters satisfy [p]: a greedy
    starred character class. *)
Fixpoint span (p : ascii -> bool) (l : list ascii) : nat :=
  match l with
  | c :: l' => if p c then S (span p l') else O
  | [] => O
  end.

(** Each matcher is given the characters after an ESC and returns how many
    of them the match covers.  The character classes that follow one
    another are disjoint, so greedy matching never has to back off. *)

(** [\x1B(?:[@-Z\\-_]|\[[0-?]*[ -/]*[@-~])] *)
Definition match_ansi_escape (l : list ascii) : option nat :=
  match l with
  | c :: l' =>
      if PyStr.in_range 64 90 c || PyStr.in_range 92 95 c then Some 1%nat
      else if Ascii.eqb c "[" then
        let n1 := span (PyStr.in_range 48 63) l' in
        let l1 := List.skipn n1 l' in
        let n2 := span (PyStr.in_range 32 47) l1 in
        match List.skipn n2 l1 with
        | f :: _ =>
            if PyStr.in_range 64 126 f then Some (1 + n1 + n2 + 1)%nat else None
        | [] => None
        end
      else None
  | [] => None
  end.

(** [\x1B\][^\x07]*\x07] *)
Definition match_osc (l : list ascii) : option nat :=
  match l with
  | c :: l' =>
      if Ascii.eqb c "]" then
        match PyStr.find_char BEL l' with
        | Some k => Some (1 + k + 1)%nat
        | None => None
        end
      else None
  | [] => None
  end.

(** [\x1B[P\]X^_][^\x1B\\]*(?:\x1B\\)?] *)
Definition match_string_sequence (l : list ascii) : option nat :=
  match l with
  | c :: l' =>
      if Ascii.eqb c "P" || Ascii.eqb c "]" || Ascii.eqb c "X"
         || Ascii.eqb c "^" || Ascii.eqb c "_" then
        let n := span (fun d => negb (Ascii.eqb d ESC) && negb (Ascii.eqb d "\")) l' in
        match List.skipn n l' with
        | e :: b :: _ =>
            if Ascii.eqb e ESC && Ascii.eqb b "\" then Some (1 + n + 2)%nat
            else Some (1 + n)%nat
        | _ => Some (1 + n)%nat
        end
      else None
  | [] => None
  end.

(** [pattern.sub('', text)] for a pattern that starts with ESC: scan from
    the left, delete each match, keep every other character.  [skip]
    counts the characters of the current match still to be dropped. *)
Fixpoint sub_go (m : list ascii -> option nat) (skip : nat) (l : list ascii)
  : list ascii :=
  match l with
  | [] => []
  | c :: l' =>
      match skip with
      | S k => sub_go m k l'
      | O =>
          if Ascii.eqb c ESC then
            match m l' with
            | Some n => sub_go m n l'
            | None => c :: sub_go m O l'
            end
          else c :: sub_go m O l'
      end
  end.

Definition sub (m : list ascii -> option nat) (l : list ascii) : list ascii :=
  sub_go m O l.

Definition printable (c : ascii) : bool :=
  (32 <=? PyStr.ord c) || Ascii.eqb c TAB || Ascii.eqb c LF.

Definition strip_ansi_chars (l : list ascii) : list ascii :=
  let l := sub match_ansi_escape l in
  let l := sub match_osc l in
  let l := sub match_string_sequence l in
  let l := List.filter (fun c => negb (Ascii.eqb c CR)) l in
  let l := List.filter (fun c => negb (Ascii.eqb c BEL)) l in
  List.filter printable l.

Definition strip_ansi_codes (s : string) : string :=
  PyStr.text (strip_ansi_chars (PyStr.chars s)).

End Ansi.


(** ** The state of a [ShellExecutor] and of its host *)

(** One history entry, the dict [{"index": ..., "command": ...}]. *)
Record entry : Type := mkEntry {
  index : Z;
  command : string
}.

#[local] Set Warnings "-register-all".

(** A parsed JSON document, as [json.load] returns it. *)
Inductive json : Type :=
| JNull
| JBool (b : bool)
| JInt (n : Z)
| JFloat (literal : string)
| JStr (s : string)
| JList (items : list json)
| JDict (members : list (string * json)).

(** What is stored under a path: a JSON document, or something that
    [open] or [json.load] fails on. *)
Inductive file_state : Type :=
| Document (payload : json)
| Garbled.

(** The attributes of a [ShellExecutor] that the modelled methods read or
    write; [None] is Python's [None].  The process table, the PTY file
    descriptors, the lock and the redraw flags are left out. *)
Record Shell : Type := mkShell {
  output_lines : list string;        (* deque(maxlen=500), oldest first *)
  cwd : string;                      (* the tracked working directory *)
  shell_path : string;
  command_history : list entry;      (* oldest first *)
  history_index : Z;                 (* cursor of the arrow-key recall *)
  history_next_index : Z;
  history_file : string;             (* empty: no persistence *)
  in_editor_mode : bool;
  in_pty_mode : bool;
  pty_partial_line : string;
  real_user : string;
  active_user : string;
  hostname : string;
  active_env : option string;
  active_env_type : option string;   (* "venv" or "conda" *)
  active_env_source : option string
}.

Definition set_output_lines (v : list string) (x : Shell) : Shell :=
  {| output_lines := v; cwd := cwd x; shell_path := shell_path x;
     command_history := command_history x;
     history_index := history_index x;
     history_next_index := history_next_index x;
     history_file := history_file x; in_editor_mode := in_editor_mode x;
     in_pty_mode := in_pty_mode x;
     pty_partial_line := pty_partial_line x; real_user := real_user x;
     active_user := active_user x; hostname := hostname x;
     active_env := active_env x; active_env_type := active_env_type x;
     active_env_source := active_env_source x |}.

Definition set_cwd (v : string) (x : Shell) : Shell :=
  {| output_lines := output_lines x; cwd := v;
     shell_path := shell_path x; command_history := command_history x;
     history_index := history_index x;
     history_next_index := history_next_index x;
     history_file := history_file x; in_editor_mode := in_editor_mode x;
     in_pty_mode := in_pty_mode x;
     pty_partial_line := pty_partial_line x; real_user := real_user x;
     active_user := active_user x; hostname := hostname x;
     active_env := active_env x; active_env_type := active_env_type x;
     active_env_source := active_env_source x |}.

Definition set_command_history (v : list entry) (x : Shell) : Shell :=
  {| output_lines := output_lines x; cwd := cwd x;
     shell_path := shell_path x; command_history := v;
     history_index := history_index x;
     history_next_index := history_next_index x;
     history_file := history_file x; in_editor_mode := in_editor_mode x;
     in_pty_mode := in_pty_mode x;
     pty_partial_line := pty_partial_line x; real_user := real_user x;
     active_user := active_user x; hostname := hostname x;
     active_env := active_env x; active_env_type := active_env_type x;
     active_env_source := active_env_source x |}.

Definition set_history_index (v : Z) (x : Shell) : Shell :=
  {| output_lines := output_lines x; cwd := cwd x;
     shell_path := shell_path x; command_history := command_history x;
     history_index := v; history_next_index := history_next_index x;
     history_file := history_file x; in_editor_mode := in_editor_mode x;
     in_pty_mode := in_pty_mode x;
     pty_partial_line := pty_partial_line x; real_user := real_user x;
     active_user := active_user x; hostname := hostname x;
     active_env := active_env x; active_env_type := active_env_type x;
     active_env_source := active_env_source x |}.

Definition set_history_next_index (v : Z) (x : Shell) : Shell :=
  {| output_lines := output_lines x; cwd := cwd x;
     shell_path := shell_path x; command_history := command_history x;
     history_index := history_index x; history_next_index := v;
     history_file := history_file x; in_editor_mode := in_editor_mode x;
     in_pty_mode := in_pty_mode x;
     pty_partial_line := pty_partial_line x; real_user := real_user x;
     active_user := active_user x; hostname := hostname x;
     active_env := active_env x; active_env_type := active_env_type x;
     active_env_source := active_env_source x |}.

Definition set_pty_partial_line (v : string) (x : Shell) : Shell :=
  {| output_lines := output_lines x; cwd := cwd x;
     shell_path := shell_path x; command_history := command_history x;
     history_index := history_index x;
     history_next_index := history_next_index x;
     history_file := history_file x; in_editor_mode := in_editor_mode x;
     in_pty_mode := in_pty_mode x; pty_partial_line := v;
     real_user := real_user x; active_user := active_user x;
     hostname := hostname x; active_env := active_env x;
     active_env_type := active_env_type x;
     active_env_source := active_env_source x |}.

Definition set_active_user (v : string) (x : Shell) : Shell :=
  {| output_lines := output_lines x; cwd := cwd x;
     shell_path := shell_path x; command_history := command_history x;
     history_index := history_index x;
     history_next_index := history_next_index x;
     history_file := history_file x; in_editor_mode := in_editor_mode x;
     in_pty_mode := in_pty_mode x;
     pty_partial_line := pty_partial_line x; real_user := real_user x;
     active_user := v; hostname := hostname x;
     active_env := active_env x; active_env_type := active_env_type x;
     active_env_source := active_env_source x |}.

Definition set_active_env (v : option string) (x : Shell) : Shell :=
  {| output_lines := output_lines x; cwd := cwd x;
     shell_path := shell_path x; command_history := command_history x;
     history_index := history_index x;
     history_next_index := history_next_index x;
     history_file := history_file x; in_editor_mode := in_editor_mode x;
     in_pty_mode := in_pty_mode x;
     pty_partial_line := pty_partial_line x; real_user := real_user x;
     active_user := active_user x; hostname := hostname x;
     active_env := v; active_env_type := active_env_type x;
     active_env_source := active_env_source x |}.

Definition set_active_env_type (v : option string) (x : Shell) : Shell :=
  {| output_lines := output_lines x; cwd := cwd x;
     shell_path := shell_path x; command_history := command_history x;
     history_index := history_index x;
     history_next_index := history_next_index x;
     history_file := history_file x; in_editor_mode := in_editor_mode x;
     in_pty_mode := in_pty_mode x;
     pty_partial_line := pty_partial_line x; real_user := real_user x;
     active_user := active_user x; hostname := hostname x;
     active_env := active_env x; active_env_type := v;
     active_env_source := active_env_source x |}.

Definition set_active_env_source (v : option string) (x : Shell) : Shell :=
  {| output_lines := output_lines x; cwd := cwd x;
     shell_path := shell_path x; command_history := command_history x;
     history_index := history_index x;
     history_next_index := history_next_index x;
     history_file := history_file x; in_editor_mode := in_editor_mode x;
     in_pty_mode := in_pty_mode x;
     pty_partial_line := pty_partial_line x; real_user := real_user x;
     active_user := active_user x; hostname := hostname x;
     active_env := active_env x; active_env_type := active_env_type x;
     active_env_source := v |}.

(** The process and the machine around the executor. *)
Record Host : Type := mkHost {
  os_cwd : string;                         (* os.getcwd() *)
  os_environ : gmap string string;         (* os.environ *)
  files : gmap string file_state;          (* what exists, by absolute path *)
  which : string -> option string;         (* shutil.which *)
  euid : Z;                                (* os.geteuid() *)
  expanduser : string -> string;           (* os.path.expanduser *)
  isdir : string -> bool;                  (* os.path.isdir *)
  access_x : string -> bool;               (* os.access(path, os.X_OK) *)
  chdir_error : string -> option string;   (* the error os.chdir raises *)
  config_max_history : Z                   (* config["max_history"]; 0 also
                                              stands for a falsy value *)
}.

Definition set_os_cwd (v : string) (x : Host) : Host :=
  {| os_cwd := v; os_environ := os_environ x; files := files x;
     which := which x; euid := euid x; expanduser := expanduser x;
     isdir := isdir x; access_x := access_x x;
     chdir_error := chdir_error x;
     config_max_history := config_max_history x |}.

Definition set_os_environ (v : gmap string string) (x : Host) : Host :=
  {| os_cwd := os_cwd x; os_environ := v; files := files x;
     which := which x; euid := euid x; expanduser := expanduser x;
     isdir := isdir x; access_x := access_x x;
     chdir_error := chdir_error x;
     config_max_history := config_max_history x |}.

Definition set_files (v : gmap string file_state) (x : Host) : Host :=
  {| os_cwd := os_cwd x; os_environ := os_environ x; files := v;
     which := which x; euid := euid x; expanduser := expanduser x;
     isdir := isdir x; access_x := access_x x;
     chdir_error := chdir_error x;
     config_max_history := config_max_history x |}.


Import PyStr.

(** ** Output log: [deque(maxlen=500)] *)

Definition OUTPUT_MAXLEN : nat := 500.

(** [deque.append] on a bounded deque: the oldest lines fall out. *)
Definition deque_append (x : string) (l : list string) : list string :=
  let l' := l ++ [x] in
  List.skipn (length l' - OUTPUT_MAXLEN) l'.

(** [add_output(text)] for a single string *)
Definition add_output (line : string) (s : Shell) : Shell :=
  set_output_lines (deque_append line (output_lines s)) s.

(** [add_output(text)] for a list of strings *)
Definition add_output_lines (lines : list string) (s : Shell) : Shell :=
  set_output_lines (fold_left (fun l x => deque_append x l) lines (output_lines s)) s.

(** [clear_output] *)
Definition clear_output (s : Shell) : Shell :=
  add_output ("[System] Working Directory: " +:+ cwd s)
             (set_output_lines [] s).

(** [get_prompt_symbol] and [get_prompt_text(trailing_space=False)] *)
Definition get_prompt_symbol (s : Shell) : string :=
  if String.eqb (active_user s) "root" then "#" else "$".

Definition get_prompt_text (s : Shell) : string :=
  let env_prefix :=
    match active_env s with
    | Some e => if truthy e then "(" +:+ e +:+ ") " else ""
    | None => ""
    end in
  env_prefix +:+ active_user s +:+ "@" +:+ hostname s +:+ get_prompt_symbol s.

(** ** File system paths *)

(** The file a path names: relative paths are taken from the working
    directory of the process.  Paths are compared as text. *)
Definition resolve (w : Host) (path : string) : string :=
  if startswith "/" path then path else os_cwd w +:+ "/" +:+ path.

(** [os.path.exists] *)
Definition path_exists (w : Host) (path : string) : bool :=
  bool_decide (is_Some (files w !! resolve w path)).

(** ** History store *)

(** Python's [l[start:]] for any integer [start]. *)
Definition slice_from {A : Type} (start : Z) (l : list A) : list A :=
  let n := Z.of_nat (length l) in
  let st := if start <? 0 then Z.max 0 (start + n) else Z.min start n in
  List.skipn (Z.to_nat st) l.

(** Python's [l[:stop]] for any integer [stop]. *)
Definition slice_to {A : Type} (stop : Z) (l : list A) : list A :=
  let n := Z.of_nat (length l) in
  let sp := if stop <? 0 then Z.max 0 (stop + n) else Z.min stop n in
  List.firstn (Z.to_nat sp) l.

(** The retention cap shared by [load_history] and [add_history_entry]:
    [if max_history and len(l) > max_history: l = l[-max_history:]]. *)
Definition trim_to_max_history (max_history : Z) (l : list entry) : list entry :=
  if negb (max_history =? 0) && (max_history <? Z.of_nat (length l))
  then slice_from (- max_history) l
  else l.

Definition entry_to_json (e : entry) : json :=
  JDict [("index", JInt (index e)); ("command", JStr (command e))].

(** [dict.get(key)]: [None] when the key is absent. *)
Fixpoint dict_get (key : string) (members : list (string * json)) : option json :=
  match members with
  | [] => None
  | (k, v) :: rest => if String.eqb k key then Some v else dict_get key rest
  end.

(** [isinstance(v, int)], with the value when it holds. *)
Definition as_int (v : option json) : option Z :=
  match v with
  | Some (JInt n) => Some n
  | Some (JBool b) => Some (if b then 1 else 0)
  | _ => None
  end.

Definition as_str (v : option json) : option string :=
  match v with
  | Some (JStr t) => Some t
  | _ => None
  end.

(** One round of the cleaning loop of [load_history]: [None] is
    [continue]. *)
Definition clean_entry (item : json) : option entry :=
  match item with
  | JDict members =>
      match as_str (dict_get "command" members), as_int (dict_get "index" members) with
      | Some c, Some i => Some (mkEntry i c)
      | _, _ => None
      end
  | _ => None
  end.

(** [max(entry["index"] for entry in cleaned)] of a non-empty list *)
Definition max_index (first : entry) (rest : list entry) : Z :=
  fold_left (fun m e => Z.max m (index e)) rest (index first).

(** The outcome of writing the history file: it succeeds, or the
    exception is swallowed and the file is left as [left] ([None]: no
    file). *)
Inductive write_result : Type :=
| Written
| WriteFailed (left : option file_state).

(** [save_history] *)
Definition save_history (wr : write_result) (s : Shell) (w : Host) : Host :=
  if negb (truthy (history_file s)) then w
  else
    let payload :=
      JDict [("next_index", JInt (history_next_index s));
             ("entries", JList (map entry_to_json (command_history s)))] in
    let path := resolve w (history_file s) in
    match wr with
    | Written => set_files (<[path := Document payload]> (files w)) w
    | WriteFailed (Some f) => set_files (<[path := f]> (files w)) w
    | WriteFailed None => set_files (delete path (files w)) w
    end.

(** [load_history] *)
Definition load_history (s : Shell) (w : Host) : outcome Shell :=
  if negb (truthy (history_file s)) then Ok s
  else
    match files w !! resolve w (history_file s) with
    | None => Ok s
    | Some Garbled => Ok s
    | Some (Document (JDict members)) =>
        match default (JList []) (dict_get "entries" members) with
        | JList items =>
            let cleaned := omap clean_entry items in
            let cleaned := trim_to_max_history (config_max_history w) cleaned in
            let s := set_command_history cleaned s in
            let s := set_history_index (Z.of_nat (length cleaned)) s in
            match as_int (dict_get "next_index" members) with
            | Some n =>
                if 0 <? n then Ok (set_history_next_index n s)
                else match cleaned with
                     | e :: rest => Ok (set_history_next_index (max_index e rest + 1) s)
                     | [] => Ok s
                     end
            | None =>
                match cleaned with
                | e :: rest => Ok (set_history_next_index (max_index e rest + 1) s)
                | [] => Ok s
                end
            end
        | _ => Ok s
        end
    | Some (Document _) =>
        Raise (AttributeError "object has no attribute 'get'")
    end.

(** The trim inside [add_history_entry], with the cap read from the
    configuration. *)
Definition trim_history (s : Shell) (w : Host) : Shell :=
  set_command_history
    (trim_to_max_history (config_max_history w) (command_history s)) s.

(** [add_history_entry] *)
Definition add_history_entry (wr : write_result) (cmd : string)
  (s : Shell) (w : Host) : Shell * Host :=
  let e := mkEntry (history_next_index s) cmd in
  let s := set_history_next_index (history_next_index s + 1) s in
  let s := set_command_history (command_history s ++ [e]) s in
  let s := trim_history s w in
  let s := set_history_index (Z.of_nat (length (command_history s))) s in
  (s, save_history wr s w).

(** [clear_history] *)
Definition clear_history (wr : write_result) (s : Shell) (w : Host) : Shell * Host :=
  let s := set_command_history [] s in
  let s := set_history_index (-1) s in
  let s := set_history_next_index 1 s in
  (s, save_history wr s w).

(** [get_history_entry]: the first entry with the index. *)
Fixpoint find_entry (i : Z) (l : list entry) : option entry :=
  match l with
  | [] => None
  | e :: l' => if index e =? i then Some e else find_entry i l'
  end.

Definition get_history_entry (i : Z) (s : Shell) : option entry :=
  find_entry i (command_history s).

Definition format_entry (e : entry) : string :=
  format_4d (index e) +:+ "  " +:+ command e.

(** [format_history_lines] *)
Definition format_history_lines (s : Shell) : list string :=
  match command_history s with
  | [] => ["[System] History is empty."]
  | l => map format_entry l
  end.

(** [resolve_history_reference]: the second component is the returned
    command, [None] for Python's [None]. *)
Definition resolve_history_reference (cmd : string) (s : Shell)
  : outcome (Shell * option string) :=
  let stripped := strip cmd in
  if startswith "!" stripped && isdigit (tail_from 1 stripped) then
    match int (tail_from 1 stripped) with
    | None => Raise (ValueError "invalid literal for int() with base 10")
    | Some i =>
        match get_history_entry i s with
        | None =>
            Ok (add_output ("[Error] history: no entry at index " +:+ of_Z i) s, None)
        | Some e =>
            Ok (add_output ("[History] Recalled [" +:+ of_Z i +:+ "] " +:+ command e) s,
                Some (command e))
        end
    end
  else Ok (s, Some cmd).

(** ** Command router: [execute_command] up to the [history] built-in *)

(** Where a submitted line went. *)
Inductive route : Type :=
| NotRun                        (* returned before any command was chosen *)
| ToPty (data : string)         (* [send_to_pty(command + '\n')] *)
| BuiltIn (cmd : string)        (* run by [help], [clear] or [history] *)
| Dispatched (cmd : string).    (* handed on to the later built-ins and the
                                   process launchers, which are not modelled *)


Definition help_lines : list string :=
  [ "Built-in commands:";
    "  clear       - Clear the screen";
    "  cd <dir>    - Change directory";
    "  launch <cmd> - Temporarily exit SDL and run an app";
    "  pwd         - Print working directory";
    "  quit        - Exit the shell";
    "  jobs        - List running background processes";
    "  help        - Show this help";
    "  edit <file> - Open the built-in text editor";
    "  history     - Show command history";
    "  history N   - Show entry at index N";
    "  history -c  - Clear command history";
    "  !N          - Execute history entry N";
    "  user [name|reset] - Switch or reset user context";
    "  root        - Switch to root context";
    "  deactivate  - Deactivate active venv/conda env";
    "  venv <path> - Activate a Python venv";
    "  venv off    - Deactivate current venv";
    "  conda activate <env> - Activate conda env";
    "  conda deactivate - Deactivate conda env";
    "";
    "Shell built-ins:";
    "  source <file> - Source file (persists exported vars & cwd)";
    "  export VAR=val - Set environment variable (requires bash)";
    "";
    "Interactive commands (nano, vim, etc.) run in PTY mode.";
    "In PTY mode: Press L2+R2 together for Ctrl+C to exit apps.";
    "Keyboard users: Press Ctrl+C, Ctrl+X, or use app exit keys.";
    "Use '&' at the end of a command to run it in the background.";
    "All other commands are passed to the system shell." ].

(** The [history] built-in: [history], [history -c], [history N]. *)
Definition history_builtin (wr : write_result) (cmd : string)
  (s : Shell) (w : Host) : outcome (Shell * Host) :=
  match Shlex.split cmd with
  | Raise (ValueError msg) => Ok (add_output ("[Error] history: " +:+ msg) s, w)
  | Raise e => Raise e
  | Ok [] => Raise (IndexError "list index out of range")
  | Ok [_] => Ok (add_output_lines (format_history_lines s) s, w)
  | Ok (_ :: arg :: _) =>
      if String.eqb arg "-c" || String.eqb arg "clear" then
        let '(s, w) := clear_history wr s w in
        Ok (add_output "[System] History cleared." s, w)
      else if isdigit arg then
        match int arg with
        | None => Raise (ValueError "invalid literal for int() with base 10")
        | Some i =>
            match get_history_entry i s with
            | Some e => Ok (add_output (format_entry e) s, w)
            | None =>
                Ok (add_output ("[Error] history: no entry at index " +:+ of_Z i) s, w)
            end
        end
      else
        Ok (add_output
              "[Error] history: invalid usage (history, history N, history -c)" s, w)
  end.

(** The rest of [execute_command] once the line is in the history and
    echoed: the chain of built-ins.  [wr_clear] is the outcome of the
    history file write of [clear_history]. *)
Definition run_command (wr_clear : write_result) (cmd : string)
  (s : Shell) (w : Host) : outcome (Shell * Host * route) :=
  let cmd_lower := lower (strip cmd) in
  if String.eqb cmd_lower "help" then
    Ok (add_output_lines help_lines s, w, BuiltIn cmd)
  else if String.eqb cmd_lower "clear" then
    Ok (clear_output s, w, BuiltIn cmd)
  else if startswith "history" cmd_lower then
    '(s, w) ← history_builtin wr_clear cmd s w;
    Ok (s, w, BuiltIn cmd)
  else Ok (s, w, Dispatched cmd).

(** The echo of the command in the output log. *)
Definition echo_line (timestamp cmd : string) (s : Shell) : string :=
  "[" +:+ timestamp +:+ "] " +:+ get_prompt_text s +:+ " " +:+ cmd.

(** [execute_command].  [timestamp] is the clock reading formatted as
    [%H:%M:%S]; [wr] is the outcome of the history file write of
    [add_history_entry]. *)
Definition execute_command (timestamp : string) (wr wr_clear : write_result)
  (cmd : string) (s : Shell) (w : Host) : outcome (Shell * Host * route) :=
  if negb (truthy (strip cmd)) then Ok (s, w, NotRun)
  else if in_editor_mode s then
    Ok (add_output "[System] Finish the editor session before running commands." s,
        w, NotRun)
  else if in_pty_mode s then Ok (s, w, ToPty (cmd +:+ String Ansi.LF ""))
  else
    '(s, resolved) ← resolve_history_reference cmd s;
    match resolved with
    | None => Ok (s, w, NotRun)
    | Some cmd =>
        let '(s, w) := add_history_entry wr cmd s w in
        let s := add_output (echo_line timestamp cmd s) s in
        run_command wr_clear cmd s w
    end.


(** A freshly constructed history: [command_history = []],
    [history_index = -1], [history_next_index = 1]. *)
Definition fresh_history (s : Shell) : Shell :=
  set_history_next_index 1 (set_history_index (-1) (set_command_history [] s)).

(** The history is within the retention cap: no cap, or no more entries
    than it allows. *)
Definition within_cap (max_history : Z) (l : list entry) : Prop :=
  max_history = 0 \/ Z.of_nat (length l) <= max_history.

(** The counter is one [load_history] restores from a document: it is
    positive, or it is one more than the largest stored index. *)
Definition counter_persistable (s : Shell) : Prop :=
  0 < history_next_index s
  \/ match command_history s with
     | e :: rest => history_next_index s = max_index e rest + 1
     | [] => False
     end.

(** The counter is above every stored index. *)
Definition next_index_exceeds_all (s : Shell) : Prop :=
  Forall (fun e => index e < history_next_index s) (command_history s).

(** The two things that happen to the stored history between clears: an
    append (with the trim it ends in) and a trim on its own. *)
Inductive history_op : Type :=
| OpAppend (wr : write_result) (cmd : string)
| OpTrim.

Definition apply_history_op (op : history_op) (st : Shell * Host) : Shell * Host :=
  match op with
  | OpAppend wr cmd => add_history_entry wr cmd st.1 st.2
  | OpTrim => (trim_history st.1 st.2, st.2)
  end.

Definition run_history_ops (ops : list history_op) (st : Shell * Host) : Shell * Host :=
  fold_left (fun st op => apply_history_op op st) ops st.

(** ** Line buffer and escape filter: the loop body of [read_pty_output] *)

Record Reader : Type := mkReader {
  current_line : list ascii;
  cursor_pos : Z;
  escape_buffer : string;
  in_escape : bool
}.

(** The locals of [read_pty_output] when the thread starts. *)
Definition start_reader (s : Shell) : Reader :=
  let line := chars (pty_partial_line s) in
  mkReader line (Z.of_nat (length line)) "" false.

(** [commit_line] *)
Definition commit_line (r : Reader) (s : Shell) : Shell :=
  let clean_line := Ansi.strip_ansi_codes (text (current_line r)) in
  if truthy (strip clean_line) then add_output clean_line s else s.

(** The amount of a [CSI n D|C|K] sequence:
    [int(params) if params else 1], and [1] on [ValueError]. *)
Definition escape_amount (sequence : string) : Z :=
  let params := text (removelast (chars (tail_from 2 sequence))) in
  if truthy params then default 1 (int params) else 1.

Definition CSI : string := String Ansi.ESC "[".

(** [apply_escape_sequence] *)
Definition apply_escape_sequence (sequence : string) (r : Reader) : Reader :=
  let n := Z.of_nat (length (current_line r)) in
  let with_cursor c :=
    mkReader (current_line r) c (escape_buffer r) (in_escape r) in
  if String.eqb sequence (CSI +:+ "D") || String.eqb sequence (String Ansi.ESC "OD")
  then with_cursor (Z.max 0 (cursor_pos r - 1))
  else if String.eqb sequence (CSI +:+ "C") || String.eqb sequence (String Ansi.ESC "OC")
  then with_cursor (Z.min n (cursor_pos r + 1))
  else if startswith CSI sequence
          && (endswith "D" sequence || endswith "C" sequence || endswith "K" sequence)
  then
    let amount := escape_amount sequence in
    if endswith "D" sequence then with_cursor (Z.max 0 (cursor_pos r - amount))
    else if endswith "C" sequence then with_cursor (Z.min n (cursor_pos r + amount))
    else mkReader (slice_to (cursor_pos r) (current_line r))
                  (cursor_pos r) (escape_buffer r) (in_escape r)
  else r.

(** [current_line[cursor_pos] = char]: a negative position counts from
    the end, and a position outside the list raises [IndexError]. *)
Definition set_item (pos : Z) (c : ascii) (l : list ascii) : outcome (list ascii) :=
  let n := Z.of_nat (length l) in
  let i := if pos <? 0 then pos + n else pos in
  if (0 <=? i) && (i <? n) then Ok (<[Z.to_nat i := c]> l)
  else Raise (IndexError "list assignment index out of range").

(** One round of [for char in text]. *)
Definition feed_char (c : ascii) (st : Reader * Shell) : outcome (Reader * Shell) :=
  let '(r, s) := st in
  if in_escape r then
    let buf := escape_buffer r +:+ String c "" in
    if isalpha c || Ascii.eqb c "~" || Ascii.eqb c "m" then
      let r := apply_escape_sequence buf r in
      Ok (mkReader (current_line r) (cursor_pos r) "" false, s)
    else Ok (mkReader (current_line r) (cursor_pos r) buf true, s)
  else if Ascii.eqb c Ansi.ESC then
    Ok (mkReader (current_line r) (cursor_pos r) (String c "") true, s)
  else if Ascii.eqb c Ansi.LF then
    Ok (mkReader [] 0 (escape_buffer r) (in_escape r), commit_line r s)
  else if Ascii.eqb c Ansi.CR then
    Ok (mkReader (current_line r) 0 (escape_buffer r) (in_escape r), s)
  else if Ascii.eqb c Ansi.BS || Ascii.eqb c Ansi.DEL then
    Ok (mkReader (current_line r) (Z.max 0 (cursor_pos r - 1))
                 (escape_buffer r) (in_escape r), s)
  else
    line ← (if cursor_pos r <? Z.of_nat (length (current_line r))
            then set_item (cursor_pos r) c (current_line r)
            else Ok (current_line r ++ [c]));
    Ok (mkReader line (cursor_pos r + 1) (escape_buffer r) (in_escape r), s).

Fixpoint feed_chars (l : list ascii) (st : Reader * Shell) : outcome (Reader * Shell) :=
  match l with
  | [] => Ok st
  | c :: l' => st ← feed_char c st; feed_chars l' st
  end.

(** One chunk of decoded PTY output: every character, then the refresh
    of [pty_partial_line]. *)
Definition feed (chunk : string) (st : Reader * Shell) : outcome (Reader * Shell) :=
  '(r, s) ← feed_chars (chars chunk) st;
  Ok (r, set_pty_partial_line (Ansi.strip_ansi_codes (text (current_line r))) s).

(** The end of the stream: a last non-blank line is flushed and the
    partial line is emptied. *)
Definition finish_reader (r : Reader) (s : Shell) : Shell :=
  let s := match current_line r with
           | [] => s
           | _ => commit_line r s
           end in
  set_pty_partial_line "" s.

(** No minus sign among the characters. *)
Definition no_minus (l : list ascii) : Prop := ~ In "-"%char l.

(** The cursor stays inside the line under assembly. *)
Definition cursor_in_bounds (r : Reader) : Prop :=
  0 <= cursor_pos r <= Z.of_nat (length (current_line r)).

(** ** Environment probe *)

(** What [subprocess.run] did: it raised, or the child completed with an
    exit status and its captured streams. *)
Inductive run_result : Type :=
| RunRaised (err : string)
| Completed (returncode : Z) (stdout stderr : string).

(** [os.chdir(path)]: the error text when it raises. *)
Definition chdir (path : string) (w : Host) : string + Host :=
  match chdir_error w (resolve w path) with
  | Some err => inl err
  | None => inr (set_os_cwd (resolve w path) w)
  end.

(** [os.path.basename] *)
Fixpoint basename_chars (acc l : list ascii) : list ascii :=
  match l with
  | [] => acc
  | c :: l' => if Ascii.eqb c "/" then basename_chars [] l'
               else basename_chars (acc ++ [c]) l'
  end.

Definition basename (p : string) : string := text (basename_chars [] (chars p)).

(** [os.path.join(a, b)] for a relative [b] *)
Definition path_join (a b : string) : string :=
  if negb (truthy a) || endswith "/" a then a +:+ b else a +:+ "/" +:+ b.

Definition env_truthy (v : option string) : bool :=
  match v with
  | Some t => truthy t
  | None => false
  end.

(** [refresh_env_state] *)
Definition refresh_env_state (s : Shell) (w : Host) : Shell :=
  let conda_env := os_environ w !! "CONDA_DEFAULT_ENV" in
  let venv_path := os_environ w !! "VIRTUAL_ENV" in
  if env_truthy conda_env then
    set_active_env_type (Some "conda") (set_active_env conda_env s)
  else
    match venv_path with
    | Some vp =>
        if truthy vp then
          let s := set_active_env_type (Some "venv")
                     (set_active_env (Some (basename vp)) s) in
          if env_truthy (active_env_source s) then s
          else
            let activate_path := path_join (path_join vp "bin") "activate" in
            if path_exists w activate_path
            then set_active_env_source (Some activate_path) s
            else s
        else set_active_env_type None (set_active_env None s)
    | None => set_active_env_type None (set_active_env None s)
    end.

(** [bytes.split(sep)] for a one-byte separator *)
Fixpoint split_on (sep : ascii) (piece l : list ascii) : list (list ascii) :=
  match l with
  | [] => [piece]
  | c :: l' => if Ascii.eqb c sep then piece :: split_on sep [] l'
               else split_on sep (piece ++ [c]) l'
  end.

(** [k, v = item.split(b"=", 1)]: [None] when there is no equals sign
    and the unpacking raises. *)
Definition split_assignment (item : list ascii) : option (string * string) :=
  match find_char "=" item with
  | Some n => Some (text (List.firstn n item), text (List.skipn (S n) item))
  | None => None
  end.

(** [new_env[k] = v] on a dict kept in insertion order *)
Fixpoint dict_set (k v : string) (d : list (string * string)) : list (string * string) :=
  match d with
  | [] => [(k, v)]
  | (k', v') :: d' =>
      if String.eqb k' k then (k, v) :: d' else (k', v') :: dict_set k v d'
  end.

(** The loop that builds [new_env] from the NUL-separated dump. *)
Definition parse_env_blob (env_blob : list ascii) : list (string * string) :=
  fold_left
    (fun d item =>
       match item with
       | [] => d
       | _ => match split_assignment item with
              | Some (k, v) => dict_set k v d
              | None => d
              end
       end)
    (split_on "000" [] env_blob) [].

(** [os.environ[key] = value] for each item of [new_env]: [putenv]
    refuses an empty name. *)
Fixpoint environ_update (items : list (string * string)) (env : gmap string string)
  : outcome (gmap string string) :=
  match items with
  | [] => Ok env
  | (k, v) :: rest =>
      if truthy k then environ_update rest (<[k := v]> env)
      else Raise (OSError "[Errno 22] Invalid argument")
  end.

Definition SENTINEL : string := "__PWD__".

(** [apply_shell_environment].  [probe] is what running the wrapped
    snippet in the shell produced. *)
Definition apply_shell_environment (description : string) (probe : run_result)
  (s : Shell) (w : Host) : outcome (bool * Shell * Host) :=
  match probe with
  | RunRaised err =>
      Ok (false, add_output ("[Error] " +:+ description +:+ ": " +:+ err) s, w)
  | Completed returncode stdout stderr =>
      if negb (returncode =? 0) then
        let err := strip stderr in
        Ok (false,
            add_output ("[Error] " +:+ description +:+ " failed (exit "
                        +:+ of_Z returncode +:+ ")"
                        +:+ (if truthy err then ": " +:+ err else "")) s,
            w)
      else
        match find_char Ansi.LF (chars stdout) with
        | None =>
            Ok (false,
                add_output ("[Error] " +:+ description +:+ ": unexpected output") s, w)
        | Some nl =>
            let pwd_line := strip (head_to nl stdout) in
            let env_blob := List.skipn (S nl) (chars stdout) in
            let '(s, w) :=
              if startswith SENTINEL pwd_line then
                let new_cwd := tail_from (String.length SENTINEL) pwd_line in
                if truthy new_cwd then
                  let s := set_cwd new_cwd s in
                  match chdir new_cwd w with
                  | inr w' => (s, w')
                  | inl err =>
                      (add_output ("[Error] Could not chdir to '" +:+ new_cwd
                                   +:+ "': " +:+ err) s, w)
                  end
                else (s, w)
              else (s, w) in
            let new_env := parse_env_blob env_blob in
            let kept :=
              filter (fun kv => bool_decide (kv.1 ∈ map fst new_env)) (os_environ w) in
            env ← environ_update new_env kept;
            let w := set_os_environ env w in
            Ok (true, refresh_env_state s w, w)
        end
  end.

(** ** Alias resolution *)

(** [alias_map] *)
Definition alias_map (name : string) : option string :=
  if String.eqb name "py" then Some "python3"
  else if String.eqb name "python" then Some "python3"
  else if String.eqb name "ipy" then Some "ipython3"
  else if String.eqb name "ipython" then Some "ipython3"
  else None.

(** [shutil.which(name)] is truthy. *)
Definition on_path (w : Host) (name : string) : bool := env_truthy (which w name).

(** [resolve_command_alias]: the command to run and the note, which holds
    the two names the code prints with an arrow between them. *)
Definition resolve_command_alias (cmd : string) (w : Host)
  : string * option (string * string) :=
  let stripped := lstrip cmd in
  match chars stripped with
  | [] => (cmd, None)
  | c :: _ =>
      if Shlex.is_quote c then (cmd, None)
      else
        match Shlex.split stripped with
        | Raise _ => (cmd, None)
        | Ok [] => (cmd, None)
        | Ok (first :: _) =>
            match alias_map first with
            | None => (cmd, None)
            | Some target =>
                if on_path w first then (cmd, None)
                else if negb (on_path w target) then (cmd, None)
                else
                  let leading_ws :=
                    head_to (String.length cmd - String.length stripped) cmd in
                  (leading_ws +:+ target +:+ tail_from (String.length first) stripped,
                   Some (first, target))
            end
        end
  end.

(** ** User switching *)

(** The walk into the home directory that follows a successful switch. *)
Definition enter_home (home_dir : string) (s : Shell) (w : Host) : Shell * Host :=
  if truthy home_dir && isdir w home_dir then
    if access_x w home_dir then
      match chdir home_dir w with
      | inr w' =>
          let s := set_cwd home_dir s in
          (add_output ("[System] Changed directory to: " +:+ cwd s) s, w')
      | inl err =>
          (add_output ("[Error] Could not chdir to '" +:+ home_dir +:+ "': " +:+ err) s, w)
      end
    else
      (add_output ("[Warning] No permission to access '" +:+ home_dir
                   +:+ "'. Staying in: " +:+ cwd s) s, w)
  else (s, w).

(** [switch_user].  [check] is what running
    [sudo -n -u target -H id -un] produced, should the code get to it. *)
Definition switch_user (user_name : string) (check : run_result)
  (s : Shell) (w : Host) : bool * Shell * Host :=
  let target := strip user_name in
  if negb (truthy target) then
    (false, add_output "[Error] user: missing username" s, w)
  else if String.eqb target (real_user s) then
    let s := set_active_user (real_user s) s in
    (true, add_output ("[System] User reset to " +:+ real_user s) s, w)
  else if String.eqb target (active_user s) then
    (true, add_output ("[System] User already set to " +:+ active_user s) s, w)
  else if (euid w =? 0) && String.eqb target "root" then
    let s := set_active_user "root" s in
    let s := add_output "[System] Switched to root user" s in
    let '(s, w) := enter_home (expanduser w "~root") s w in
    (true, s, w)
  else if negb (on_path w "sudo") then
    (false, add_output "[Error] sudo not available to switch users." s, w)
  else
    match check with
    | RunRaised err => (false, add_output ("[Error] user: " +:+ err) s, w)
    | Completed returncode stdout stderr =>
        if negb (returncode =? 0) then
          let err := if truthy (strip stderr) then strip stderr else strip stdout in
          (false,
           add_output ("[Error] user: sudo permission denied or user not found"
                       +:+ (if truthy err then ": " +:+ err else "")) s,
           w)
        else
          let s := set_active_user target s in
          let s := add_output ("[System] User switched to " +:+ active_user s) s in
          let '(s, w) := enter_home (expanduser w ("~" +:+ target)) s w in
          (true, s, w)
    end.

(** ** A concrete executor and host, for the worked examples *)

Definition demo_shell : Shell :=
  {| output_lines := []; cwd := "/home/ark"; shell_path := "/bin/bash";
     command_history := []; history_index := -1; history_next_index := 1;
     history_file := "command_history.json";
     in_editor_mode := false; in_pty_mode := false; pty_partial_line := "";
     real_user := "ark"; active_user := "ark"; hostname := "r36s";
     active_env := None; active_env_type := None; active_env_source := None |}.

Definition demo_host : Host :=
  {| os_cwd := "/home/ark";
     os_environ := {[ "PATH" := "/usr/bin:/bin"; "HOME" := "/home/ark" ]};
     files := ∅;
     which := fun name =>
       if String.eqb name "python3" then Some "/usr/bin/python3"
       else if String.eqb name "sudo" then Some "/usr/bin/sudo"
       else None;
     euid := 1000;
     expanduser := fun p => if String.eqb p "~root" then "/root" else p;
     isdir := fun p => String.eqb p "/root" || String.eqb p "/home/ark";
     access_x := fun p => String.eqb p "/home/ark";
     chdir_error := fun p =>
       if String.eqb p "/home/ark" then None else Some "Permission denied";
     config_max_history := 100 |}.

(** The same host seen by a process that runs with effective user id 0
    and finds no [sudo] on the search path. *)
Definition root_host : Host :=
  {| os_cwd := "/home/ark";
     os_environ := os_environ demo_host;
     files := ∅;
     which := fun _ => None;
     euid := 0;
     expanduser := expanduser demo_host;
     isdir := isdir demo_host;
     access_x := access_x demo_host;
     chdir_error := chdir_error demo_host;
     config_max_history := 100 |}.

(** ** Failure conditions *)

(** The probe failures [apply_shell_environment] detects: the shell could
    not be run, it exited with a nonzero status, or its output has no
    newline. *)
Definition probe_rejected (probe : run_result) : Prop :=
  match probe with
  | RunRaised _ => True
  | Completed returncode stdout _ =>
      returncode <> 0 \/ find_char Ansi.LF (chars stdout) = None
  end.

(** The elevation check of [switch_user] fails or cannot be run: there is
    no [sudo], running it raised, or it exited with a nonzero status. *)
Definition elevation_check_fails (w : Host) (check : run_result) : Prop :=
  on_path w "sudo" = false
  \/ match check with
     | RunRaised _ => True
     | Completed returncode _ _ => returncode <> 0
     end.

(** The shortcut of [switch_user] that asks for no check: the process
    already has effective user id 0 and the target is root. *)
Definition root_shortcut (w : Host) (target : string) : Prop :=
  euid w = 0 /\ target = "root".

(** ** Further parts of the executor *)

(** [l[i]] for any integer [i]: a negative index counts from the end, an
    index outside the list raises [IndexError]. *)
Definition get_item {A : Type} (i : Z) (l : list A) : outcome A :=
  let n := Z.of_nat (length l) in
  let j := if i <? 0 then i + n else i in
  if (0 <=? j) && (j <? n) then
    match l !! Z.to_nat j with
    | Some x => Ok x
    | None => Raise (IndexError "list index out of range")
    end
  else Raise (IndexError "list index out of range").

(** [s[:stop]] and [s[start:]] for any integers *)
Definition str_to (stop : Z) (s : string) : string := text (slice_to stop (chars s)).
Definition str_from (start : Z) (s : string) : string := text (slice_from start (chars s)).

(** [get_output(count)]: [lines[-count:] if len(lines) > count else lines] *)
Definition get_output (count : Z) (s : Shell) : list string :=
  let lines := output_lines s in
  if count <? Z.of_nat (length lines) then slice_from (- count) lines else lines.

(** *** Arrow-key recall over the command history *)

(** [get_history_prev]: the recalled text and the executor. *)
Definition get_history_prev (s : Shell) : outcome (string * Shell) :=
  match command_history s with
  | [] => Ok ("", s)
  | _ =>
      let s := if 0 <? history_index s
               then set_history_index (history_index s - 1) s else s in
      if 0 <=? history_index s then
        e ← get_item (history_index s) (command_history s);
        Ok (command e, s)
      else Ok ("", s)
  end.

(** [get_history_next] *)
Definition get_history_next (s : Shell) : outcome (string * Shell) :=
  match command_history s with
  | [] => Ok ("", s)
  | _ =>
      if history_index s <? Z.of_nat (length (command_history s)) - 1 then
        let s := set_history_index (history_index s + 1) s in
        e ← get_item (history_index s) (command_history s);
        Ok (command e, s)
      else
        Ok ("", set_history_index (Z.of_nat (length (command_history s))) s)
  end.

(** The recall cursor is on an entry, just past the newest one, or at
    the [-1] a cleared history leaves. *)
Definition history_cursor_ok (s : Shell) : Prop :=
  -1 <= history_index s <= Z.of_nat (length (command_history s)).

(** *** The line being typed into a PTY session *)

Record PtyInput : Type := mkPtyInput {
  pty_input_buffer : string;
  pty_input_cursor : Z;
  pty_input_history : list string;
  pty_history_index : Z
}.

(** [reset_pty_input_buffer] *)
Definition reset_pty_input_buffer (p : PtyInput) : PtyInput :=
  mkPtyInput "" 0 (pty_input_history p) (pty_history_index p).

(** [set_pty_input_buffer] *)
Definition set_pty_input_buffer (t : string) (p : PtyInput) : PtyInput :=
  mkPtyInput t (len t) (pty_input_history p) (pty_history_index p).

(** [add_pty_history_entry] *)
Definition add_pty_history_entry (cmd : string) (p : PtyInput) : PtyInput :=
  let clean := strip cmd in
  if negb (truthy clean) then p
  else
    match last (pty_input_history p) with
    | Some newest =>
        if String.eqb newest clean then
          mkPtyInput (pty_input_buffer p) (pty_input_cursor p) (pty_input_history p)
                     (Z.of_nat (length (pty_input_history p)))
        else
          mkPtyInput (pty_input_buffer p) (pty_input_cursor p)
                     (pty_input_history p ++ [clean])
                     (Z.of_nat (length (pty_input_history p ++ [clean])))
    | None =>
        mkPtyInput (pty_input_buffer p) (pty_input_cursor p)
                   (pty_input_history p ++ [clean])
                   (Z.of_nat (length (pty_input_history p ++ [clean])))
    end.

(** [get_pty_history_prev]: [None] is Python's [None]. *)
Definition get_pty_history_prev (p : PtyInput) : outcome (option string * PtyInput) :=
  match pty_input_history p with
  | [] => Ok (None, p)
  | _ =>
      let p := if 0 <? pty_history_index p
               then mkPtyInput (pty_input_buffer p) (pty_input_cursor p)
                               (pty_input_history p) (pty_history_index p - 1)
               else p in
      if (0 <=? pty_history_index p)
         && (pty_history_index p <? Z.of_nat (length (pty_input_history p)))
      then t ← get_item (pty_history_index p) (pty_input_history p); Ok (Some t, p)
      else Ok (None, p)
  end.

(** [get_pty_history_next] *)
Definition get_pty_history_next (p : PtyInput) : outcome (option string * PtyInput) :=
  match pty_input_history p with
  | [] => Ok (None, p)
  | _ =>
      if pty_history_index p <? Z.of_nat (length (pty_input_history p)) - 1 then
        let p := mkPtyInput (pty_input_buffer p) (pty_input_cursor p)
                            (pty_input_history p) (pty_history_index p + 1) in
        t ← get_item (pty_history_index p) (pty_input_history p); Ok (Some t, p)
      else
        Ok (Some "",
            mkPtyInput (pty_input_buffer p) (pty_input_cursor p) (pty_input_history p)
                       (Z.of_nat (length (pty_input_history p))))
  end.

Definition with_history_index (update : bool) (p : PtyInput) : PtyInput :=
  if update
  then mkPtyInput (pty_input_buffer p) (pty_input_cursor p) (pty_input_history p)
                  (Z.of_nat (length (pty_input_history p)))
  else p.

Definition one_char (c : ascii) : string := String c "".

(** [send_to_pty(text, update_history_index)].  [active] is
    [self.in_pty_mode and self.pty_master]; [written] tells whether
    encoding the text and writing it to the master descriptor went
    through (an exception there makes the call return [False] before the
    buffer is touched). *)
Definition send_to_pty (active written : bool) (t : string)
  (update_history_index : bool) (p : PtyInput) : bool * PtyInput :=
  if negb active then (false, p)
  else if negb written then (false, p)
  else
    let n := len (pty_input_buffer p) in
    let c := pty_input_cursor p in
    let buf := pty_input_buffer p in
    if String.eqb t (String Ansi.CR (one_char Ansi.LF))
       || String.eqb t (one_char Ansi.LF) || String.eqb t (one_char Ansi.CR)
    then (true, reset_pty_input_buffer (add_pty_history_entry buf p))
    else if String.eqb t (one_char Ansi.DEL) || String.eqb t (one_char Ansi.BS) then
      if 0 <? c then
        (true,
         with_history_index update_history_index
           (mkPtyInput (str_to (c - 1) buf +:+ str_from c buf) (c - 1)
                       (pty_input_history p) (pty_history_index p)))
      else (true, p)
    else if String.eqb t (one_char "021") then
      (true, with_history_index update_history_index (reset_pty_input_buffer p))
    else if String.eqb t (one_char "001") then
      (true, mkPtyInput buf 0 (pty_input_history p) (pty_history_index p))
    else if String.eqb t (one_char "005") then
      (true, mkPtyInput buf n (pty_input_history p) (pty_history_index p))
    else if String.eqb t (CSI +:+ "D") then
      (true, mkPtyInput buf (Z.max 0 (c - 1)) (pty_input_history p) (pty_history_index p))
    else if String.eqb t (CSI +:+ "C") then
      (true, mkPtyInput buf (Z.min n (c + 1)) (pty_input_history p) (pty_history_index p))
    else
      match t with
      | String ch EmptyString =>
          if 32 <=? ord ch then
            (true,
             with_history_index update_history_index
               (mkPtyInput (str_to c buf +:+ t +:+ str_from c buf) (c + 1)
                           (pty_input_history p) (pty_history_index p)))
          else if String.eqb t (one_char "003") || String.eqb t (one_char "004")
                  || String.eqb t (one_char "024") || String.eqb t (one_char "026")
          then (true, reset_pty_input_buffer p)
          else (true, p)
      | _ => (true, p)
      end.

(** [send_key_to_pty]: the bytes of a logical key, [None] when the key
    is not in [key_map]. *)
Definition key_map (key_code : string) : option string :=
  if String.eqb key_code "UP" then Some (CSI +:+ "A")
  else if String.eqb key_code "DOWN" then Some (CSI +:+ "B")
  else if String.eqb key_code "RIGHT" then Some (CSI +:+ "C")
  else if String.eqb key_code "LEFT" then Some (CSI +:+ "D")
  else if String.eqb key_code "CTRL_C" then Some (one_char "003")
  else if String.eqb key_code "CTRL_X" then Some (one_char "024")
  else if String.eqb key_code "CTRL_D" then Some (one_char "004")
  else if String.eqb key_code "CTRL_Z" then Some (one_char "026")
  else if String.eqb key_code "BACKSPACE" then Some (one_char Ansi.DEL)
  else if String.eqb key_code "ENTER" then Some (one_char Ansi.LF)
  else if String.eqb key_code "TAB" then Some (one_char Ansi.TAB)
  else if String.eqb key_code "ESC" then Some (one_char Ansi.ESC)
  else None.

Definition send_key_to_pty (in_pty has_master written : bool) (key_code : string)
  (p : PtyInput) : bool * PtyInput :=
  if negb in_pty then (false, p)
  else
    match key_map key_code with
    | Some t => send_to_pty (in_pty && has_master) written t true p
    | None => (false, p)
    end.

(** The typed line and its cursor agree. *)
Definition pty_cursor_ok (p : PtyInput) : Prop :=
  0 <= pty_input_cursor p <= len (pty_input_buffer p).

(** No blank entry and no entry repeated right after itself. *)
Fixpoint no_adjacent_repeat (l : list string) : Prop :=
  match l with
  | a :: (b :: _) as rest => a <> b /\ no_adjacent_repeat rest
  | _ => True
  end.

Definition pty_history_ok (p : PtyInput) : Prop :=
  Forall (fun t => truthy (strip t) = true /\ strip t = t) (pty_input_history p)
  /\ no_adjacent_repeat (pty_input_history p).

(** *** What the escape filter stores and logs *)

(** A character the filter stores in the line: no control character and
    not DEL. *)
Definition plain_char (c : ascii) : bool :=
  (32 <=? ord c) && negb (Ascii.eqb c Ansi.DEL).



(** *** Typing into a PTY session *)

(** The characters of [l] sent one by one with [send_to_pty], as the
    on-screen keyboard does, each write to the session succeeding. *)
Definition type_text (l : list ascii) (p : PtyInput) : PtyInput :=
  fold_left (fun q c => (send_to_pty true true (one_char c) true q).2) l p.

(** The recall cursor of the PTY line history is on an entry or just
    past the newest one. *)
Definition pty_recall_ok (p : PtyInput) : Prop :=
  0 <= pty_history_index p <= Z.of_nat (length (pty_input_history p)).

(** ** The text editor ([class TextEditor]) *)

(** Python's [l[start:stop]] for any integers. *)
Definition slice {A : Type} (start stop : Z) (l : list A) : list A :=
  let n := Z.of_nat (length l) in
  let st := if start <? 0 then Z.max 0 (start + n) else Z.min start n in
  let sp := if stop <? 0 then Z.max 0 (stop + n) else Z.min stop n in
  List.skipn (Z.to_nat st) (List.firstn (Z.to_nat sp) l).

Definition str_slice (start stop : Z) (s : string) : string :=
  text (slice start stop (chars s)).

(** [l[start:stop] = new]: an empty or reversed range inserts at
    [start]. *)
Definition slice_assign {A : Type} (start stop : Z) (new l : list A) : list A :=
  let n := Z.of_nat (length l) in
  let st := if start <? 0 then Z.max 0 (start + n) else Z.min start n in
  let sp := if stop <? 0 then Z.max 0 (stop + n) else Z.min stop n in
  List.firstn (Z.to_nat st) l ++ new ++ List.skipn (Z.to_nat (Z.max st sp)) l.

(** [l[i] = x] *)
Definition list_set {A : Type} (i : Z) (x : A) (l : list A) : outcome (list A) :=
  let n := Z.of_nat (length l) in
  let j := if i <? 0 then i + n else i in
  if (0 <=? j) && (j <? n) then Ok (<[Z.to_nat j := x]> l)
  else Raise (IndexError "list assignment index out of range").

(** [del l[i]] *)
Definition list_del {A : Type} (i : Z) (l : list A) : outcome (list A) :=
  let n := Z.of_nat (length l) in
  let j := if i <? 0 then i + n else i in
  if (0 <=? j) && (j <? n) then Ok (delete (Z.to_nat j) l)
  else Raise (IndexError "list assignment index out of range").

(** [max(0, min(x, hi))] *)
Definition clamp0 (x hi : Z) : Z := Z.max 0 (Z.min x hi).

(** [text.split("\n")] *)
Definition split_lines (t : string) : list string :=
  map text (split_on Ansi.LF [] (chars t)).

(** The characters [str.splitlines] breaks a line at, among the code
    points below 256: LF, VT, FF, CR, FS, GS, RS and NEL. *)
Definition line_boundary (c : ascii) : bool :=
  in_range 10 13 c || in_range 28 30 c || (ord c =? 133).

(** [str.splitlines()]: CR LF counts as one break, and a break at the
    very end opens no further line.  [after_cr] tells that the previous
    character was a CR. *)
Fixpoint splitlines_go (after_cr : bool) (piece l : list ascii) : list (list ascii) :=
  match l with
  | [] => match piece with [] => [] | _ => [piece] end
  | c :: l' =>
      if after_cr && Ascii.eqb c Ansi.LF then splitlines_go false piece l'
      else if Ascii.eqb c Ansi.CR then piece :: splitlines_go true [] l'
      else if line_boundary c then piece :: splitlines_go false [] l'
      else splitlines_go false (piece ++ [c]) l'
  end.

Definition splitlines (t : string) : list string :=
  map text (splitlines_go false [] (chars t)).

(** What [handle.read()] gives for a file opened in text mode: CR LF and
    a lone CR come out as LF. *)
Fixpoint universal_newlines (after_cr : bool) (l : list ascii) : list ascii :=
  match l with
  | [] => []
  | c :: l' =>
      if after_cr && Ascii.eqb c Ansi.LF then universal_newlines false l'
      else if Ascii.eqb c Ansi.CR then Ansi.LF :: universal_newlines true l'
      else c :: universal_newlines false l'
  end.

Definition read_text (stored : string) : string :=
  text (universal_newlines false (chars stored)).

Record TextEditor : Type := mkTextEditor {
  lines : list string;
  cursor_line : Z;
  cursor_col : Z;
  scroll_line : Z;
  scroll_col : Z;
  selection_anchor : option (Z * Z);
  clipboard : string;
  dirty : bool;
  preferred_col : Z
}.

Definition set_lines (l : list string) (e : TextEditor) : TextEditor :=
  mkTextEditor l (cursor_line e) (cursor_col e) (scroll_line e) (scroll_col e)
               (selection_anchor e) (clipboard e) (dirty e) (preferred_col e).
Definition set_cursor_line (n : Z) (e : TextEditor) : TextEditor :=
  mkTextEditor (lines e) n (cursor_col e) (scroll_line e) (scroll_col e)
               (selection_anchor e) (clipboard e) (dirty e) (preferred_col e).
Definition set_cursor_col (n : Z) (e : TextEditor) : TextEditor :=
  mkTextEditor (lines e) (cursor_line e) n (scroll_line e) (scroll_col e)
               (selection_anchor e) (clipboard e) (dirty e) (preferred_col e).
Definition set_scroll_line (n : Z) (e : TextEditor) : TextEditor :=
  mkTextEditor (lines e) (cursor_line e) (cursor_col e) n (scroll_col e)
               (selection_anchor e) (clipboard e) (dirty e) (preferred_col e).
Definition set_scroll_col (n : Z) (e : TextEditor) : TextEditor :=
  mkTextEditor (lines e) (cursor_line e) (cursor_col e) (scroll_line e) n
               (selection_anchor e) (clipboard e) (dirty e) (preferred_col e).
Definition set_selection_anchor (a : option (Z * Z)) (e : TextEditor) : TextEditor :=
  mkTextEditor (lines e) (cursor_line e) (cursor_col e) (scroll_line e) (scroll_col e)
               a (clipboard e) (dirty e) (preferred_col e).
Definition set_clipboard (t : string) (e : TextEditor) : TextEditor :=
  mkTextEditor (lines e) (cursor_line e) (cursor_col e) (scroll_line e) (scroll_col e)
               (selection_anchor e) t (dirty e) (preferred_col e).
Definition set_dirty (b : bool) (e : TextEditor) : TextEditor :=
  mkTextEditor (lines e) (cursor_line e) (cursor_col e) (scroll_line e) (scroll_col e)
               (selection_anchor e) (clipboard e) b (preferred_col e).
Definition set_preferred_col (n : Z) (e : TextEditor) : TextEditor :=
  mkTextEditor (lines e) (cursor_line e) (cursor_col e) (scroll_line e) (scroll_col e)
               (selection_anchor e) (clipboard e) (dirty e) n.

(** [load_file]: [stored] is the content of the file at [file_path],
    [None] when there is no such file. *)
Definition load_file (stored : option string) (e : TextEditor) : TextEditor :=
  let l :=
    match stored with
    | Some raw =>
        let content := read_text raw in
        let l := splitlines content in
        let l := if endswith (String Ansi.LF "") content then l ++ [""] else l in
        match l with [] => [""] | _ => l end
    | None => [""]
    end in
  mkTextEditor l 0 0 0 0 None (clipboard e) false (preferred_col e).

(** [__init__] *)
Definition new_editor (stored : option string) : TextEditor :=
  load_file stored (mkTextEditor [""] 0 0 0 0 None "" false 0).

(** [save_file]: the text written and the editor afterwards;
    [failure] is the error of [open] or [write], should one be raised. *)
Definition save_file (failure : option string) (e : TextEditor)
  : outcome (string * TextEditor) :=
  let content := join_with (String Ansi.LF "") (lines e) in
  match failure with
  | Some err => Raise (OSError err)
  | None => Ok (content, set_dirty false e)
  end.

(** [_clamp_cursor] *)
Definition _clamp_cursor (e : TextEditor) : outcome TextEditor :=
  let e := set_cursor_line
             (clamp0 (cursor_line e) (Z.of_nat (length (lines e)) - 1)) e in
  line ← get_item (cursor_line e) (lines e);
  let e := set_cursor_col (clamp0 (cursor_col e) (len line)) e in
  Ok (set_preferred_col (cursor_col e) e).

(** [_clear_selection] and [_ensure_selection] *)
Definition _clear_selection (e : TextEditor) : TextEditor :=
  set_selection_anchor None e.

Definition _ensure_selection (e : TextEditor) : TextEditor :=
  match selection_anchor e with
  | None => set_selection_anchor (Some (cursor_line e, cursor_col e)) e
  | Some _ => e
  end.

(** [start > end] on pairs of integers *)
Definition pair_gtb (a b : Z * Z) : bool :=
  (b.1 <? a.1) || ((a.1 =? b.1) && (b.2 <? a.2)).

(** [get_selection_range] *)
Definition get_selection_range (e : TextEditor) : option ((Z * Z) * (Z * Z)) :=
  match selection_anchor e with
  | None => None
  | Some start =>
      let stop := (cursor_line e, cursor_col e) in
      if pair_gtb start stop then Some (stop, start) else Some (start, stop)
  end.

(** [has_selection] *)
Definition has_selection (e : TextEditor) : bool :=
  match get_selection_range e with
  | None => false
  | Some ((start_line, start_col), (end_line, end_col)) =>
      negb (start_line =? end_line) || negb (start_col =? end_col)
  end.

(** [delete_selection] *)
Definition delete_selection (e : TextEditor) : outcome (bool * TextEditor) :=
  match get_selection_range e with
  | None => Ok (false, e)
  | Some ((start_line, start_col), (end_line, end_col)) =>
      l ← (if start_line =? end_line then
             line ← get_item start_line (lines e);
             list_set start_line (str_to start_col line +:+ str_from end_col line)
                      (lines e)
           else
             first_line ← get_item start_line (lines e);
             last_line ← get_item end_line (lines e);
             Ok (slice_assign start_line (end_line + 1)
                   [str_to start_col first_line +:+ str_from end_col last_line]
                   (lines e)));
      let e := set_lines l e in
      let e := set_cursor_col start_col (set_cursor_line start_line e) in
      Ok (true, set_dirty true (_clear_selection e))
  end.

(** [insert_text] *)
Definition insert_text (t : string) (e : TextEditor) : outcome TextEditor :=
  if negb (truthy t) then Ok e
  else
    e ← (if has_selection e then '(_, e) ← delete_selection e; Ok e else Ok e);
    e ← match find_char Ansi.LF (chars t) with
        | None =>
            line ← get_item (cursor_line e) (lines e);
            l ← list_set (cursor_line e)
                  (str_to (cursor_col e) line +:+ t +:+ str_from (cursor_col e) line)
                  (lines e);
            Ok (set_cursor_col (cursor_col e + len t) (set_lines l e))
        | Some _ =>
            let parts := split_lines t in
            line ← get_item (cursor_line e) (lines e);
            let before := str_to (cursor_col e) line in
            let after := str_from (cursor_col e) line in
            first_part ← get_item 0 parts;
            last_part ← get_item (-1) parts;
            let new_lines :=
              [before +:+ first_part] ++ slice 1 (-1) parts ++ [last_part +:+ after] in
            let l := slice_assign (cursor_line e) (cursor_line e + 1) new_lines (lines e) in
            Ok (set_cursor_col (len last_part)
                  (set_cursor_line (cursor_line e + (Z.of_nat (length parts) - 1))
                     (set_lines l e)))
        end;
    Ok (set_dirty true (set_preferred_col (cursor_col e) e)).

(** [insert_newline] *)
Definition insert_newline (e : TextEditor) : outcome TextEditor :=
  insert_text (String Ansi.LF "") e.

(** [backspace] *)
Definition backspace (e : TextEditor) : outcome TextEditor :=
  if has_selection e then '(_, e) ← delete_selection e; Ok e
  else
    e ← (if 0 <? cursor_col e then
           line ← get_item (cursor_line e) (lines e);
           l ← list_set (cursor_line e)
                 (str_to (cursor_col e - 1) line +:+ str_from (cursor_col e) line)
                 (lines e);
           Ok (set_cursor_col (cursor_col e - 1) (set_lines l e))
         else if 0 <? cursor_line e then
           prev_line ← get_item (cursor_line e - 1) (lines e);
           line ← get_item (cursor_line e) (lines e);
           let e := set_cursor_col (len prev_line) e in
           l ← list_set (cursor_line e - 1) (prev_line +:+ line) (lines e);
           l ← list_del (cursor_line e) l;
           Ok (set_cursor_line (cursor_line e - 1) (set_lines l e))
         else Ok e);
    Ok (set_dirty true (set_preferred_col (cursor_col e) e)).

(** [delete_forward] *)
Definition delete_forward (e : TextEditor) : outcome TextEditor :=
  if has_selection e then '(_, e) ← delete_selection e; Ok e
  else
    line ← get_item (cursor_line e) (lines e);
    if cursor_col e <? len line then
      l ← list_set (cursor_line e)
            (str_to (cursor_col e) line +:+ str_from (cursor_col e + 1) line)
            (lines e);
      Ok (set_dirty true (set_lines l e))
    else if cursor_line e <? Z.of_nat (length (lines e)) - 1 then
      next_line ← get_item (cursor_line e + 1) (lines e);
      l ← list_set (cursor_line e) (line +:+ next_line) (lines e);
      l ← list_del (cursor_line e + 1) l;
      Ok (set_dirty true (set_lines l e))
    else Ok e.

(** The first statement of every movement: extend or drop the
    selection. *)
Definition begin_move (selecting : bool) (e : TextEditor) : TextEditor :=
  if selecting then _ensure_selection e else _clear_selection e.

(** [move_cursor] *)
Definition move_cursor (delta_line delta_col : Z) (selecting : bool) (e : TextEditor)
  : outcome TextEditor :=
  let e := begin_move selecting e in
  e ← (if negb (delta_line =? 0) then
         let e := set_cursor_line
                    (clamp0 (cursor_line e + delta_line)
                            (Z.of_nat (length (lines e)) - 1)) e in
         line ← get_item (cursor_line e) (lines e);
         Ok (set_cursor_col (clamp0 (preferred_col e) (len line)) e)
       else Ok e);
  if negb (delta_col =? 0) then
    line ← get_item (cursor_line e) (lines e);
    let e := set_cursor_col (clamp0 (cursor_col e + delta_col) (len line)) e in
    Ok (set_preferred_col (cursor_col e) e)
  else Ok e.

(** [move_home] *)
Definition move_home (selecting : bool) (e : TextEditor) : TextEditor :=
  let e := begin_move selecting e in
  let e := set_cursor_col 0 e in
  set_preferred_col (cursor_col e) e.

(** [move_end] *)
Definition move_end (selecting : bool) (e : TextEditor) : outcome TextEditor :=
  let e := begin_move selecting e in
  line ← get_item (cursor_line e) (lines e);
  let e := set_cursor_col (len line) e in
  Ok (set_preferred_col (cursor_col e) e).

(** [move_page] *)
Definition move_page (delta lines_per_page : Z) (selecting : bool) (e : TextEditor)
  : outcome TextEditor :=
  let e := begin_move selecting e in
  let e := set_cursor_line
             (clamp0 (cursor_line e + delta * lines_per_page)
                     (Z.of_nat (length (lines e)) - 1)) e in
  line ← get_item (cursor_line e) (lines e);
  Ok (set_cursor_col (clamp0 (preferred_col e) (len line)) e).

(** [select_all] *)
Definition select_all (e : TextEditor) : outcome TextEditor :=
  let e := set_selection_anchor (Some (0, 0)) e in
  let e := set_cursor_line (Z.of_nat (length (lines e)) - 1) e in
  line ← get_item (-1) (lines e);
  let e := set_cursor_col (len line) e in
  Ok (set_preferred_col (cursor_col e) e).

(** [get_selected_text] *)
Definition get_selected_text (e : TextEditor) : outcome string :=
  match get_selection_range e with
  | None => Ok ""
  | Some ((start_line, start_col), (end_line, end_col)) =>
      if start_line =? end_line then
        line ← get_item start_line (lines e);
        Ok (str_slice start_col end_col line)
      else
        first_line ← get_item start_line (lines e);
        let pieces := [str_from start_col first_line]
                        ++ slice (start_line + 1) end_line (lines e) in
        last_line ← get_item end_line (lines e);
        Ok (join_with (String Ansi.LF "") (pieces ++ [str_to end_col last_line]))
  end.

(** [copy_selection] *)
Definition copy_selection (e : TextEditor) : outcome (bool * TextEditor) :=
  if has_selection e then
    t ← get_selected_text e;
    Ok (true, set_clipboard t e)
  else Ok (false, e).

(** [cut_selection] *)
Definition cut_selection (e : TextEditor) : outcome (bool * TextEditor) :=
  match copy_selection e with
  | Ok (true, e) => '(_, e) ← delete_selection e; Ok (true, e)
  | Ok (false, e) => Ok (false, e)
  | Raise err => Raise err
  end.

(** [paste_clipboard] *)
Definition paste_clipboard (e : TextEditor) : outcome (bool * TextEditor) :=
  if truthy (clipboard e) then
    e ← insert_text (clipboard e) e;
    Ok (true, e)
  else Ok (false, e).

(** [ensure_visible] *)
Definition ensure_visible (lines_per_page cols_per_page : Z) (e : TextEditor)
  : TextEditor :=
  let e :=
    if cursor_line e <? scroll_line e then set_scroll_line (cursor_line e) e
    else if scroll_line e + lines_per_page <=? cursor_line e
         then set_scroll_line (cursor_line e - lines_per_page + 1) e
         else e in
  if cursor_col e <? scroll_col e then set_scroll_col (cursor_col e) e
  else if scroll_col e + cols_per_page <=? cursor_col e
       then set_scroll_col (cursor_col e - cols_per_page + 1) e
       else e.

(** The cursor is on a line of the text and within it. *)
Definition cursor_on_text (e : TextEditor) : Prop :=
  0 <= cursor_line e < Z.of_nat (length (lines e))
  /\ exists line,
      lines e !! Z.to_nat (cursor_line e) = Some line
      /\ 0 <= cursor_col e <= len line.

(** The whole text, as [save_file] writes it. *)
Definition content (e : TextEditor) : string :=
  join_with (String Ansi.LF "") (lines e).

(** The line under the cursor. *)
Definition cursor_text (e : TextEditor) : string :=
  default "" (lines e !! Z.to_nat (cursor_line e)).

(** The saved text up to the cursor, and from the cursor on. *)
Definition text_before (e : TextEditor) : string :=
  join_with (String Ansi.LF "")
    (take (Z.to_nat (cursor_line e)) (lines e)
     ++ [str_to (cursor_col e) (cursor_text e)]).

Definition text_after (e : TextEditor) : string :=
  join_with (String Ansi.LF "")
    (str_from (cursor_col e) (cursor_text e)
     :: drop (S (Z.to_nat (cursor_line e))) (lines e)).

(** A line that holds no character [str.splitlines] breaks at. *)
Definition plain_line (line : string) : Prop :=
  Forall (fun c => line_boundary c = false) (chars line).

(** The reads of [read_pty_output] one after the other, the locals of
    the loop carried from chunk to chunk. *)
Definition feed_chunks (chunks : list string) (st : Reader * Shell)
  : outcome (Reader * Shell) :=
  fold_left (fun acc chunk => st ← acc; feed chunk st) chunks (Ok st).

(** ** Screen helpers *)

(** What a [wrap_text] call comes to. *)
Inductive wrapped : Type :=
| Lines_ (l : list string)   (* the list returned *)
| ZeroDivision               (* [max_width // 0] raises [ZeroDivisionError] *)
| Unfinished.                (* the loop has not ended within the fuel *)

(** The [while text:] loop of [wrap_text]; [None] when the fuel runs
    out. *)
Fixpoint wrap_loop (fuel : nat) (max_chars : Z) (t : string) (acc : list string)
  : option (list string) :=
  match fuel with
  | O => None
  | S fuel' =>
      if truthy t
      then wrap_loop fuel' max_chars (str_from max_chars t) (acc ++ [str_to max_chars t])
      else Some acc
  end.

(** [wrap_text(text, max_width, char_width)], [char_width] being the
    argument or the global it defaults to. *)
Definition wrap_text (fuel : nat) (t : string) (max_width char_width : Z) : wrapped :=
  if char_width =? 0 then ZeroDivision
  else
    let max_chars := max_width / char_width in
    if len t <=? max_chars then Lines_ [t]
    else match wrap_loop fuel max_chars t [] with
         | Some l => Lines_ l
         | None => Unfinished
         end.

(** [l.index(x)]: the first position of [x], [None] for [ValueError]. *)
Fixpoint list_index (x : string) (l : list string) : option nat :=
  match l with
  | [] => None
  | y :: l' => if String.eqb y x then Some O
               else match list_index x l' with
                    | Some n => Some (S n)
                    | None => None
                    end
  end.

(** [cycle_option(current, options, direction)] *)
Definition cycle_option (current : string) (options : list string) (direction : Z)
  : outcome string :=
  match options with
  | [] => Ok current
  | _ =>
      current ← (if bool_decide (current ∈ options) then Ok current
                 else get_item 0 options);
      match list_index current options with
      | None => Raise (ValueError "is not in list")
      | Some idx =>
          get_item ((Z.of_nat idx + direction) mod Z.of_nat (length options)) options
      end
  end.

(** [clamp_layout_cursor]: the new [(cursor_x, cursor_y)] for the layout
    shown. *)
Definition clamp_layout_cursor (current_layout : list (list string))
  (cursor_x cursor_y : Z) : outcome (Z * Z) :=
  match current_layout with
  | [] => Ok (0, 0)
  | _ =>
      let cursor_y :=
        if cursor_y <? 0 then 0
        else if Z.of_nat (length current_layout) <=? cursor_y
             then Z.of_nat (length current_layout) - 1
             else cursor_y in
      row ← get_item cursor_y current_layout;
      match row with
      | [] => Ok (0, cursor_y)
      | _ =>
          let cursor_x :=
            if cursor_x <? 0 then 0
            else if Z.of_nat (length row) <=? cursor_x
                 then Z.of_nat (length row) - 1
                 else cursor_x in
          Ok (cursor_x, cursor_y)
      end
  end.

(** * Properties *)

(** ** History store *)

Section History.

Implicit Types (s : Shell) (w : Host) (l : list entry) (e : entry).

Lemma slice_from_drop {A : Type} (start : Z) (l : list A) :
  exists n, slice_from start l = List.skipn n l.
Proof. unfold slice_from. eauto. Qed.

Lemma trim_to_max_history_drop max_history l :
  exists n, trim_to_max_history max_history l = List.skipn n l.
Proof.
  unfold trim_to_max_history.
  destruct (negb (max_history =? 0) && (max_history <? Z.of_nat (length l))).
  - apply slice_from_drop.
  - exists O. reflexivity.
Qed.

Lemma trim_to_max_history_within max_history l :
  within_cap max_history l -> trim_to_max_history max_history l = l.
Proof.
  intros [-> | Hle]; unfold trim_to_max_history.
  - reflexivity.
  - replace (max_history <? Z.of_nat (length l)) with false by lia.
    now rewrite andb_false_r.
Qed.

(** With a cap that is not negative the trim keeps the newest entry. *)
Lemma trim_to_max_history_last max_history l e :
  0 <= max_history ->
  last (trim_to_max_history max_history (l ++ [e])) = Some e.
Proof.
  intros Hmh. unfold trim_to_max_history.
  destruct (negb (max_history =? 0) && (max_history <? Z.of_nat (length (l ++ [e]))))
    eqn:Hc; [| apply last_snoc].
  apply andb_prop in Hc as [Hnz Hlt].
  apply negb_true_iff, Z.eqb_neq in Hnz. apply Z.ltb_lt in Hlt.
  unfold slice_from. rewrite length_app in *. cbn [length] in *.
  replace (- max_history <? 0) with true by lia.
  set (k := Z.to_nat _).
  assert (Hk : (k <= length l)%nat) by (subst k; lia).
  change (List.skipn k (l ++ [e])) with (drop k (l ++ [e])).
  rewrite drop_app_le by exact Hk. apply last_snoc.
Qed.

Lemma trim_history_counter s w :
  history_next_index (trim_history s w) = history_next_index s.
Proof. reflexivity. Qed.

Lemma trim_history_invariant s w :
  next_index_exceeds_all s -> next_index_exceeds_all (trim_history s w).
Proof.
  unfold next_index_exceeds_all, trim_history. cbn.
  destruct (trim_to_max_history_drop (config_max_history w) (command_history s))
    as [n ->].
  apply Forall_drop.
Qed.

Lemma add_history_entry_invariant wr cmd s w :
  next_index_exceeds_all s ->
  next_index_exceeds_all (add_history_entry wr cmd s w).1.
Proof.
  unfold next_index_exceeds_all, add_history_entry. cbn. intros Hinv.
  destruct (trim_to_max_history_drop (config_max_history w)
              (command_history s ++ [mkEntry (history_next_index s) cmd]))
    as [n ->].
  apply Forall_drop, Forall_app. split.
  - eapply Forall_impl; [exact Hinv |]. cbn. intros; lia.
  - constructor; [cbn; lia | constructor].
Qed.

Lemma apply_history_op_invariant op st :
  next_index_exceeds_all st.1 -> next_index_exceeds_all (apply_history_op op st).1.
Proof.
  destruct op as [wr cmd |]; cbn.
  - apply (add_history_entry_invariant wr cmd).
  - apply trim_history_invariant.
Qed.

Lemma run_history_ops_invariant ops st :
  next_index_exceeds_all st.1 -> next_index_exceeds_all (run_history_ops ops st).1.
Proof.
  revert st. induction ops as [| op ops IH]; intros st Hinv; [exact Hinv |].
  cbn. apply IH, apply_history_op_invariant, Hinv.
Qed.

Lemma fresh_history_invariant s : next_index_exceeds_all (fresh_history s).
Proof. constructor. Qed.

(** C3. From the empty history a new executor starts with, after any
    sequence of appends and trims the counter is strictly above every
    stored index; a trim drops entries from the old end of the list and
    leaves the counter as it was. *)
Theorem history_counter_exceeds_stored_indices :
  (forall (ops : list history_op) s w,
      next_index_exceeds_all (run_history_ops ops (fresh_history s, w)).1)
  /\ (forall s w,
         history_next_index (apply_history_op OpTrim (s, w)).1 = history_next_index s
         /\ exists n,
             command_history (apply_history_op OpTrim (s, w)).1
             = List.skipn n (command_history s)).
Proof.
  split.
  - intros ops s w. apply run_history_ops_invariant, fresh_history_invariant.
  - intros s w. split; [apply trim_history_counter |].
    apply trim_to_max_history_drop.
Qed.

Lemma clear_history_host wr s w :
  config_max_history (clear_history wr s w).2 = config_max_history w.
Proof.
  unfold clear_history, save_history. cbn.
  destruct (negb (truthy (history_file s))); [reflexivity |].
  destruct wr as [| [f |]]; reflexivity.
Qed.

(** With a cap that is not negative, the first command after a clear is
    stored under index 1. *)
Lemma clear_history_then_add wr wr' cmd s w :
  0 <= config_max_history w ->
  command_history
    (add_history_entry wr' cmd (clear_history wr s w).1 (clear_history wr s w).2).1
  = [mkEntry 1 cmd].
Proof.
  intros Hmh. unfold add_history_entry, trim_history.
  cbn [fst command_history set_command_history set_history_index
       set_history_next_index history_next_index].
  rewrite clear_history_host. cbn.
  apply trim_to_max_history_within. unfold within_cap. cbn. lia.
Qed.

(** C10. Clearing the history empties the entries and sets the counter
    back to 1, the value a new executor starts with; the entry built for
    the next command therefore carries index 1 again, whatever the counter
    was before the clear. *)
Theorem clear_history_restarts_indices :
  forall wr wr' cmd s w,
    let s' := (clear_history wr s w).1 in
    let w' := (clear_history wr s w).2 in
    command_history s' = []
    /\ history_next_index s' = 1
    /\ history_next_index s' = history_next_index (fresh_history s)
    /\ command_history (add_history_entry wr' cmd s' w').1
       = trim_to_max_history (config_max_history w) [mkEntry 1 cmd]
    /\ history_next_index (add_history_entry wr' cmd s' w').1 = 2.
Proof.
  intros wr wr' cmd s w. cbn.
  repeat split.
  change (config_max_history (clear_history wr s w).2) with
    (config_max_history (save_history wr
       (set_history_next_index 1
          (set_history_index (-1) (set_command_history [] s))) w)).
  unfold save_history. cbn.
  destruct (negb (truthy (history_file s))); [reflexivity |].
  destruct wr as [| [f |]]; reflexivity.
Qed.

(** The [history -c] built-in reaches [clear_history]: whatever the
    history held, the command leaves it empty with the counter at 1. *)
Lemma history_c_restarts_indices timestamp wr wr_clear s w :
  in_editor_mode s = false ->
  in_pty_mode s = false ->
  exists s' w',
    execute_command timestamp wr wr_clear "history -c" s w
    = Ok (s', w', BuiltIn "history -c")
    /\ command_history s' = []
    /\ history_next_index s' = 1.
Proof.
  intros Hed Hpty. unfold execute_command. rewrite Hed, Hpty.
  do 2 eexists. split; [reflexivity |]. split; reflexivity.
Qed.

Lemma clean_entry_to_json e : clean_entry (entry_to_json e) = Some e.
Proof. destruct e. reflexivity. Qed.

Lemma clean_entries_to_json l : omap clean_entry (map entry_to_json l) = l.
Proof.
  induction l as [| e l IH]; [reflexivity |].
  cbn [map omap list_omap]. now rewrite clean_entry_to_json, IH.
Qed.

Lemma add_history_entry_counter_positive wr cmd s w :
  0 < history_next_index s -> 0 < history_next_index (add_history_entry wr cmd s w).1.
Proof. cbn. lia. Qed.

Lemma clear_history_counter_positive wr s w :
  0 < history_next_index (clear_history wr s w).1.
Proof. cbn. lia. Qed.

Lemma run_history_ops_counter_positive ops st :
  0 < history_next_index st.1 -> 0 < history_next_index (run_history_ops ops st).1.
Proof.
  revert st. induction ops as [| op ops IH]; intros st Hpos; [exact Hpos |].
  cbn. apply IH. destruct op as [wr cmd |]; cbn; [lia | exact Hpos].
Qed.

(** C4. When the history file is configured and the write succeeds, a
    history within the retention cap comes back from [save_history]
    followed by [load_history] with the same entries in the same order and
    the same counter, whatever the loading executor held before.  The
    counter is one the executor produces: positive (as it is from the first
    command on), or one more than the largest stored index. *)
Theorem save_then_load_history_roundtrip :
  forall s s0 w,
    truthy (history_file s) = true ->
    history_file s0 = history_file s ->
    within_cap (config_max_history w) (command_history s) ->
    counter_persistable s ->
    exists s',
      load_history s0 (save_history Written s w) = Ok s'
      /\ command_history s' = command_history s
      /\ history_next_index s' = history_next_index s.
Proof.
  intros s s0 w Hfile Hsame Hcap Hpos.
  unfold load_history, save_history. rewrite Hsame, Hfile. cbn [negb].
  change (resolve (set_files _ w) (history_file s)) with (resolve w (history_file s)).
  cbn [files set_files]. rewrite lookup_insert_eq.
  cbn [dict_get String.eqb Ascii.eqb Bool.eqb default as_int].
  cbn. rewrite clean_entries_to_json.
  rewrite (trim_to_max_history_within _ _ Hcap).
  destruct (0 <? history_next_index s) eqn:Hn.
  - eexists. split; [reflexivity |]. split; reflexivity.
  - destruct Hpos as [Hpos | Hmax]; [lia |].
    destruct (command_history s) as [| e rest]; [contradiction |].
    eexists. split; [reflexivity |]. split; [reflexivity |]. cbn. lia.
Qed.

Lemma save_then_load_history_roundtrip_witness :
  exists s',
    load_history demo_shell
      (save_history Written
         (set_history_next_index 3
            (set_command_history [mkEntry 1 "ls"; mkEntry 2 "pwd"] demo_shell))
         demo_host) = Ok s'
    /\ command_history s' = [mkEntry 1 "ls"; mkEntry 2 "pwd"]
    /\ history_next_index s' = 3.
Proof.
  apply (save_then_load_history_roundtrip
           (set_history_next_index 3
              (set_command_history [mkEntry 1 "ls"; mkEntry 2 "pwd"] demo_shell))
           demo_shell demo_host).
  - reflexivity.
  - reflexivity.
  - right. cbn. lia.
  - left. cbn. lia.
Defined.

Lemma startswith_app (p t : string) : startswith p (p +:+ t) = true.
Proof.
  induction p as [| c p IH]; [reflexivity |].
  change (String c p +:+ t) with (String c (p +:+ t)).
  cbn [startswith]. now rewrite Ascii.eqb_refl, IH.
Qed.

Lemma text_chars (t : string) : text (chars t) = t.
Proof. apply string_of_list_ascii_of_string. Qed.

Lemma find_entry_In i l e : find_entry i l = Some e -> In e l /\ index e = i.
Proof.
  induction l as [| e' l IH]; cbn; [discriminate |].
  destruct (index e' =? i) eqn:Hi.
  - intros [= ->]. split; [now left | lia].
  - intros H. destruct (IH H) as [Hin Hidx]. split; [now right | exact Hidx].
Qed.






End History.

(** ** Line buffer and escape filter *)

Section EscapeFilter.

Implicit Types (r : Reader) (s : Shell).


(** A sequence that ends in [m] (colours and attributes) changes nothing. *)
Lemma apply_escape_sequence_attributes (sequence : string) r :
  endswith "m" sequence = true -> apply_escape_sequence sequence r = r.
Proof.
  intros Hm. unfold apply_escape_sequence.
  assert (Hne : forall t : string, endswith "m" t = false -> String.eqb sequence t = false).
  { intros t Ht. destruct (String.eqb_spec sequence t) as [-> |]; congruence. }
  rewrite !Hne by reflexivity. cbn [orb].
  assert (Hend : forall c : ascii,
             c <> "m"%char -> endswith (String c "") sequence = false).
  { intros c Hc. unfold endswith in *.
    change (text (rev (chars "m"))) with (String "m"%char "") in Hm.
    change (text (rev (chars (String c "")))) with (String c "").
    destruct (text (rev (chars sequence))) as [| d t]; [discriminate |].
    cbn [startswith] in *. rewrite andb_true_r in *.
    apply Ascii.eqb_eq in Hm. subst d.
    now apply Ascii.eqb_neq. }
  rewrite !Hend by discriminate. now rewrite andb_false_r.
Qed.


(** *** The cursor stays in bounds while no parameter is negative *)

Lemma chars_text (l : list ascii) : chars (text l) = l.
Proof. apply list_ascii_of_string_of_list_ascii. Qed.

Lemma chars_app (a b : string) : chars (a +:+ b) = chars a ++ chars b.
Proof.
  unfold chars. induction a as [| c a IH]; [reflexivity |].
  change (String c a +:+ b) with (String c (a +:+ b)).
  cbn [list_ascii_of_string]. now rewrite IH.
Qed.

Lemma lstrip_chars_incl space (l : list ascii) : incl (lstrip_chars space l) l.
Proof.
  induction l as [| c l IH]; cbn; [easy |].
  destruct (space c); [now apply incl_tl | apply incl_refl].
Qed.

Lemma strip_with_incl space (t : string) : incl (chars (strip_with space t)) (chars t).
Proof.
  unfold strip_with. rewrite chars_text.
  intros c Hc. apply (lstrip_chars_incl space).
  apply in_rev in Hc. apply lstrip_chars_incl in Hc. now apply in_rev in Hc.
Qed.

Lemma is_decimal_ord (c : ascii) : is_decimal c = true -> 0 <= ord c - 48.
Proof. unfold is_decimal, in_range. lia. Qed.

Lemma int_digits_nonneg (l : list ascii) :
  forall acc after_us z, 0 <= acc -> int_digits acc after_us l = Some z -> 0 <= z.
Proof.
  induction l as [| c l IH]; intros acc after_us z Hacc; cbn.
  - destruct after_us; [discriminate | now intros [= <-]].
  - destruct (is_decimal c) eqn:Hd.
    + apply IH. pose proof (is_decimal_ord c Hd). lia.
    + destruct (Ascii.eqb c "_"); [| discriminate].
      destruct after_us; [discriminate | now apply IH].
Qed.

Lemma int_unsigned_nonneg (l : list ascii) z : int_unsigned l = Some z -> 0 <= z.
Proof.
  destruct l as [| c l]; cbn; [discriminate |].
  destruct (is_decimal c) eqn:Hd; [| discriminate].
  pose proof (is_decimal_ord c Hd).
  apply (int_digits_nonneg l (10 * 0 + (ord c - 48)) false). lia.
Qed.

Lemma int_nonneg (t : string) z : no_minus (chars t) -> int t = Some z -> 0 <= z.
Proof.
  intros Hno. unfold int.
  pose proof (strip_with_incl int_space t) as Hincl.
  destruct (chars (strip_with int_space t)) as [| c l] eqn:Hc; [discriminate |].
  destruct (Ascii.eqb_spec c "-") as [-> | Hne].
  - exfalso. apply Hno, Hincl. now left.
  - assert (Hu : forall o : option Z,
               o = Some z ->
               (o = int_unsigned l \/ o = int_unsigned (c :: l)) -> 0 <= z).
    { intros o -> [H | H]; symmetry in H; eapply int_unsigned_nonneg; exact H. }
    destruct c as [[] [] [] [] [] [] [] []]; intros H;
      try (eapply Hu; [exact H | now right]);
      try (eapply Hu; [exact H | now left]);
      congruence.
Qed.

Lemma escape_amount_nonneg (sequence : string) :
  no_minus (chars sequence) -> 0 <= escape_amount sequence.
Proof.
  intros Hno. unfold escape_amount.
  set (params := text (removelast (chars (tail_from 2 sequence)))).
  destruct (truthy params); [| lia].
  destruct (int params) as [z |] eqn:Hint; cbn; [| lia].
  apply (int_nonneg params z); [| exact Hint].
  intros Hin. apply Hno. subst params. rewrite chars_text in Hin.
  assert (Hrl : forall l : list ascii, incl (removelast l) l).
  { induction l as [| a [| b l] IH]; cbn; [easy | easy |].
    intros x [-> | Hx]; [now left | right; now apply IH]. }
  apply Hrl in Hin. unfold tail_from in Hin. rewrite chars_text in Hin.
  change (In "-"%char (drop 2 (chars sequence))) in Hin.
  apply list_elem_of_In in Hin. apply list_elem_of_In.
  eapply subseteq_drop, Hin.
Qed.

Lemma slice_to_in_bounds (l : list ascii) (c : Z) :
  0 <= c <= Z.of_nat (length l) -> Z.of_nat (length (slice_to c l)) = c.
Proof.
  intros Hc. unfold slice_to.
  replace (c <? 0) with false by lia.
  rewrite length_firstn. lia.
Qed.

Lemma apply_escape_sequence_in_bounds (sequence : string) r :
  0 <= escape_amount sequence ->
  cursor_in_bounds r -> cursor_in_bounds (apply_escape_sequence sequence r).
Proof.
  intros Hamount Hb. unfold apply_escape_sequence, cursor_in_bounds in *.
  repeat match goal with
         | |- context [if ?b then _ else _] => destruct b
         end; cbn [cursor_pos current_line]; try lia.
  rewrite slice_to_in_bounds; lia.
Qed.

Lemma apply_escape_sequence_buffer (sequence : string) r :
  escape_buffer (apply_escape_sequence sequence r) = escape_buffer r.
Proof.
  unfold apply_escape_sequence.
  repeat match goal with
         | |- context [if ?b then _ else _] => destruct b
         end; reflexivity.
Qed.

Lemma feed_char_in_bounds (c : ascii) r s :
  cursor_in_bounds r ->
  no_minus (chars (escape_buffer r)) ->
  c <> "-"%char ->
  exists r' s',
    feed_char c (r, s) = Ok (r', s')
    /\ cursor_in_bounds r'
    /\ no_minus (chars (escape_buffer r')).
Proof.
  intros Hb Hbuf Hc. unfold feed_char.
  assert (Hnil : no_minus (chars "")) by (intros []).
  destruct (in_escape r).
  { assert (Hbuf' : no_minus (chars (escape_buffer r +:+ String c ""))).
    { rewrite chars_app. intros Hin. apply in_app_or in Hin as [Hin | [Heq | []]];
        [now apply Hbuf | congruence]. }
    destruct (isalpha c || Ascii.eqb c "~" || Ascii.eqb c "m").
    - do 2 eexists. split; [reflexivity |]. split; [| exact Hnil].
      apply (apply_escape_sequence_in_bounds _ r (escape_amount_nonneg _ Hbuf') Hb).
    - do 2 eexists. split; [reflexivity |]. split; [exact Hb | exact Hbuf']. }
  destruct (Ascii.eqb c Ansi.ESC).
  { do 2 eexists. split; [reflexivity |]. split; [exact Hb |].
    cbn. intros [Heq | []]. congruence. }
  unfold cursor_in_bounds in *.
  destruct (Ascii.eqb c Ansi.LF).
  { do 2 eexists. split; [reflexivity |]. split; [cbn; lia | exact Hbuf]. }
  destruct (Ascii.eqb c Ansi.CR).
  { do 2 eexists. split; [reflexivity |]. split; [cbn; lia | exact Hbuf]. }
  destruct (Ascii.eqb c Ansi.BS || Ascii.eqb c Ansi.DEL).
  { do 2 eexists. split; [reflexivity |]. split; [cbn; lia | exact Hbuf]. }
  destruct (cursor_pos r <? Z.of_nat (length (current_line r))) eqn:Hlt.
  - unfold set_item.
    replace (cursor_pos r <? 0) with false by lia.
    rewrite Hlt. replace (0 <=? cursor_pos r) with true by lia. cbn.
    do 2 eexists. split; [reflexivity |]. split; [| exact Hbuf].
    cbn. rewrite length_insert. lia.
  - cbn. do 2 eexists. split; [reflexivity |]. split; [| exact Hbuf].
    cbn. rewrite length_app. cbn. lia.
Qed.

(** Every chunk without a minus sign is consumed without an exception and
    leaves the cursor between 0 and the length of the line. *)
Lemma feed_chars_in_bounds (l : list ascii) :
  forall r s,
    cursor_in_bounds r ->
    no_minus (chars (escape_buffer r)) ->
    no_minus l ->
    exists r' s',
      feed_chars l (r, s) = Ok (r', s')
      /\ cursor_in_bounds r'
      /\ no_minus (chars (escape_buffer r')).
Proof.
  induction l as [| c l IH]; intros r s Hb Hbuf Hl.
  - do 2 eexists. split; [reflexivity | split; assumption].
  - assert (Hc : c <> "-"%char) by (intros ->; apply Hl; now left).
    destruct (feed_char_in_bounds c r s Hb Hbuf Hc) as (r1 & s1 & Hstep & Hb1 & Hbuf1).
    assert (Hl' : no_minus l) by (intros Hin; apply Hl; now right).
    destruct (IH r1 s1 Hb1 Hbuf1 Hl') as (r2 & s2 & Hrest & Hb2 & Hbuf2).
    exists r2, s2. split; [| split; assumption].
    cbn [feed_chars]. rewrite Hstep. exact Hrest.
Qed.

Lemma start_reader_in_bounds s : cursor_in_bounds (start_reader s).
Proof. unfold cursor_in_bounds, start_reader. cbn. lia. Qed.

(** C9 fails on the code: a negative parameter turns the clamp of
    cursor-left into a move to the right of the line, and the clamp of
    cursor-right into a negative cursor, after which storing the next
    printable character raises [IndexError]. *)
Theorem escape_filter_negative_amount_leaves_bounds :
  forall s,
    let idle := mkReader [] 0 "" false in
    cursor_in_bounds idle
    /\ feed_chars (chars (CSI +:+ "-5D")) (idle, s) = Ok (mkReader [] 5 "" false, s)
    /\ ~ cursor_in_bounds (mkReader [] 5 "" false)
    /\ feed_chars (chars (CSI +:+ "-5C")) (idle, s) = Ok (mkReader [] (-5) "" false, s)
    /\ ~ cursor_in_bounds (mkReader [] (-5) "" false)
    /\ feed_chars (chars (CSI +:+ "-5Cx")) (idle, s)
       = Raise (IndexError "list assignment index out of range").
Proof.
  intros s. unfold cursor_in_bounds. cbn [cursor_pos current_line length].
  repeat split; lia.
Qed.

End EscapeFilter.

(** ** Output log *)

Lemma add_output_last (line : string) (s : Shell) :
  last (output_lines (add_output line s)) = Some line.
Proof.
  unfold add_output, deque_append. cbn [output_lines set_output_lines].
  set (l := output_lines s).
  change (List.skipn (length (l ++ [line]) - OUTPUT_MAXLEN) (l ++ [line]))
    with (drop (length (l ++ [line]) - OUTPUT_MAXLEN) (l ++ [line])).
  rewrite drop_app_le by (rewrite length_app; unfold OUTPUT_MAXLEN; cbn [length]; lia).
  apply last_snoc.
Qed.

(** An [[Error]] line: a literal that starts with the tag, possibly
    followed by computed text. *)
Ltac error_line :=
  solve [ reflexivity
        | apply startswith_app
        | apply (startswith_app "[Error] " (_ +:+ _))
        | vm_compute; reflexivity ].

(** ** Environment probe *)

Section EnvironmentProbe.

(** The failures the probe detects leave everything but the output log
    as it was, and log one line that starts with [[Error]]. *)
Lemma apply_shell_environment_rejected description probe s w :
  probe_rejected probe ->
  exists line,
    apply_shell_environment description probe s w = Ok (false, add_output line s, w)
    /\ startswith "[Error] " line = true.
Proof.
  destruct probe as [err | returncode stdout stderr]; cbn [probe_rejected].
  - intros _. eexists. split; [reflexivity | error_line].
  - intros Hrej. unfold apply_shell_environment.
    destruct (returncode =? 0) eqn:Hrc; cbn [negb].
    + destruct Hrej as [Hne | Hnl]; [lia |]. rewrite Hnl.
      eexists. split; [reflexivity | error_line].
    + eexists. split; [reflexivity | error_line].
Qed.

(** C1 fails on the code for a trailer that lacks the sentinel.  The
    shell prints a banner line before the sentinel line and exits with
    status 0.  The first line does not start with the sentinel, yet the
    call returns success without an error line: the working directory is
    kept, but the environment table is replaced by what follows the first
    newline, so [PATH] and [HOME] are gone. *)
Theorem apply_shell_environment_accepts_missing_sentinel :
  let stdout :=
    "Welcome" +:+ String Ansi.LF
      ("__PWD__/tmp" +:+ String Ansi.LF ("FOO=bar" +:+ String "000" "")) in
  exists s' w',
    apply_shell_environment "source" (Completed 0 stdout "") demo_shell demo_host
    = Ok (true, s', w')
    /\ output_lines s' = output_lines demo_shell
    /\ cwd s' = cwd demo_shell
    /\ os_cwd w' = os_cwd demo_host
    /\ os_environ demo_host !! "PATH" = Some "/usr/bin:/bin"
    /\ os_environ w' !! "PATH" = None
    /\ os_environ w' !! "HOME" = None
    /\ os_environ w' !! ("__PWD__/tmp" +:+ String Ansi.LF "FOO") = Some "bar".
Proof.
  intros stdout. do 2 eexists.
  split; [vm_compute; reflexivity |].
  repeat split; vm_compute; reflexivity.
Qed.

End EnvironmentProbe.

(** ** Alias resolution *)

Section Alias.

(** The command comes back unchanged whenever no note is returned. *)
Lemma resolve_command_alias_unchanged cmd w :
  (resolve_command_alias cmd w).2 = None -> (resolve_command_alias cmd w).1 = cmd.
Proof.
  unfold resolve_command_alias.
  repeat match goal with
         | |- context [match ?x with _ => _ end] => destruct x
         end; cbn; congruence.
Qed.

(** A replacement is made exactly when the first word is in the table,
    is not on the search path, and its target is. *)
Lemma resolve_command_alias_note cmd w first target :
  (resolve_command_alias cmd w).2 = Some (first, target) ->
  alias_map first = Some target
  /\ on_path w first = false
  /\ on_path w target = true
  /\ (exists rest, Shlex.split (lstrip cmd) = Ok (first :: rest))
  /\ (resolve_command_alias cmd w).1
     = head_to (String.length cmd - String.length (lstrip cmd)) cmd
       +:+ target +:+ tail_from (String.length first) (lstrip cmd).
Proof.
  unfold resolve_command_alias.
  destruct (chars (lstrip cmd)) as [| c l]; [discriminate |].
  destruct (Shlex.is_quote c); [discriminate |].
  destruct (Shlex.split (lstrip cmd)) as [[| f rest] | e]; try discriminate.
  destruct (alias_map f) as [t |] eqn:Hmap; [| discriminate].
  destruct (on_path w f) eqn:Hf; [discriminate |].
  destruct (on_path w t) eqn:Ht; [| discriminate].
  cbn. intros [= <- <-]. repeat split; eauto.
Qed.

Lemma length_chars (t : string) : String.length t = length (chars t).
Proof. induction t as [| c t IH]; cbn; [reflexivity | now rewrite IH]. Qed.

Lemma text_app (a b : list ascii) : text (a ++ b) = text a +:+ text b.
Proof.
  induction a as [| c a IH]; [reflexivity |].
  change (text ((c :: a) ++ b)) with (String c (text (a ++ b))).
  now rewrite IH.
Qed.

Lemma lstrip_chars_split space (l : list ascii) :
  exists pre, l = pre ++ lstrip_chars space l.
Proof.
  induction l as [| c l [pre IH]]; [now exists [] |].
  cbn. destruct (space c).
  - exists (c :: pre). cbn. now rewrite <- IH.
  - now exists [].
Qed.

(** The line is its leading white space followed by what [lstrip]
    returns, and the slice the code takes is that white space. *)
Lemma lstrip_leading_ws (cmd : string) :
  cmd = head_to (String.length cmd - String.length (lstrip cmd)) cmd +:+ lstrip cmd.
Proof.
  unfold head_to, lstrip. rewrite !length_chars, chars_text.
  destruct (lstrip_chars_split isspace (chars cmd)) as [pre Hpre].
  set (rest := lstrip_chars isspace (chars cmd)) in *.
  assert (Hn : (length (chars cmd) - length rest)%nat = length pre).
  { rewrite Hpre, length_app. lia. }
  rewrite Hn, <- text_app.
  assert (Hpre' : List.firstn (length pre) (chars cmd) = pre).
  { rewrite Hpre. change (take (length pre) (pre ++ rest) = pre).
    apply take_app_length. }
  rewrite Hpre', <- Hpre. symmetry. apply text_chars.
Qed.

(** When the first word stands in the line as it is, without quotes or
    backslashes, the alias replaces exactly that word. *)
Lemma resolve_command_alias_literal cmd w first target rest :
  (resolve_command_alias cmd w).2 = Some (first, target) ->
  lstrip cmd = first +:+ rest ->
  exists ws,
    cmd = ws +:+ first +:+ rest
    /\ (resolve_command_alias cmd w).1 = ws +:+ target +:+ rest.
Proof.
  intros Hnote Hlit.
  destruct (resolve_command_alias_note cmd w first target Hnote)
    as (_ & _ & _ & _ & ->).
  exists (head_to (String.length cmd - String.length (lstrip cmd)) cmd).
  split.
  - rewrite <- Hlit. apply lstrip_leading_ws.
  - rewrite Hlit. do 2 f_equal.
    unfold tail_from. rewrite chars_app, length_chars.
    change (List.skipn (length (chars first)) (chars first ++ chars rest))
      with (drop (length (chars first)) (chars first ++ chars rest)).
    rewrite drop_app_length. apply text_chars.
Qed.

(** C7 fails on the code when the first word is written with quotes
    inside it.  [p'y' -V] has the first word [py]; [py] is not on the
    search path and [python3] is, so the alias applies, but the code cuts
    as many characters from the line as the word has after unquoting and
    returns [python3y' -V]: the first word is not replaced by the
    interpreter name, and what is left has an unclosed quotation. *)
Theorem resolve_command_alias_mangles_quoted_word :
  Shlex.split "p'y' -V" = Ok ["py"; "-V"]
  /\ on_path demo_host "py" = false
  /\ on_path demo_host "python3" = true
  /\ resolve_command_alias "p'y' -V" demo_host
     = ("python3y' -V", Some ("py", "python3"))
  /\ Shlex.split "python3y' -V" = Raise (ValueError "No closing quotation")
  /\ resolve_command_alias "py -V" demo_host
     = ("python3 -V", Some ("py", "python3")).
Proof. repeat split. Qed.

End Alias.

(** ** User switching *)

Section UserSwitching.

(** C8, as the code has it.  When the target is neither the real nor the
    active user and the call does not take the shortcut for a process that
    already runs as root, a failing elevation check makes [switch_user]
    return failure with one [[Error]] line as the newest line of the log
    and nothing else changed: the active user, the tracked working
    directory and the host are as before. *)
Theorem switch_user_failure_leaves_identity :
  forall user_name check s w,
    strip user_name <> real_user s ->
    strip user_name <> active_user s ->
    ~ root_shortcut w (strip user_name) ->
    elevation_check_fails w check ->
    exists line,
      switch_user user_name check s w = (false, add_output line s, w)
      /\ startswith "[Error] " line = true
      /\ last (output_lines (add_output line s)) = Some line
      /\ active_user (add_output line s) = active_user s
      /\ cwd (add_output line s) = cwd s.
Proof.
  intros user_name check s w Hreal Hactive Hshort Hfail.
  unfold switch_user.
  destruct (truthy (strip user_name)); cbn [negb].
  2: { eexists. split; [reflexivity |]. split; [error_line |].
       split; [apply add_output_last | split; reflexivity]. }
  destruct (String.eqb_spec (strip user_name) (real_user s)); [contradiction |].
  destruct (String.eqb_spec (strip user_name) (active_user s)); [contradiction |].
  destruct ((euid w =? 0) && (strip user_name =? "root")%string) eqn:Hroot.
  { exfalso. apply Hshort. apply andb_prop in Hroot as [He Ht]. split.
    - lia.
    - now apply String.eqb_eq. }
  destruct (on_path w "sudo") eqn:Hsudo; cbn [negb].
  2: { eexists. split; [reflexivity |]. split; [error_line |].
       split; [apply add_output_last | split; reflexivity]. }
  destruct Hfail as [Hno | Hcheck]; [congruence |].
  destruct check as [err | returncode stdout stderr].
  - eexists. split; [reflexivity |]. split; [error_line |].
    split; [apply add_output_last | split; reflexivity].
  - replace (returncode =? 0) with false by lia. cbn [negb].
    eexists. split; [reflexivity |]. split; [error_line |].
    split; [apply add_output_last | split; reflexivity].
Qed.

Lemma switch_user_failure_leaves_identity_witness :
  exists line,
    switch_user "guest" (Completed 1 "" "sudo: a password is required")
      demo_shell demo_host
    = (false, add_output line demo_shell, demo_host)
    /\ startswith "[Error] " line = true
    /\ last (output_lines (add_output line demo_shell)) = Some line
    /\ active_user (add_output line demo_shell) = active_user demo_shell
    /\ cwd (add_output line demo_shell) = cwd demo_shell.
Proof.
  apply (switch_user_failure_leaves_identity
           "guest" (Completed 1 "" "sudo: a password is required")
           demo_shell demo_host).
  - vm_compute. discriminate.
  - vm_compute. discriminate.
  - intros [He _]. vm_compute in He. discriminate.
  - right. cbn. lia.
Defined.

(** C8 as stated fails: in a process with effective user id 0 whose real
    user is not root, the check for the target root cannot be run (there
    is no [sudo]), yet the switch succeeds and the active user changes. *)
Lemma switch_user_root_shortcut_skips_check :
  elevation_check_fails root_host (RunRaised "No such file or directory: 'sudo'")
  /\ strip "root" <> real_user demo_shell
  /\ strip "root" <> active_user demo_shell
  /\ exists s',
       switch_user "root" (RunRaised "No such file or directory: 'sudo'")
         demo_shell root_host
       = (true, s', root_host)
       /\ active_user s' = "root"
       /\ active_user demo_shell = "ark".
Proof.
  split; [left; reflexivity |].
  split; [vm_compute; discriminate |].
  split; [vm_compute; discriminate |].
  eexists. split; [vm_compute; reflexivity |]. split; reflexivity.
Qed.

End UserSwitching.

(** * Further properties *)

(** ** Output log *)

Section OutputLog.

Lemma deque_append_length (x : string) (l : list string) :
  length (deque_append x l) = Nat.min (S (length l)) OUTPUT_MAXLEN.
Proof.
  unfold deque_append. rewrite length_skipn, length_app. cbn [length]. lia.
Qed.

(** X1. The output log never holds more than 500 lines: [add_output]
    puts the line last, keeps every older line in order while there is
    room, and otherwise drops lines from the old end only. *)
Theorem add_output_bounded_append :
  forall line s,
    (length (output_lines (add_output line s)) <= OUTPUT_MAXLEN)%nat
    /\ last (output_lines (add_output line s)) = Some line
    /\ (exists k,
          output_lines (add_output line s) = List.skipn k (output_lines s ++ [line])
          /\ (k = 0 <-> length (output_lines s) < OUTPUT_MAXLEN)%nat).
Proof.
  intros line s. split; [| split].
  - unfold add_output. cbn [output_lines set_output_lines].
    rewrite deque_append_length. lia.
  - apply add_output_last.
  - exists (length (output_lines s ++ [line]) - OUTPUT_MAXLEN)%nat.
    split; [reflexivity |]. rewrite length_app. cbn [length]. lia.
Qed.

Lemma slice_from_neg_last {A : Type} (count : Z) (l : list A) :
  0 < count < Z.of_nat (length l) ->
  slice_from (- count) l = List.skipn (length l - Z.to_nat count) l.
Proof.
  intros Hc. unfold slice_from.
  replace (- count <? 0) with true by lia.
  f_equal. lia.
Qed.

(** X2. For a positive count [get_output] returns the newest lines, at
    most [count] of them and in log order; a count of 0 returns the whole
    log, not an empty list. *)
Theorem get_output_newest_lines :
  forall count s,
    0 <= count ->
    get_output count s
    = (if count =? 0 then output_lines s
       else List.skipn (length (output_lines s) - Z.to_nat count) (output_lines s))
    /\ (0 < count -> Z.of_nat (length (get_output count s)) <= count).
Proof.
  intros count s Hc. unfold get_output.
  set (l := output_lines s).
  destruct (count =? 0) eqn:H0.
  - apply Z.eqb_eq in H0. subst count. split; [| lia].
    destruct (0 <? Z.of_nat (length l)); [| reflexivity].
    unfold slice_from. change (- 0 <? 0) with false. cbv iota.
    replace (Z.to_nat (Z.min (- 0) (Z.of_nat (length l)))) with 0%nat by lia.
    reflexivity.
  - apply Z.eqb_neq in H0.
    destruct (count <? Z.of_nat (length l)) eqn:Hlt.
    + rewrite slice_from_neg_last by lia. split; [reflexivity |].
      intros _. rewrite length_skipn. lia.
    + split; [| lia].
      replace (length l - Z.to_nat count)%nat with 0%nat by lia. reflexivity.
Qed.

Lemma get_output_newest_lines_witness :
  get_output 2 (set_output_lines ["a"; "b"; "c"] demo_shell) = ["b"; "c"]
  /\ get_output 0 (set_output_lines ["a"; "b"; "c"] demo_shell) = ["a"; "b"; "c"].
Proof.
  split.
  - apply (get_output_newest_lines 2 (set_output_lines ["a"; "b"; "c"] demo_shell)). lia.
  - apply (get_output_newest_lines 0 (set_output_lines ["a"; "b"; "c"] demo_shell)). lia.
Defined.

End OutputLog.

(** ** Control-code stripping *)

Section AnsiStripping.

Lemma sub_go_sublist m (l : list ascii) : forall skip, sublist (Ansi.sub_go m skip l) l.
Proof.
  induction l as [| c l IH]; intros skip; cbn; [constructor |].
  destruct skip as [| k].
  - destruct (Ascii.eqb c Ansi.ESC).
    + destruct (m l); [apply sublist_cons, IH | apply sublist_skip, IH].
    + apply sublist_skip, IH.
  - apply sublist_cons, IH.
Qed.

Lemma filter_sublist' (f : ascii -> bool) (l : list ascii) : sublist (List.filter f l) l.
Proof.
  induction l as [| c l IH]; cbn; [constructor |].
  destruct (f c); [now apply sublist_skip | now apply sublist_cons].
Qed.

Lemma filter_true (f : ascii -> bool) (l : list ascii) :
  Forall (fun c => f c = true) l -> List.filter f l = l.
Proof.
  induction 1 as [| c l Hc _ IH]; cbn; [reflexivity |]. now rewrite Hc, IH.
Qed.

Lemma sub_go_no_escape m (l : list ascii) :
  ~ In Ansi.ESC l -> Ansi.sub_go m 0 l = l.
Proof.
  induction l as [| c l IH]; intros Hno; cbn; [reflexivity |].
  destruct (Ascii.eqb_spec c Ansi.ESC) as [-> | _].
  - exfalso. apply Hno. now left.
  - f_equal. apply IH. intros Hin. apply Hno. now right.
Qed.

Lemma printable_not_control (c : ascii) :
  Ansi.printable c = true ->
  c <> Ansi.ESC /\ Ascii.eqb c Ansi.CR = false /\ Ascii.eqb c Ansi.BEL = false.
Proof.
  intros Hp. repeat split.
  - intros ->. discriminate Hp.
  - destruct (Ascii.eqb_spec c Ansi.CR) as [-> |]; [discriminate Hp | reflexivity].
  - destruct (Ascii.eqb_spec c Ansi.BEL) as [-> |]; [discriminate Hp | reflexivity].
Qed.

(** X3. [strip_ansi_codes] only deletes: what it returns is a
    subsequence of its input, and every character left is a tab, a
    newline or has code 32 or more, so no ESC, carriage return or bell
    survives. *)
Theorem strip_ansi_codes_output_clean :
  forall t,
    sublist (chars (Ansi.strip_ansi_codes t)) (chars t)
    /\ Forall (fun c => Ansi.printable c = true) (chars (Ansi.strip_ansi_codes t))
    /\ ~ In Ansi.ESC (chars (Ansi.strip_ansi_codes t))
    /\ ~ In Ansi.CR (chars (Ansi.strip_ansi_codes t))
    /\ ~ In Ansi.BEL (chars (Ansi.strip_ansi_codes t)).
Proof.
  intros t. unfold Ansi.strip_ansi_codes. rewrite chars_text.
  assert (Hp : Forall (fun c => Ansi.printable c = true) (Ansi.strip_ansi_chars (chars t))).
  { unfold Ansi.strip_ansi_chars. apply List.Forall_forall.
    intros c Hc. now apply filter_In in Hc. }
  split; [| split; [exact Hp |]].
  - unfold Ansi.strip_ansi_chars, Ansi.sub.
    repeat (etransitivity; [apply filter_sublist' |]).
    repeat (etransitivity; [apply sub_go_sublist |]). reflexivity.
  - rewrite List.Forall_forall in Hp.
    repeat split; intros Hin; apply Hp in Hin; discriminate Hin.
Qed.

Lemma strip_ansi_chars_clean (l : list ascii) :
  Forall (fun c => Ansi.printable c = true) l -> Ansi.strip_ansi_chars l = l.
Proof.
  intros Hp. unfold Ansi.strip_ansi_chars, Ansi.sub.
  assert (Hesc : ~ In Ansi.ESC l).
  { intros Hin. rewrite List.Forall_forall in Hp. now apply Hp in Hin. }
  rewrite (sub_go_no_escape Ansi.match_ansi_escape l Hesc).
  rewrite (sub_go_no_escape Ansi.match_osc l Hesc).
  rewrite (sub_go_no_escape Ansi.match_string_sequence l Hesc).
  rewrite (filter_true (fun c => negb (Ascii.eqb c Ansi.CR))).
  2: { eapply Forall_impl; [exact Hp |]. cbn. intros c Hc.
       now destruct (printable_not_control c Hc) as (_ & -> & _). }
  rewrite (filter_true (fun c => negb (Ascii.eqb c Ansi.BEL))).
  2: { eapply Forall_impl; [exact Hp |]. cbn. intros c Hc.
       now destruct (printable_not_control c Hc) as (_ & _ & ->). }
  now apply filter_true.
Qed.

(** X4. Text made of tabs, newlines and characters with code 32 or
    more passes through [strip_ansi_codes] unchanged; stripping a second
    time therefore changes nothing. *)
Theorem strip_ansi_codes_idempotent :
  (forall t,
      Forall (fun c => Ansi.printable c = true) (chars t) ->
      Ansi.strip_ansi_codes t = t)
  /\ (forall t,
         Ansi.strip_ansi_codes (Ansi.strip_ansi_codes t) = Ansi.strip_ansi_codes t).
Proof.
  assert (Hclean : forall t,
             Forall (fun c => Ansi.printable c = true) (chars t) ->
             Ansi.strip_ansi_codes t = t).
  { intros t Hp. unfold Ansi.strip_ansi_codes.
    rewrite strip_ansi_chars_clean by exact Hp. apply text_chars. }
  split; [exact Hclean |].
  intros t. apply Hclean.
  unfold Ansi.strip_ansi_codes. rewrite chars_text.
  unfold Ansi.strip_ansi_chars. apply List.Forall_forall.
  intros c Hc. now apply filter_In in Hc.
Qed.

End AnsiStripping.

(** ** Line buffer and escape filter, in general *)

Section EscapeFilterGeneral.

Implicit Types (r : Reader) (s : Shell).

Lemma feed_chars_app (a b : list ascii) st :
  feed_chars (a ++ b) st = (st' ← feed_chars a st; feed_chars b st').
Proof.
  revert st. induction a as [| c a IH]; intros st; cbn [feed_chars app].
  - reflexivity.
  - destruct (feed_char c st) as [st1 |]; cbn; [apply IH | reflexivity].
Qed.

Lemma plain_char_cases (c : ascii) :
  plain_char c = true ->
  Ascii.eqb c Ansi.ESC = false /\ Ascii.eqb c Ansi.LF = false
  /\ Ascii.eqb c Ansi.CR = false /\ Ascii.eqb c Ansi.BS = false
  /\ Ascii.eqb c Ansi.DEL = false /\ Ansi.printable c = true.
Proof.
  unfold plain_char, Ansi.printable. intros Hp.
  apply andb_prop in Hp as [Hord Hdel]. apply negb_true_iff in Hdel.
  repeat split; try exact Hdel; try (now rewrite Hord);
    match goal with
    | |- Ascii.eqb c ?k = false =>
        destruct (Ascii.eqb_spec c k) as [-> |]; [discriminate Hord | reflexivity]
    end.
Qed.

Lemma feed_char_plain (c : ascii) (line : list ascii) (n : nat) s :
  plain_char c = true -> (n <= length line)%nat ->
  feed_char c (mkReader line (Z.of_nat n) "" false, s)
  = Ok (mkReader (List.firstn n line ++ c :: List.skipn (S n) line)
                 (Z.of_nat (S n)) "" false, s).
Proof.
  intros Hp Hn. destruct (plain_char_cases c Hp) as (He & Hl & Hc & Hb & Hd & _).
  unfold feed_char. cbn [in_escape current_line cursor_pos escape_buffer].
  rewrite He, Hl, Hc, Hb, Hd. cbn [orb].
  destruct (Z.of_nat n <? Z.of_nat (length line)) eqn:Hlt.
  - unfold set_item.
    replace (Z.of_nat n <? 0) with false by lia.
    rewrite Hlt. replace (0 <=? Z.of_nat n) with true by lia. cbn.
    rewrite Nat2Z.id. do 3 f_equal; [| lia].
    change (<[n := c]> line = take n line ++ c :: drop (S n) line).
    apply insert_take_drop. lia.
  - cbn. assert (n = length line) as -> by lia.
    change (List.firstn (length line) line) with (take (length line) line).
    change (List.skipn (S (length line)) line) with (drop (S (length line)) line).
    rewrite firstn_all, drop_ge by lia.
    do 3 f_equal. lia.
Qed.

(** Plain characters overwrite the line from the cursor on and extend it
    past its end. *)
Lemma feed_chars_plain (b : list ascii) :
  forall (line : list ascii) (n : nat) s,
    Forall (fun c => plain_char c = true) b ->
    (n <= length line)%nat ->
    feed_chars b (mkReader line (Z.of_nat n) "" false, s)
    = Ok (mkReader (List.firstn n line ++ b ++ List.skipn (n + length b) line)
                   (Z.of_nat (n + length b)) "" false, s).
Proof.
  induction b as [| c b IH]; intros line n s Hb Hn.
  - cbn [feed_chars length app]. rewrite Nat.add_0_r.
    now rewrite firstn_skipn.
  - inversion Hb as [| ? ? Hc Hb']; subst.
    cbn [feed_chars]. rewrite (feed_char_plain c line n s Hc Hn). cbn.
    rewrite IH; [| exact Hb' |].
    2: { rewrite length_app, length_firstn. cbn [length]. lia. }
    do 3 f_equal; [| f_equal; lia].
    change (take (S n) (take n line ++ c :: drop (S n) line)
            ++ b ++ drop (S n + length b) (take n line ++ c :: drop (S n) line)
            = take n line ++ (c :: b) ++ drop (n + S (length b)) line).
    assert (Hlen : length (take n line) = n) by (rewrite length_take; lia).
    rewrite take_app_ge by lia. rewrite Hlen.
    replace (S n - n)%nat with 1%nat by lia. cbn [take firstn].
    rewrite drop_app_ge by lia. rewrite Hlen.
    replace (S n + length b - n)%nat with (S (length b)) by lia. cbn [drop skipn].
    rewrite drop_drop, firstn_O. rewrite <- app_assoc. cbn.
    repeat f_equal. lia.
Qed.

(** The same from column 0. *)
Lemma feed_chars_plain_home (b line : list ascii) s :
  Forall (fun c => plain_char c = true) b ->
  feed_chars b (mkReader line 0 "" false, s)
  = Ok (mkReader (b ++ List.skipn (length b) line) (Z.of_nat (length b)) "" false, s).
Proof.
  intros Hb. exact (feed_chars_plain b line 0 s Hb (Nat.le_0_l _)).
Qed.

Lemma plain_chars_printable (l : list ascii) :
  Forall (fun c => plain_char c = true) l ->
  Forall (fun c => Ansi.printable c = true) l.
Proof.
  intros H. eapply Forall_impl; [exact H |]. cbn. intros c Hc.
  now destruct (plain_char_cases c Hc) as (_ & _ & _ & _ & _ & ?).
Qed.

(** X5. A line of ordinary characters (code 32 or more, not DEL)
    followed by a newline leaves the reader idle and commits exactly that
    text, unless it is blank, in which case nothing is logged. *)
Theorem feed_plain_line_commits_text :
  forall (l : list ascii) s,
    Forall (fun c => plain_char c = true) l ->
    feed_chars (l ++ [Ansi.LF]) (mkReader [] 0 "" false, s)
    = Ok (mkReader [] 0 "" false,
          if truthy (strip (text l)) then add_output (text l) s else s).
Proof.
  intros l s Hl. rewrite feed_chars_app.
  rewrite (feed_chars_plain_home l [] s Hl).
  cbn [mbind outcome_bind]. rewrite skipn_nil, app_nil_r.
  cbn [feed_chars]. unfold feed_char. cbn.
  unfold commit_line. cbn [current_line].
  unfold Ansi.strip_ansi_codes. rewrite chars_text.
  rewrite strip_ansi_chars_clean by (apply plain_chars_printable, Hl).
  reflexivity.
Qed.

Lemma feed_plain_line_commits_text_witness :
  feed_chars (chars "ls -l" ++ [Ansi.LF]) (mkReader [] 0 "" false, demo_shell)
  = Ok (mkReader [] 0 "" false, add_output "ls -l" demo_shell).
Proof.
  apply (feed_plain_line_commits_text (chars "ls -l") demo_shell).
  repeat constructor.
Defined.

(** X6. A carriage return sends the cursor back to column 0 without
    committing: ordinary text [b] written after text [a] and a carriage
    return overwrites the first characters of [a] and leaves the rest of
    [a] behind it. *)
Theorem feed_carriage_return_overwrites :
  forall (a b : list ascii) s,
    Forall (fun c => plain_char c = true) a ->
    Forall (fun c => plain_char c = true) b ->
    feed_chars (a ++ Ansi.CR :: b) (mkReader [] 0 "" false, s)
    = Ok (mkReader (b ++ List.skipn (length b) a) (Z.of_nat (length b)) "" false, s).
Proof.
  intros a b s Ha Hb. rewrite feed_chars_app.
  rewrite (feed_chars_plain_home a [] s Ha).
  cbn [mbind outcome_bind]. rewrite skipn_nil, app_nil_r.
  cbn [feed_chars]. unfold feed_char at 1. cbn.
  apply (feed_chars_plain_home b a s Hb).
Qed.

Lemma feed_carriage_return_overwrites_witness :
  feed_chars (chars "10% done" ++ Ansi.CR :: chars "55%") (mkReader [] 0 "" false, demo_shell)
  = Ok (mkReader (chars "55% done") 3 "" false, demo_shell).
Proof.
  apply (feed_carriage_return_overwrites (chars "10% done") (chars "55%") demo_shell);
    repeat constructor.
Defined.






End EscapeFilterGeneral.

(** ** Arrow-key recall *)

Section HistoryRecall.

Implicit Types (s : Shell) (w : Host).

Lemma get_item_in_range {A : Type} (i : Z) (l : list A) :
  0 <= i < Z.of_nat (length l) ->
  exists x, get_item i l = Ok x /\ l !! Z.to_nat i = Some x.
Proof.
  intros Hi. unfold get_item.
  replace (i <? 0) with false by lia.
  replace ((0 <=? i) && (i <? Z.of_nat (length l))) with true by lia.
  destruct (l !! Z.to_nat i) as [x |] eqn:Hx; [eauto |].
  apply lookup_ge_None in Hx. lia.
Qed.

Lemma get_item_last {A : Type} (l : list A) (x : A) :
  last l = Some x -> get_item (Z.of_nat (length l) - 1) l = Ok x.
Proof.
  intros Hlast.
  assert (Hlen : (0 < length l)%nat) by (destruct l; [discriminate | cbn; lia]).
  destruct (get_item_in_range (Z.of_nat (length l) - 1) l) as (y & -> & Hy); [lia |].
  rewrite last_lookup in Hlast.
  replace (Z.to_nat (Z.of_nat (length l) - 1)) with (Nat.pred (length l)) in Hy by lia.
  congruence.
Qed.

(** X8. With the recall cursor between [-1] and the number of entries,
    as [add_history_entry], [clear_history] and [load_history] leave it,
    neither [get_history_prev] nor [get_history_next] raises; both keep
    the cursor in that range and leave the stored entries alone. *)
Theorem history_recall_is_safe :
  forall s,
    history_cursor_ok s ->
    (exists t s',
        get_history_prev s = Ok (t, s')
        /\ history_cursor_ok s'
        /\ command_history s' = command_history s
        /\ history_next_index s' = history_next_index s)
    /\ (exists t s',
           get_history_next s = Ok (t, s')
           /\ history_cursor_ok s'
           /\ command_history s' = command_history s
           /\ history_next_index s' = history_next_index s).
Proof.
  intros s Hok. unfold history_cursor_ok in *. split.
  - unfold get_history_prev.
    destruct (command_history s) as [| e l] eqn:Hh.
    { exists "", s. rewrite Hh. repeat split; lia. }
    destruct (0 <? history_index s) eqn:Hpos.
    + cbn [history_index set_history_index command_history].
      replace (0 <=? history_index s - 1) with true by lia.
      rewrite Hh.
      destruct (get_item_in_range (history_index s - 1) (e :: l)) as (x & -> & _);
        [lia |].
      do 2 eexists. split; [reflexivity |].
      cbn [history_index set_history_index command_history history_next_index].
      rewrite Hh. repeat split; lia.
    + destruct (0 <=? history_index s) eqn:H0.
      * rewrite Hh.
        destruct (get_item_in_range (history_index s) (e :: l)) as (x & -> & _);
          [cbn [length] in *; lia |].
        do 2 eexists. split; [reflexivity |]. rewrite Hh. repeat split; lia.
      * do 2 eexists. split; [reflexivity |]. rewrite Hh. repeat split; lia.
  - unfold get_history_next.
    destruct (command_history s) as [| e l] eqn:Hh.
    { exists "", s. rewrite Hh. repeat split; lia. }
    destruct (history_index s <? Z.of_nat (length (e :: l)) - 1) eqn:Hlt.
    + cbn [history_index set_history_index command_history]. rewrite Hh.
      destruct (get_item_in_range (history_index s + 1) (e :: l)) as (x & -> & _);
        [lia |].
      do 2 eexists. split; [reflexivity |].
      cbn [history_index set_history_index command_history history_next_index].
      rewrite Hh. repeat split; lia.
    + do 2 eexists. split; [reflexivity |].
      cbn [history_index set_history_index command_history history_next_index].
      rewrite Hh. repeat split; lia.
Qed.

Lemma history_recall_is_safe_witness :
  exists t s',
    get_history_prev
      (set_history_index 2
         (set_command_history [mkEntry 1 "ls"; mkEntry 2 "pwd"] demo_shell))
    = Ok (t, s')
    /\ history_cursor_ok s'.
Proof.
  destruct (history_recall_is_safe
              (set_history_index 2
                 (set_command_history [mkEntry 1 "ls"; mkEntry 2 "pwd"] demo_shell)))
    as [(t & s' & Hrun & Hok & _) _].
  - unfold history_cursor_ok. cbn. lia.
  - exists t, s'. split; assumption.
Defined.

(** X9. Right after a command was appended (with a retention cap that
    is not negative) the first arrow-up recalls exactly that command, and
    the cursor then rests on the newest entry. *)
Theorem history_prev_recalls_newest :
  forall wr cmd s w,
    0 <= config_max_history w ->
    let s1 := (add_history_entry wr cmd s w).1 in
    history_cursor_ok s1
    /\ get_history_prev s1
       = Ok (cmd, set_history_index (Z.of_nat (length (command_history s1)) - 1) s1).
Proof.
  intros wr cmd s w Hmh s1.
  assert (Hlast : last (command_history s1) = Some (mkEntry (history_next_index s) cmd)).
  { subst s1. cbn. apply trim_to_max_history_last, Hmh. }
  assert (Hidx : history_index s1 = Z.of_nat (length (command_history s1))).
  { reflexivity. }
  clearbody s1.
  split; [unfold history_cursor_ok; lia |].
  unfold get_history_prev.
  assert (Hlen : (0 < length (command_history s1))%nat).
  { destruct (command_history s1); [discriminate | cbn; lia]. }
  destruct (command_history s1) as [| e l] eqn:Hh; [discriminate |].
  rewrite <- Hh in *.
  replace (0 <? history_index s1) with true by lia.
  cbn [history_index set_history_index command_history].
  replace (0 <=? history_index s1 - 1) with true by lia.
  rewrite Hidx, (get_item_last _ _ Hlast). reflexivity.
Qed.

Lemma history_prev_recalls_newest_witness :
  exists s', get_history_prev (add_history_entry Written "make" demo_shell demo_host).1
             = Ok ("make", s').
Proof.
  eexists.
  apply (history_prev_recalls_newest Written "make" demo_shell demo_host).
  cbn. lia.
Defined.

Lemma get_history_prev_step s :
  0 < history_index s <= Z.of_nat (length (command_history s)) ->
  get_history_prev s
  = (e ← get_item (history_index s - 1) (command_history s);
     Ok (command e, set_history_index (history_index s - 1) s)).
Proof.
  intros Hi. unfold get_history_prev.
  destruct (command_history s) as [| e0 l0] eqn:Hh; [cbn in Hi; lia |].
  replace (0 <? history_index s) with true by lia.
  cbn [history_index set_history_index command_history].
  replace (0 <=? history_index s - 1) with true by lia.
  rewrite Hh. reflexivity.
Qed.

Lemma get_history_next_step s :
  -1 <= history_index s ->
  get_history_next s
  = (if history_index s <? Z.of_nat (length (command_history s)) - 1 then
       e ← get_item (history_index s + 1) (command_history s);
       Ok (command e, set_history_index (history_index s + 1) s)
     else Ok ("", if decide (command_history s = []) then s
                  else set_history_index (Z.of_nat (length (command_history s))) s)).
Proof.
  intros Hi. unfold get_history_next.
  destruct (command_history s) as [| e0 l0] eqn:Hh.
  - cbn [length]. change (Z.of_nat 0 - 1) with (-1).
    replace (history_index s <? -1) with false by lia.
    reflexivity.
  - cbn [history_index set_history_index command_history]. rewrite Hh.
    destruct (history_index s <? Z.of_nat (length (e0 :: l0)) - 1); reflexivity.
Qed.

(** X10. Arrow-up followed by arrow-down brings the cursor back: from a
    cursor on or just past an entry other than the oldest, the pair of
    calls restores the cursor, and the arrow-down returns the entry the
    cursor started on, or the empty string if it started past the
    newest. *)
Theorem history_prev_then_next_returns :
  forall s,
    0 < history_index s <= Z.of_nat (length (command_history s)) ->
    exists t s1 u s2,
      get_history_prev s = Ok (t, s1)
      /\ get_history_next s1 = Ok (u, s2)
      /\ history_index s2 = history_index s
      /\ command_history s2 = command_history s
      /\ (command <$> (command_history s !! Z.to_nat (history_index s - 1)) = Some t)
      /\ u = default "" (command <$> (command_history s !! Z.to_nat (history_index s))).
Proof.
  intros s Hi. rewrite (get_history_prev_step s Hi).
  destruct (get_item_in_range (history_index s - 1) (command_history s))
    as (x & Hx & Hlx); [lia |].
  rewrite Hx. cbn [mbind outcome_bind].
  set (s1 := set_history_index (history_index s - 1) s).
  assert (Hh1 : command_history s1 = command_history s) by reflexivity.
  assert (Hi1 : history_index s1 = history_index s - 1) by reflexivity.
  exists (command x), s1.
  assert (Hnext := get_history_next_step s1). rewrite Hh1, Hi1 in Hnext.
  rewrite Hnext by lia. clear Hnext.
  destruct (history_index s - 1 <? Z.of_nat (length (command_history s)) - 1) eqn:Hlt.
  - destruct (get_item_in_range (history_index s - 1 + 1) (command_history s))
      as (y & Hy & Hly); [lia |].
    rewrite Hy. cbn [mbind outcome_bind].
    exists (command y), (set_history_index (history_index s - 1 + 1) s1).
    replace (history_index s - 1 + 1) with (history_index s) in * by lia.
    rewrite Hlx, Hly. repeat split; reflexivity.
  - destruct (decide (command_history s = [])) as [Hnil | Hne].
    { rewrite Hnil in Hi. cbn in Hi. lia. }
    exists "", (set_history_index (Z.of_nat (length (command_history s))) s1).
    rewrite Hlx.
    rewrite (lookup_ge_None_2 (command_history s) (Z.to_nat (history_index s))) by lia.
    repeat split; try reflexivity. cbn. lia.
Qed.

Lemma history_prev_then_next_returns_witness :
  exists t s1 u s2,
    get_history_prev
      (set_history_index 1
         (set_command_history [mkEntry 1 "ls"; mkEntry 2 "pwd"] demo_shell))
    = Ok (t, s1)
    /\ get_history_next s1 = Ok (u, s2)
    /\ history_index s2 = 1.
Proof.
  destruct (history_prev_then_next_returns
              (set_history_index 1
                 (set_command_history [mkEntry 1 "ls"; mkEntry 2 "pwd"] demo_shell)))
    as (t & s1 & u & s2 & H1 & H2 & H3 & _).
  - cbn. lia.
  - exists t, s1, u, s2. repeat split; assumption.
Defined.

End HistoryRecall.

(** ** The line typed into a PTY session *)

Section PtyInputLine.

Lemma lstrip_chars_head space (l : list ascii) :
  match lstrip_chars space l with
  | [] => True
  | c :: _ => space c = false
  end.
Proof.
  induction l as [| c l IH]; cbn; [exact I |].
  destruct (space c) eqn:Hc; [exact IH | exact Hc].
Qed.

Lemma lstrip_chars_fixed space (l : list ascii) :
  match l with [] => True | c :: _ => space c = false end ->
  lstrip_chars space l = l.
Proof. destruct l as [| c l]; cbn; [reflexivity |]. now intros ->. Qed.

Lemma lstrip_chars_idem space (l : list ascii) :
  lstrip_chars space (lstrip_chars space l) = lstrip_chars space l.
Proof. apply lstrip_chars_fixed, lstrip_chars_head. Qed.

Lemma lstrip_chars_snoc space (l : list ascii) (c : ascii) :
  space c = false -> lstrip_chars space (l ++ [c]) = lstrip_chars space l ++ [c].
Proof.
  intros Hc. induction l as [| d l IH]; cbn; [now rewrite Hc |].
  destruct (space d); [exact IH | reflexivity].
Qed.

(** Stripping twice is stripping once. *)
Lemma strip_with_idem space (t : string) :
  strip_with space (strip_with space t) = strip_with space t.
Proof.
  unfold strip_with. rewrite chars_text. f_equal.
  set (a := lstrip_chars space (chars t)).
  assert (Ha := lstrip_chars_head space (chars t)). fold a in Ha.
  assert (Hb : lstrip_chars space (rev (lstrip_chars space (rev a)))
               = rev (lstrip_chars space (rev a))).
  { apply lstrip_chars_fixed.
    destruct a as [| c a']; [exact I |].
    cbn [rev]. rewrite (lstrip_chars_snoc space (rev a') c Ha).
    rewrite rev_app_distr. cbn. exact Ha. }
  rewrite Hb, rev_involutive, lstrip_chars_idem. reflexivity.
Qed.

Lemma strip_idem (t : string) : strip (strip t) = strip t.
Proof. apply strip_with_idem. Qed.

Lemma len_app (a b : string) : len (a +:+ b) = len a + len b.
Proof.
  unfold len. rewrite !length_chars, chars_app, length_app. lia.
Qed.

Lemma len_str_to (c : Z) (t : string) :
  0 <= c <= len t -> len (str_to c t) = c.
Proof.
  unfold len, str_to, slice_to. intros Hc. rewrite !length_chars in *.
  rewrite chars_text. replace (c <? 0) with false by lia.
  rewrite length_firstn. lia.
Qed.

Lemma len_str_from (c : Z) (t : string) :
  0 <= c <= len t -> len (str_from c t) = len t - c.
Proof.
  unfold len, str_from, slice_from. intros Hc. rewrite !length_chars in *.
  rewrite chars_text. replace (c <? 0) with false by lia.
  rewrite length_skipn. lia.
Qed.

Lemma with_history_index_buffer b p :
  pty_input_buffer (with_history_index b p) = pty_input_buffer p
  /\ pty_input_cursor (with_history_index b p) = pty_input_cursor p.
Proof. destruct b; split; reflexivity. Qed.

Lemma add_pty_history_entry_buffer cmd p :
  pty_input_buffer (add_pty_history_entry cmd p) = pty_input_buffer p
  /\ pty_input_cursor (add_pty_history_entry cmd p) = pty_input_cursor p.
Proof.
  unfold add_pty_history_entry.
  destruct (negb (truthy (strip cmd))); [split; reflexivity |].
  destruct (last (pty_input_history p)) as [x |]; [| split; reflexivity].
  destruct (String.eqb x (strip cmd)); split; reflexivity.
Qed.

(** X11.  Whatever text is sent to the session, and whether or not the
    write goes through, the cursor of the typed line stays between 0 and
    the length of the line. *)
Theorem send_to_pty_keeps_cursor_in_line :
  forall active written t update p,
    pty_cursor_ok p ->
    pty_cursor_ok (send_to_pty active written t update p).2.
Proof.
  intros active written t update p Hok. unfold send_to_pty.
  destruct (negb active); [exact Hok |].
  destruct (negb written); [exact Hok |].
  unfold pty_cursor_ok in *.
  assert (Hwith : forall b q,
             0 <= pty_input_cursor q <= len (pty_input_buffer q) ->
             0 <= pty_input_cursor (with_history_index b q)
             <= len (pty_input_buffer (with_history_index b q))).
  { intros b q Hq. now destruct (with_history_index_buffer b q) as [-> ->]. }
  destruct (_ || _ || _); [cbn; change (len "") with 0; lia |].
  destruct (_ || _).
  { destruct (0 <? pty_input_cursor p) eqn:Hpos; [| exact Hok].
    cbn [snd]. apply Hwith. cbn [pty_input_cursor pty_input_buffer].
    rewrite len_app, len_str_to, len_str_from by lia. lia. }
  destruct (String.eqb t (one_char "021"));
    [cbn [snd]; apply Hwith; cbn; change (len "") with 0; lia |].
  destruct (String.eqb t (one_char "001")); [cbn; lia |].
  destruct (String.eqb t (one_char "005")); [cbn; lia |].
  destruct (String.eqb t (CSI +:+ "D")); [cbn; lia |].
  destruct (String.eqb t (CSI +:+ "C")); [cbn; lia |].
  destruct t as [| ch [| ? ?]]; try exact Hok.
  destruct (32 <=? ord ch).
  - cbn [snd]. apply Hwith. cbn [pty_input_cursor pty_input_buffer].
    rewrite !len_app, len_str_to, len_str_from by lia.
    change (len (String ch "")) with 1. lia.
  - destruct (_ || _ || _ || _); [cbn; change (len "") with 0; lia | exact Hok].
Qed.

Lemma send_to_pty_keeps_cursor_in_line_witness :
  pty_cursor_ok (send_to_pty true true (CSI +:+ "C") true (mkPtyInput "ab" 2 [] 0)).2.
Proof.
  apply (send_to_pty_keeps_cursor_in_line true true (CSI +:+ "C") true
           (mkPtyInput "ab" 2 [] 0)).
  unfold pty_cursor_ok, len. cbn. lia.
Defined.

Lemma one_char_eqb (c k : ascii) :
  String.eqb (one_char c) (one_char k) = Ascii.eqb c k.
Proof. cbn. now destruct (Ascii.eqb c k). Qed.

Lemma of_nat_ltb_0 (n : nat) : (Z.of_nat n <? 0) = false.
Proof. apply Z.ltb_ge. lia. Qed.

Lemma str_to_split (a b : list ascii) :
  str_to (Z.of_nat (length a)) (text (a ++ b)) = text a.
Proof.
  unfold str_to, slice_to. rewrite chars_text.
  rewrite of_nat_ltb_0, length_app.
  replace (Z.to_nat (Z.min (Z.of_nat (length a)) (Z.of_nat (length a + length b))))
    with (length a) by lia.
  change (text (take (length a) (a ++ b)) = text a).
  now rewrite take_app_length.
Qed.

Lemma str_from_split (a b : list ascii) :
  str_from (Z.of_nat (length a)) (text (a ++ b)) = text b.
Proof.
  unfold str_from, slice_from. rewrite chars_text.
  rewrite of_nat_ltb_0, length_app.
  replace (Z.to_nat (Z.min (Z.of_nat (length a)) (Z.of_nat (length a + length b))))
    with (length a) by lia.
  change (text (drop (length a) (a ++ b)) = text b).
  now rewrite drop_app_length.
Qed.

Lemma plain_char_not_special (ch : ascii) :
  plain_char ch = true ->
  (32 <=? ord ch) = true
  /\ forall k, ord k < 32 \/ k = Ansi.DEL -> Ascii.eqb ch k = false.
Proof.
  unfold plain_char. intros Hp. apply andb_prop in Hp as [H32 Hdel].
  split; [exact H32 |]. intros k Hk.
  destruct (Ascii.eqb_spec ch k) as [-> |]; [| reflexivity].
  destruct Hk as [Hk | ->]; [lia | discriminate Hdel].
Qed.

(** A plain character goes into the typed line at the cursor. *)
Lemma send_to_pty_plain (ch : ascii) (a b : list ascii) update hist idx :
  plain_char ch = true ->
  send_to_pty true true (one_char ch) update
    (mkPtyInput (text (a ++ b)) (Z.of_nat (length a)) hist idx)
  = (true,
     with_history_index update
       (mkPtyInput (text (a ++ ch :: b)) (Z.of_nat (length (a ++ [ch]))) hist idx)).
Proof.
  intros Hp. destruct (plain_char_not_special ch Hp) as [H32 Hne].
  unfold send_to_pty. cbn [negb pty_input_buffer pty_input_cursor pty_input_history
                           pty_history_index].
  change (String.eqb (one_char ch) (String Ansi.CR (one_char Ansi.LF)))
    with (Ascii.eqb ch Ansi.CR && false).
  rewrite andb_false_r, !one_char_eqb.
  rewrite !Hne by (first [left; reflexivity | right; reflexivity]).
  change (String.eqb (one_char ch) (CSI +:+ "D")) with (Ascii.eqb ch Ansi.ESC && false).
  change (String.eqb (one_char ch) (CSI +:+ "C")) with (Ascii.eqb ch Ansi.ESC && false).
  rewrite !andb_false_r. cbn [orb].
  unfold one_char at 1. rewrite H32.
  rewrite str_to_split, str_from_split.
  do 3 f_equal.
  - change (one_char ch) with (text [ch]). rewrite <- !text_app. reflexivity.
  - rewrite length_app. cbn. lia.
Qed.

(** A backspace removes the character before the cursor. *)
Lemma send_to_pty_backspace (ch : ascii) (a b : list ascii) update hist idx :
  send_to_pty true true (one_char Ansi.DEL) update
    (mkPtyInput (text (a ++ ch :: b)) (Z.of_nat (length (a ++ [ch]))) hist idx)
  = (true,
     with_history_index update
       (mkPtyInput (text (a ++ b)) (Z.of_nat (length a)) hist idx)).
Proof.
  unfold send_to_pty. cbn [negb pty_input_buffer pty_input_cursor pty_input_history
                           pty_history_index].
  change (String.eqb (one_char Ansi.DEL) (String Ansi.CR (one_char Ansi.LF))) with false.
  change (String.eqb (one_char Ansi.DEL) (one_char Ansi.LF)) with false.
  change (String.eqb (one_char Ansi.DEL) (one_char Ansi.CR)) with false.
  change (String.eqb (one_char Ansi.DEL) (one_char Ansi.DEL)) with true.
  cbn [orb].
  rewrite length_app. cbn [length].
  replace (0 <? Z.of_nat (length a + 1)) with true by (symmetry; apply Z.ltb_lt; lia).
  replace (Z.of_nat (length a + 1) - 1) with (Z.of_nat (length a)) by lia.
  rewrite str_to_split.
  replace (a ++ ch :: b) with ((a ++ [ch]) ++ b) by (now rewrite <- app_assoc).
  replace (Z.of_nat (length a + 1)) with (Z.of_nat (length (a ++ [ch])))
    by (rewrite length_app; cbn; lia).
  rewrite str_from_split. rewrite <- text_app. reflexivity.
Qed.

Lemma pty_cursor_split (p : PtyInput) :
  pty_cursor_ok p ->
  exists a b,
    p = mkPtyInput (text (a ++ b)) (Z.of_nat (length a))
                   (pty_input_history p) (pty_history_index p).
Proof.
  intros [H0 Hlen]. unfold len in Hlen. rewrite length_chars in Hlen.
  exists (take (Z.to_nat (pty_input_cursor p)) (chars (pty_input_buffer p))),
         (drop (Z.to_nat (pty_input_cursor p)) (chars (pty_input_buffer p))).
  rewrite take_drop, text_chars, length_take.
  replace (Z.of_nat (Z.to_nat (pty_input_cursor p) `min` length (chars (pty_input_buffer p))))
    with (pty_input_cursor p) by lia.
  now destruct p.
Qed.

(** X12.  With the cursor inside the line, typing one printable character
    (not DEL) makes the line one longer and moves the cursor one to the
    right; a backspace sent right after restores line, cursor, history
    and recall index exactly ([update_history_index] false). *)
Theorem send_to_pty_type_then_backspace :
  forall ch p,
    pty_cursor_ok p ->
    plain_char ch = true ->
    let p1 := (send_to_pty true true (one_char ch) false p).2 in
    let p2 := (send_to_pty true true (one_char Ansi.DEL) false p1).2 in
    len (pty_input_buffer p1) = len (pty_input_buffer p) + 1
    /\ pty_input_cursor p1 = pty_input_cursor p + 1
    /\ p2 = p.
Proof.
  intros ch p Hok Hp.
  destruct (pty_cursor_split p Hok) as (a & b & Hsplit).
  rewrite Hsplit. cbn zeta.
  rewrite send_to_pty_plain by exact Hp. cbn [snd with_history_index].
  rewrite send_to_pty_backspace. cbn [snd with_history_index].
  cbn [pty_input_buffer pty_input_cursor pty_input_history pty_history_index].
  unfold len. rewrite !length_chars, !chars_text, !length_app. cbn [length].
  repeat split; lia.
Qed.

Lemma send_to_pty_type_then_backspace_witness :
  let p := mkPtyInput "ab" 1 ["ls"] 0 in
  let p1 := (send_to_pty true true (one_char "x") false p).2 in
  let p2 := (send_to_pty true true (one_char Ansi.DEL) false p1).2 in
  len (pty_input_buffer p1) = len (pty_input_buffer p) + 1
  /\ pty_input_cursor p1 = pty_input_cursor p + 1
  /\ p2 = p.
Proof.
  apply (send_to_pty_type_then_backspace "x" (mkPtyInput "ab" 1 ["ls"] 0)).
  - unfold pty_cursor_ok, len. cbn. lia.
  - reflexivity.
Defined.

Lemma type_text_plain (l : list ascii) :
  forall (a b : list ascii) hist idx,
    Forall (fun c => plain_char c = true) l ->
    type_text l (mkPtyInput (text (a ++ b)) (Z.of_nat (length a)) hist idx)
    = mkPtyInput (text (a ++ l ++ b)) (Z.of_nat (length (a ++ l))) hist
                 (match l with [] => idx | _ => Z.of_nat (length hist) end).
Proof.
  induction l as [| c l IH]; intros a b hist idx Hl.
  - cbn. now rewrite app_nil_r.
  - inversion Hl as [| ? ? Hc Hl']; subst.
    unfold type_text. cbn [fold_left].
    rewrite send_to_pty_plain by exact Hc. cbn [snd with_history_index].
    fold (type_text l). 
    replace (a ++ c :: b) with ((a ++ [c]) ++ b) by now rewrite <- app_assoc.
    rewrite (IH (a ++ [c]) b hist _ Hl').
    rewrite <- !app_assoc. cbn [app]. f_equal.
    now destruct l.
Qed.

Lemma no_adjacent_repeat_snoc (l : list string) (x : string) :
  no_adjacent_repeat l ->
  last l <> Some x ->
  no_adjacent_repeat (l ++ [x]).
Proof.
  induction l as [| a [| b l'] IH]; intros Hl Hlast.
  - exact I.
  - cbn in *. split; [congruence | exact I].
  - destruct Hl as [Hab Hrest]. split; [exact Hab |].
    apply IH; [exact Hrest | exact Hlast].
Qed.

Lemma add_pty_history_entry_spec cmd p :
  pty_input_history (add_pty_history_entry cmd p)
  = (if negb (truthy (strip cmd)) then pty_input_history p
     else if bool_decide (last (pty_input_history p) = Some (strip cmd))
          then pty_input_history p
          else pty_input_history p ++ [strip cmd]).
Proof.
  unfold add_pty_history_entry.
  destruct (negb (truthy (strip cmd))); [reflexivity |].
  destruct (last (pty_input_history p)) as [x |] eqn:Hlast.
  - destruct (String.eqb_spec x (strip cmd)) as [-> | Hne].
    + now rewrite bool_decide_eq_true_2.
    + rewrite bool_decide_eq_false_2 by congruence. reflexivity.
  - now rewrite bool_decide_eq_false_2.
Qed.

Lemma add_pty_history_entry_ok cmd p :
  pty_history_ok p -> pty_recall_ok p ->
  pty_history_ok (add_pty_history_entry cmd p)
  /\ pty_recall_ok (add_pty_history_entry cmd p).
Proof.
  intros [Hall Hrep] Hrec. unfold pty_history_ok, pty_recall_ok in *.
  rewrite add_pty_history_entry_spec.
  unfold add_pty_history_entry.
  destruct (negb (truthy (strip cmd))) eqn:Hblank; [repeat split; tauto || lia |].
  apply negb_false_iff in Hblank.
  destruct (last (pty_input_history p)) as [x |] eqn:Hlast.
  - destruct (String.eqb_spec x (strip cmd)) as [-> | Hne].
    + rewrite bool_decide_eq_true_2 by reflexivity. cbn. repeat split; try tauto; lia.
    + rewrite bool_decide_eq_false_2 by congruence.
      cbn [pty_history_index pty_input_history]. repeat split; try lia.
      * apply Forall_app. split; [exact Hall |]. constructor; [| constructor].
        rewrite strip_idem. now split.
      * apply no_adjacent_repeat_snoc; [exact Hrep | congruence].
  - rewrite bool_decide_eq_false_2 by congruence.
    cbn [pty_history_index pty_input_history]. repeat split; try lia.
    + apply Forall_app. split; [exact Hall |]. constructor; [| constructor].
      rewrite strip_idem. now split.
    + apply no_adjacent_repeat_snoc; [exact Hrep | congruence].
Qed.

Lemma with_history_index_ok b p :
  pty_history_ok p -> pty_recall_ok p ->
  pty_history_ok (with_history_index b p) /\ pty_recall_ok (with_history_index b p).
Proof.
  intros Hh Hr. destruct b; [| now split]. split; [exact Hh |].
  unfold pty_recall_ok. cbn. lia.
Qed.

(** X13.  The PTY line history never holds a blank entry, an entry with
    surrounding white space, or the same entry twice in a row, and its
    recall index stays between 0 and the number of entries: every
    [send_to_pty] call keeps both. *)
Theorem send_to_pty_keeps_input_history :
  forall active written t update p,
    pty_history_ok p -> pty_recall_ok p ->
    pty_history_ok (send_to_pty active written t update p).2
    /\ pty_recall_ok (send_to_pty active written t update p).2.
Proof.
  intros active written t update p Hh Hr. unfold send_to_pty.
  destruct (negb active); [now split |].
  destruct (negb written); [now split |].
  destruct (_ || _ || _).
  { cbn [snd].
    destruct (add_pty_history_entry_ok (pty_input_buffer p) p Hh Hr) as [Hh' Hr'].
    split; [exact Hh' | exact Hr']. }
  destruct (_ || _).
  { destruct (0 <? pty_input_cursor p); [| now split].
    cbn [snd]. now apply with_history_index_ok. }
  destruct (String.eqb t (one_char "021"));
    [cbn [snd]; now apply with_history_index_ok |].
  destruct (String.eqb t (one_char "001")); [now split |].
  destruct (String.eqb t (one_char "005")); [now split |].
  destruct (String.eqb t (CSI +:+ "D")); [now split |].
  destruct (String.eqb t (CSI +:+ "C")); [now split |].
  destruct t as [| ch [| ? ?]]; try (now split).
  destruct (32 <=? ord ch).
  - cbn [snd]. now apply with_history_index_ok.
  - destruct (_ || _ || _ || _); now split.
Qed.

(** X14.  Printable characters typed one by one into an empty line build
    exactly that text, with the cursor at its end; Enter then empties the
    line and appends the stripped text to the line history, unless it is
    blank or equal to the newest entry. *)
Theorem typed_line_is_recorded_on_enter :
  forall (l : list ascii) hist idx,
    Forall (fun c => plain_char c = true) l ->
    let p := type_text l (mkPtyInput "" 0 hist idx) in
    let p' := (send_to_pty true true (one_char Ansi.LF) true p).2 in
    pty_input_buffer p = text l
    /\ pty_input_cursor p = Z.of_nat (length l)
    /\ pty_input_buffer p' = ""
    /\ pty_input_cursor p' = 0
    /\ pty_input_history p'
       = (if negb (truthy (strip (text l))) then hist
          else if bool_decide (last hist = Some (strip (text l))) then hist
               else hist ++ [strip (text l)]).
Proof.
  intros l hist idx Hl.
  pose proof (type_text_plain l [] [] hist idx Hl) as Htype.
  cbn [app length] in Htype. change (text []) with "" in Htype.
  change (Z.of_nat 0) with 0 in Htype. rewrite app_nil_r in Htype.
  cbn zeta. rewrite Htype.
  cbn [pty_input_buffer pty_input_cursor].
  split; [reflexivity |]. split; [reflexivity |].
  unfold send_to_pty. cbn [negb pty_input_buffer].
  change (String.eqb (one_char Ansi.LF) (one_char Ansi.LF)) with true.
  rewrite orb_true_r. cbn [orb snd].
  split; [reflexivity |]. split; [reflexivity |].
  cbn [reset_pty_input_buffer pty_input_history].
  now rewrite add_pty_history_entry_spec.
Qed.

(** X15.  With a non-empty line history and the recall index in range,
    [get_pty_history_prev] returns an entry of the history, and
    [get_pty_history_next] returns an entry or the empty string; neither
    raises, changes the history or the typed line, or moves the index
    out of range. *)
Theorem pty_recall_returns_entries :
  forall p,
    pty_recall_ok p ->
    pty_input_history p <> [] ->
    (exists t p',
        get_pty_history_prev p = Ok (Some t, p')
        /\ In t (pty_input_history p)
        /\ pty_recall_ok p'
        /\ pty_input_history p' = pty_input_history p
        /\ pty_input_buffer p' = pty_input_buffer p)
    /\ (exists u p',
           get_pty_history_next p = Ok (Some u, p')
           /\ (u = "" \/ In u (pty_input_history p))
           /\ pty_recall_ok p'
           /\ pty_input_history p' = pty_input_history p
           /\ pty_input_buffer p' = pty_input_buffer p).
Proof.
  intros p Hr Hne. unfold pty_recall_ok in *.
  assert (Hlen : (0 < length (pty_input_history p))%nat).
  { destruct (pty_input_history p); [congruence | cbn; lia]. }
  split.
  - unfold get_pty_history_prev.
    destruct (pty_input_history p) as [| e0 l0] eqn:Hh; [congruence |].
    rewrite <- Hh in *. clear Hh e0 l0.
    set (i := if 0 <? pty_history_index p then pty_history_index p - 1
              else pty_history_index p).
    assert (Hi : 0 <= i < Z.of_nat (length (pty_input_history p))).
    { subst i. destruct (0 <? pty_history_index p) eqn:Hpos; lia. }
    destruct (get_item_in_range i (pty_input_history p) Hi) as (x & Hx & Hlx).
    exists x, (mkPtyInput (pty_input_buffer p) (pty_input_cursor p)
                          (pty_input_history p) i).
    split.
    + subst i. destruct (0 <? pty_history_index p) eqn:Hpos;
        cbn [pty_history_index pty_input_history].
      * replace ((0 <=? pty_history_index p - 1)
                 && (pty_history_index p - 1 <? Z.of_nat (length (pty_input_history p))))
          with true by lia.
        now rewrite Hx.
      * replace ((0 <=? pty_history_index p)
                 && (pty_history_index p <? Z.of_nat (length (pty_input_history p))))
          with true by lia.
        rewrite Hx. cbn. now destruct p.
    + cbn. repeat split; try lia.
      apply list_elem_of_In, list_elem_of_lookup. eauto.
  - unfold get_pty_history_next.
    destruct (pty_input_history p) as [| e0 l0] eqn:Hh; [congruence |].
    rewrite <- Hh in *. clear Hh e0 l0.
    destruct (pty_history_index p <? Z.of_nat (length (pty_input_history p)) - 1) eqn:Hlt.
    + cbn [pty_history_index pty_input_history].
      destruct (get_item_in_range (pty_history_index p + 1) (pty_input_history p))
        as (x & Hx & Hlx); [lia |].
      rewrite Hx. do 2 eexists. split; [reflexivity |].
      cbn. repeat split; try lia.
      right. apply list_elem_of_In, list_elem_of_lookup. eauto.
    + do 2 eexists. split; [reflexivity |]. cbn. repeat split; try lia. now left.
Qed.

Lemma send_to_pty_keeps_input_history_witness :
  let p := mkPtyInput "pwd " 4 ["ls"] 1 in
  pty_history_ok (send_to_pty true true (one_char Ansi.LF) true p).2
  /\ pty_recall_ok (send_to_pty true true (one_char Ansi.LF) true p).2.
Proof.
  apply (send_to_pty_keeps_input_history true true (one_char Ansi.LF) true
           (mkPtyInput "pwd " 4 ["ls"] 1)).
  - split.
    + repeat constructor.
    + exact I.
  - unfold pty_recall_ok. cbn. lia.
Defined.

Lemma typed_line_is_recorded_on_enter_witness :
  let p := type_text (chars "ls -l ") (mkPtyInput "" 0 ["pwd"] 0) in
  let p' := (send_to_pty true true (one_char Ansi.LF) true p).2 in
  pty_input_buffer p = "ls -l "
  /\ pty_input_cursor p = 6
  /\ pty_input_buffer p' = ""
  /\ pty_input_cursor p' = 0
  /\ pty_input_history p' = ["pwd"; "ls -l"].
Proof.
  apply (typed_line_is_recorded_on_enter (chars "ls -l ") ["pwd"] 0).
  repeat constructor.
Defined.

Lemma pty_recall_returns_entries_witness :
  let p := mkPtyInput "" 0 ["ls"; "pwd"] 2 in
  (exists t p',
      get_pty_history_prev p = Ok (Some t, p')
      /\ In t (pty_input_history p)
      /\ pty_recall_ok p'
      /\ pty_input_history p' = pty_input_history p
      /\ pty_input_buffer p' = pty_input_buffer p)
  /\ (exists u p',
         get_pty_history_next p = Ok (Some u, p')
         /\ (u = "" \/ In u (pty_input_history p))
         /\ pty_recall_ok p'
         /\ pty_input_history p' = pty_input_history p
         /\ pty_input_buffer p' = pty_input_buffer p).
Proof.
  apply (pty_recall_returns_entries (mkPtyInput "" 0 ["ls"; "pwd"] 2)).
  - unfold pty_recall_ok. cbn. lia.
  - discriminate.
Defined.

End PtyInputLine.

(** ** Loading the history file *)

Section HistoryFile.





End HistoryFile.

(** ** The outcome of a user switch *)

Section UserSwitchOutcome.

Lemma enter_home_identity home_dir s w :
  active_user (enter_home home_dir s w).1 = active_user s
  /\ real_user (enter_home home_dir s w).1 = real_user s.
Proof.
  unfold enter_home.
  destruct (truthy home_dir && isdir w home_dir); [| now split].
  destruct (access_x w home_dir); [| now split].
  destruct (chdir home_dir w); now split.
Qed.

Ltac switch_refused :=
  cbn [fst snd]; split; [reflexivity |];
  split; [discriminate |];
  intros _; split; [reflexivity |];
  eexists; split; reflexivity.

(** X17.  [switch_user] never changes the real user.  When it returns
    true the active user is the requested name with surrounding white
    space removed; when it returns false the host is untouched and the
    executor differs only by one appended output line that starts with
    [[Error] ]. *)
Theorem switch_user_result_matches_identity :
  forall user_name check s w,
    let r := switch_user user_name check s w in
    real_user r.1.2 = real_user s
    /\ (r.1.1 = true -> active_user r.1.2 = strip user_name)
    /\ (r.1.1 = false ->
        r.2 = w
        /\ exists line,
            r.1.2 = add_output line s /\ startswith "[Error] " line = true).
Proof.
  intros user_name check s w. cbn zeta. unfold switch_user.
  destruct (negb (truthy (strip user_name))); [switch_refused |].
  destruct (String.eqb_spec (strip user_name) (real_user s)) as [Hreal | Hreal].
  { cbn [fst snd]. split; [reflexivity |]. split; [| discriminate].
    intros _. symmetry. exact Hreal. }
  destruct (String.eqb_spec (strip user_name) (active_user s)) as [Hact | Hact].
  { cbn [fst snd]. split; [reflexivity |]. split; [| discriminate].
    intros _. symmetry. exact Hact. }
  destruct ((euid w =? 0) && String.eqb (strip user_name) "root") eqn:Hroot.
  { apply andb_prop in Hroot as [_ Hroot]. apply String.eqb_eq in Hroot.
    pose proof (enter_home_identity (expanduser w "~root")
                  (add_output "[System] Switched to root user" (set_active_user "root" s)) w)
      as [Ha Hr].
    destruct (enter_home _ _ w) as [s' w'].
    cbn [fst snd] in *. split; [exact Hr |]. split; [| discriminate].
    intros _. rewrite Ha, Hroot. reflexivity. }
  destruct (negb (on_path w "sudo")); [switch_refused |].
  destruct check as [err | returncode stdout stderr]; [switch_refused |].
  destruct (negb (returncode =? 0)); [switch_refused |].
  pose proof (enter_home_identity (expanduser w ("~" +:+ strip user_name))
                (add_output ("[System] User switched to "
                             +:+ active_user (set_active_user (strip user_name) s))
                   (set_active_user (strip user_name) s)) w)
    as [Ha Hr].
  destruct (enter_home _ _ w) as [s' w'].
  cbn [fst snd] in *. split; [exact Hr |]. split; [| discriminate].
  intros _. rewrite Ha. reflexivity.
Qed.

End UserSwitchOutcome.

(** ** The environment after a successful probe *)

Section EnvironmentReplaced.

Lemma dict_set_fresh (k v : string) (d : list (string * string)) :
  k ∉ map fst d -> dict_set k v d = d ++ [(k, v)].
Proof.
  induction d as [| [k' v'] d IH]; intros Hk; [reflexivity |].
  cbn in *. apply not_elem_of_cons in Hk as [Hne Hk].
  destruct (String.eqb_spec k' k) as [-> | _]; [congruence |].
  now rewrite IH.
Qed.

Lemma dict_set_keys (k v : string) (d : list (string * string)) :
  NoDup (map fst d) ->
  NoDup (map fst (dict_set k v d))
  /\ (forall k', k' ∈ map fst (dict_set k v d) <-> k' = k \/ k' ∈ map fst d)
  /\ (list_to_map (dict_set k v d) : gmap string string) = <[k := v]> (list_to_map d).
Proof.
  induction d as [| [k0 v0] d IH]; intros Hnd.
  - cbn. split; [apply NoDup_singleton |]. split; [| reflexivity].
    intros k'. rewrite list_elem_of_singleton, elem_of_nil. tauto.
  - cbn [dict_set]. cbn in Hnd. apply NoDup_cons in Hnd as [Hk0 Hnd].
    destruct (String.eqb_spec k0 k) as [-> | Hne].
    + cbn. split; [apply NoDup_cons; now split |]. split.
      * intros k'. rewrite !elem_of_cons. tauto.
      * now rewrite insert_insert_eq.
    + destruct (IH Hnd) as (IH1 & IH2 & IH3). cbn. split; [| split].
      * apply NoDup_cons. split; [| exact IH1].
        intros H. apply IH2 in H as [-> | H]; [congruence | exact (Hk0 H)].
      * intros k'. rewrite !elem_of_cons, IH2. tauto.
      * rewrite IH3. apply insert_insert_ne. congruence.
Qed.

Lemma parse_env_blob_keys (env_blob : list ascii) :
  NoDup (map fst (parse_env_blob env_blob)).
Proof.
  unfold parse_env_blob.
  assert (H : forall items d,
             NoDup (map fst d) ->
             NoDup (map fst (fold_left
               (fun d item =>
                  match item with
                  | [] => d
                  | _ => match split_assignment item with
                         | Some (k, v) => dict_set k v d
                         | None => d
                         end
                  end) items d))).
  { induction items as [| item items IH]; intros d Hd; [exact Hd |].
    cbn [fold_left]. apply IH.
    destruct item as [| c item]; [exact Hd |].
    destruct (split_assignment (c :: item)) as [[k v] |]; [| exact Hd].
    now apply dict_set_keys. }
  apply H. constructor.
Qed.

Lemma environ_update_ok (items : list (string * string)) :
  forall (env env' : gmap string string),
    NoDup (map fst items) ->
    environ_update items env = Ok env' ->
    env' = list_to_map items ∪ env.
Proof.
  induction items as [| [k v] items IH]; intros env env' Hnd Hup.
  - cbn in *. injection Hup as <-. now rewrite (left_id_L ∅ (∪)).
  - cbn in Hnd, Hup. apply NoDup_cons in Hnd as [Hk Hnd].
    destruct (truthy k); [| discriminate].
    rewrite (IH _ _ Hnd Hup). cbn.
    apply map_eq. intros i.
    rewrite !lookup_union.
    destruct (decide (i = k)) as [-> | Hne].
    + rewrite !lookup_insert_eq.
      rewrite (not_elem_of_list_to_map_1 _ k Hk). now destruct (env !! k).
    + rewrite !lookup_insert_ne by congruence. reflexivity.
Qed.

(** X18.  When [apply_shell_environment] succeeds, the process
    environment afterwards is exactly the table parsed from what follows
    the first newline of the probe's output: every variable absent from
    the dump is removed and every dumped variable has its dumped value. *)
Theorem apply_shell_environment_replaces_environment :
  forall description returncode stdout stderr s w s' w',
    apply_shell_environment description (Completed returncode stdout stderr) s w
    = Ok (true, s', w') ->
    exists nl,
      find_char Ansi.LF (chars stdout) = Some nl
      /\ os_environ w'
         = list_to_map (parse_env_blob (List.skipn (S nl) (chars stdout))).
Proof.
  intros description returncode stdout stderr s w s' w' Hrun.
  unfold apply_shell_environment in Hrun.
  destruct (negb (returncode =? 0)); [discriminate |].
  destruct (find_char Ansi.LF (chars stdout)) as [nl |]; [| discriminate].
  exists nl. split; [reflexivity |].
  set (blob := List.skipn (S nl) (chars stdout)) in *.
  match type of Hrun with
  | (let '(s, w) := ?st in _) = _ => destruct st as [s1 w1]
  end.
  cbn zeta in Hrun.
  destruct (environ_update (parse_env_blob blob) _) as [env | e] eqn:Hup;
    [| discriminate].
  cbn in Hrun. injection Hrun as _ <-. cbn.
  apply environ_update_ok in Hup; [| apply parse_env_blob_keys].
  rewrite Hup. apply map_eq. intros k.
  rewrite lookup_union.
  destruct (list_to_map (parse_env_blob blob) !! k) as [v |] eqn:Hk.
  - now destruct (filter _ _ !! k).
  - rewrite (left_id_L None union).
    apply map_lookup_filter_None. right. intros v _ Hin. cbn in Hin.
    apply bool_decide_unpack in Hin.
    apply not_elem_of_list_to_map in Hk. exact (Hk Hin).
Qed.

Lemma apply_shell_environment_replaces_environment_witness :
  let stdout := "__PWD__/home/ark" +:+ String Ansi.LF ("FOO=bar" +:+ String "000" "") in
  exists s' w' nl,
    apply_shell_environment "source" (Completed 0 stdout "") demo_shell demo_host
    = Ok (true, s', w')
    /\ find_char Ansi.LF (chars stdout) = Some nl
    /\ os_environ w'
       = list_to_map (parse_env_blob (List.skipn (S nl) (chars stdout))).
Proof.
  intros stdout.
  destruct (apply_shell_environment "source" (Completed 0 stdout "") demo_shell demo_host)
    as [[[b s'] w'] | e] eqn:Hrun.
  - destruct b.
    + destruct (apply_shell_environment_replaces_environment
                  "source" 0 stdout "" demo_shell demo_host s' w' Hrun)
        as (nl & Hnl & Henv).
      exists s', w', nl. repeat split; assumption.
    + vm_compute in Hrun. discriminate.
  - vm_compute in Hrun. discriminate.
Defined.

End EnvironmentReplaced.

(** ** The text editor *)

Section Editor.

Ltac editor_simpl :=
  cbn [lines cursor_line cursor_col scroll_line scroll_col selection_anchor
       clipboard dirty preferred_col set_lines set_cursor_line set_cursor_col
       set_scroll_line set_scroll_col set_selection_anchor set_clipboard set_dirty
       set_preferred_col _clear_selection _ensure_selection
       mbind outcome_bind fst snd] in *.

Lemma begin_move_text selecting e :
  lines (begin_move selecting e) = lines e
  /\ cursor_line (begin_move selecting e) = cursor_line e
  /\ cursor_col (begin_move selecting e) = cursor_col e
  /\ preferred_col (begin_move selecting e) = preferred_col e.
Proof.
  unfold begin_move, _ensure_selection, _clear_selection.
  destruct selecting; [destruct (selection_anchor e) |]; now repeat split.
Qed.

(** A clamped line number names a line of a non-empty text. *)
Lemma clamp0_line (l : list string) (i : Z) :
  l <> [] ->
  exists line,
    get_item (clamp0 i (Z.of_nat (length l) - 1)) l = Ok line
    /\ l !! Z.to_nat (clamp0 i (Z.of_nat (length l) - 1)) = Some line
    /\ 0 <= clamp0 i (Z.of_nat (length l) - 1) < Z.of_nat (length l).
Proof.
  intros Hne.
  assert (Hlen : (0 < length l)%nat) by (destruct l; [congruence | cbn; lia]).
  assert (Hi : 0 <= clamp0 i (Z.of_nat (length l) - 1) < Z.of_nat (length l))
    by (unfold clamp0; lia).
  destruct (get_item_in_range _ l Hi) as (line & Hget & Hlook).
  exists line. now repeat split.
Qed.

Lemma clamp0_col (c n : Z) : 0 <= n -> 0 <= clamp0 c n <= n.
Proof. unfold clamp0. lia. Qed.

Lemma len_nonneg (t : string) : 0 <= len t.
Proof. unfold len. lia. Qed.

Lemma cursor_on_text_lines (e : TextEditor) : cursor_on_text e -> lines e <> [].
Proof.
  intros [Hline _] Hnil. rewrite Hnil in Hline. cbn in Hline. lia.
Qed.

Lemma cursor_on_text_item (e : TextEditor) :
  cursor_on_text e ->
  exists line,
    get_item (cursor_line e) (lines e) = Ok line
    /\ lines e !! Z.to_nat (cursor_line e) = Some line
    /\ 0 <= cursor_col e <= len line.
Proof.
  intros [Hline (line & Hlook & Hcol)].
  destruct (get_item_in_range _ _ Hline) as (x & Hget & Hx).
  assert (x = line) by congruence. subst x.
  exists line. now repeat split.
Qed.

Lemma move_cursor_col_phase (e1 : TextEditor) (delta_col : Z) (l : list string) :
  cursor_on_text e1 ->
  lines e1 = l ->
  exists e',
    (if negb (delta_col =? 0) then
       line ← get_item (cursor_line e1) (lines e1);
       let e := set_cursor_col (clamp0 (cursor_col e1 + delta_col) (len line)) e1 in
       Ok (set_preferred_col (cursor_col e) e)
     else Ok e1) = Ok e'
    /\ cursor_on_text e' /\ lines e' = l.
Proof.
  intros Hok1 Hl1.
  destruct (negb (delta_col =? 0)); [| eauto].
  destruct (cursor_on_text_item e1 Hok1) as (line & Hget & Hlook & Hcol).
  rewrite Hget. cbn zeta. editor_simpl.
  eexists. split; [reflexivity |]. split; [| exact Hl1].
  split; editor_simpl; [apply Hok1 |].
  exists line. split; [exact Hlook |]. apply clamp0_col, len_nonneg.
Qed.

(** X19.  With the cursor on a line of the text and within it, no cursor
    movement raises, changes the text or takes the cursor off the text:
    [move_cursor], [move_home], [move_end] and [move_page] for every
    argument, and [select_all]. *)
Theorem editor_moves_keep_cursor_on_text :
  forall e,
    cursor_on_text e ->
    (forall delta_line delta_col selecting,
        exists e', move_cursor delta_line delta_col selecting e = Ok e'
                   /\ cursor_on_text e' /\ lines e' = lines e)
    /\ (forall selecting,
           cursor_on_text (move_home selecting e)
           /\ lines (move_home selecting e) = lines e)
    /\ (forall selecting,
           exists e', move_end selecting e = Ok e'
                      /\ cursor_on_text e' /\ lines e' = lines e)
    /\ (forall delta lines_per_page selecting,
           exists e', move_page delta lines_per_page selecting e = Ok e'
                      /\ cursor_on_text e' /\ lines e' = lines e)
    /\ (exists e', select_all e = Ok e'
                   /\ cursor_on_text e' /\ lines e' = lines e).
Proof.
  intros e Hok.
  pose proof (cursor_on_text_lines e Hok) as Hne.
  split; [| split; [| split; [| split]]].
  - intros delta_line delta_col selecting. unfold move_cursor.
    destruct (begin_move_text selecting e) as (Hl & Hcl & Hcc & Hpc).
    assert (Hok0 : cursor_on_text (begin_move selecting e)).
    { unfold cursor_on_text. rewrite Hl, Hcl, Hcc. exact Hok. }
    revert Hok0. generalize dependent (begin_move selecting e). intros e0 Hl _ _ _ Hok0.
    rewrite <- Hl in Hne |- *. clear Hl. cbn zeta.
    destruct (negb (delta_line =? 0)).
    + destruct (clamp0_line (lines e0) (cursor_line e0 + delta_line) Hne)
        as (line & Hget & Hlook & Hrange).
      editor_simpl. rewrite Hget. editor_simpl.
      apply (move_cursor_col_phase
               (set_cursor_col (clamp0 (preferred_col e0) (len line))
                  (set_cursor_line
                     (clamp0 (cursor_line e0 + delta_line)
                             (Z.of_nat (length (lines e0)) - 1)) e0))
               delta_col (lines e0)); [| reflexivity].
      split; editor_simpl; [exact Hrange |].
      exists line. split; [exact Hlook |]. apply clamp0_col, len_nonneg.
    + editor_simpl. now apply (move_cursor_col_phase e0 delta_col (lines e0)).
  - intros selecting. unfold move_home.
    destruct (begin_move_text selecting e) as (Hl & Hcl & Hcc & Hpc).
    editor_simpl. split; [| exact Hl].
    destruct Hok as [Hline (line & Hlook & Hcol)].
    split; editor_simpl; rewrite Hl, Hcl; [exact Hline |].
    exists line. split; [exact Hlook |]. pose proof (len_nonneg line). lia.
  - intros selecting. unfold move_end.
    destruct (begin_move_text selecting e) as (Hl & Hcl & Hcc & Hpc).
    destruct (cursor_on_text_item e Hok) as (line & Hget & Hlook & Hcol).
    rewrite Hl, Hcl, Hget. editor_simpl.
    eexists. split; [reflexivity |]. split; [| exact Hl].
    split; editor_simpl; rewrite Hl, Hcl; [apply Hok |].
    exists line. split; [exact Hlook |]. pose proof (len_nonneg line). lia.
  - intros delta lines_per_page selecting. unfold move_page.
    destruct (begin_move_text selecting e) as (Hl & Hcl & Hcc & Hpc).
    cbn zeta. editor_simpl. rewrite Hl, Hcl, Hpc.
    destruct (clamp0_line (lines e) (cursor_line e + delta * lines_per_page) Hne)
      as (line & Hget & Hlook & Hrange).
    rewrite Hget. editor_simpl.
    eexists. split; [reflexivity |]. split; [| exact Hl].
    split; editor_simpl; rewrite Hl; [exact Hrange |].
    exists line. split; [exact Hlook |]. apply clamp0_col, len_nonneg.
  - unfold select_all. cbn zeta. editor_simpl.
    assert (Hlen : (0 < length (lines e))%nat)
      by (destruct (lines e); [congruence | cbn; lia]).
    destruct (get_item_in_range (Z.of_nat (length (lines e)) - 1) (lines e))
      as (line & Hget & Hlook); [lia |].
    assert (Hneg : get_item (-1) (lines e) = Ok line).
    { unfold get_item in *. cbn [Z.ltb Z.compare] in *.
      replace (Z.of_nat (length (lines e)) - 1 <? 0) with false in Hget by lia.
      replace (-1 + Z.of_nat (length (lines e)))
        with (Z.of_nat (length (lines e)) - 1) by lia.
      exact Hget. }
    rewrite Hneg. editor_simpl.
    eexists. split; [reflexivity |]. split; [| reflexivity].
    split; editor_simpl; [lia |].
    exists line. split; [exact Hlook |]. pose proof (len_nonneg line). lia.
Qed.

Lemma editor_moves_keep_cursor_on_text_witness :
  let e := mkTextEditor ["ab"; "c"] 0 2 0 0 None "" false 2 in
  (forall delta_line delta_col selecting,
      exists e', move_cursor delta_line delta_col selecting e = Ok e'
                 /\ cursor_on_text e' /\ lines e' = lines e)
  /\ (forall selecting,
         cursor_on_text (move_home selecting e)
         /\ lines (move_home selecting e) = lines e)
  /\ (forall selecting,
         exists e', move_end selecting e = Ok e'
                    /\ cursor_on_text e' /\ lines e' = lines e)
  /\ (forall delta lines_per_page selecting,
         exists e', move_page delta lines_per_page selecting e = Ok e'
                    /\ cursor_on_text e' /\ lines e' = lines e)
  /\ (exists e', select_all e = Ok e'
                 /\ cursor_on_text e' /\ lines e' = lines e).
Proof.
  apply (editor_moves_keep_cursor_on_text
           (mkTextEditor ["ab"; "c"] 0 2 0 0 None "" false 2)).
  split; [cbn; lia |]. exists "ab". split; [reflexivity |]. unfold len. cbn. lia.
Defined.

(** X20.  For a page of at least one line and one column,
    [ensure_visible] leaves the cursor inside the window that starts at
    the scroll offsets, touches neither text nor cursor, and does not
    scroll when the cursor was visible already. *)
Theorem ensure_visible_shows_cursor :
  forall lines_per_page cols_per_page e,
    1 <= lines_per_page ->
    1 <= cols_per_page ->
    let e' := ensure_visible lines_per_page cols_per_page e in
    scroll_line e' <= cursor_line e < scroll_line e' + lines_per_page
    /\ scroll_col e' <= cursor_col e < scroll_col e' + cols_per_page
    /\ lines e' = lines e
    /\ cursor_line e' = cursor_line e
    /\ cursor_col e' = cursor_col e
    /\ (scroll_line e <= cursor_line e < scroll_line e + lines_per_page ->
        scroll_col e <= cursor_col e < scroll_col e + cols_per_page ->
        e' = e).
Proof.
  intros lpp cpp e Hl Hc. cbn zeta. unfold ensure_visible.
  destruct (cursor_line e <? scroll_line e) eqn:H1;
    [| destruct (scroll_line e + lpp <=? cursor_line e) eqn:H2];
    editor_simpl;
    (destruct (cursor_col e <? scroll_col e) eqn:H3;
     [| destruct (scroll_col e + cpp <=? cursor_col e) eqn:H4]);
    editor_simpl; repeat split; try lia; try reflexivity; intros; lia.
Qed.

Lemma ensure_visible_shows_cursor_witness :
  let e := mkTextEditor ["a"; "b"; "c"; "d"] 3 0 0 0 None "" false 0 in
  let e' := ensure_visible 2 10 e in
  scroll_line e' <= cursor_line e < scroll_line e' + 2
  /\ scroll_col e' <= cursor_col e < scroll_col e' + 10
  /\ lines e' = lines e
  /\ cursor_line e' = cursor_line e
  /\ cursor_col e' = cursor_col e
  /\ (scroll_line e <= cursor_line e < scroll_line e + 2 ->
      scroll_col e <= cursor_col e < scroll_col e + 10 ->
      e' = e).
Proof.
  apply (ensure_visible_shows_cursor 2 10
           (mkTextEditor ["a"; "b"; "c"; "d"] 3 0 0 0 None "" false 0)); lia.
Defined.

Lemma str_app_assoc (a b c : string) : (a +:+ b) +:+ c = a +:+ (b +:+ c).
Proof.
  induction a as [| x a IH]; [reflexivity |].
  change (String x ((a +:+ b) +:+ c) = String x (a +:+ (b +:+ c))). now rewrite IH.
Qed.

Lemma str_app_nil_r (a : string) : a +:+ "" = a.
Proof.
  induction a as [| x a IH]; [reflexivity |].
  change (String x (a +:+ "") = String x a). now rewrite IH.
Qed.

Lemma join_with_cons (sep s : string) (l : list string) :
  l <> [] -> join_with sep (s :: l) = s +:+ sep +:+ join_with sep l.
Proof. destruct l; [congruence | reflexivity]. Qed.

Lemma join_with_snoc (sep s : string) (l : list string) :
  l <> [] -> join_with sep (l ++ [s]) = join_with sep l +:+ sep +:+ s.
Proof.
  induction l as [| x l IH]; [congruence |]. intros _.
  destruct l as [| y l].
  - reflexivity.
  - change ((x :: y :: l) ++ [s]) with (x :: ((y :: l) ++ [s])).
    rewrite join_with_cons by (cbn; congruence).
    rewrite IH by congruence.
    rewrite (join_with_cons sep x (y :: l)) by congruence.
    now rewrite !str_app_assoc.
Qed.

(** Joining across a seam inside a line. *)
Lemma join_with_seam (sep a b : string) (X Y : list string) :
  join_with sep (X ++ (a +:+ b) :: Y)
  = join_with sep (X ++ [a]) +:+ join_with sep (b :: Y).
Proof.
  induction X as [| x X IH].
  - cbn [app]. destruct Y as [| y Y]; [reflexivity |].
    rewrite !join_with_cons by congruence. cbn [join_with].
    now rewrite !str_app_assoc.
  - change ((x :: X) ++ (a +:+ b) :: Y) with (x :: (X ++ (a +:+ b) :: Y)).
    change ((x :: X) ++ [a]) with (x :: (X ++ [a])).
    rewrite !join_with_cons by (destruct X; cbn; congruence).
    rewrite IH. now rewrite !str_app_assoc.
Qed.

Lemma split_on_nonempty sep piece l : split_on sep piece l <> [].
Proof.
  revert piece. induction l as [| c l IH]; intros piece; cbn; [congruence |].
  destruct (Ascii.eqb c sep); [congruence | apply IH].
Qed.

Lemma join_split_on (piece l : list ascii) :
  join_with (String Ansi.LF "") (map text (split_on Ansi.LF piece l)) = text (piece ++ l).
Proof.
  revert piece. induction l as [| c l IH]; intros piece.
  - cbn. now rewrite app_nil_r.
  - cbn [split_on]. destruct (Ascii.eqb_spec c Ansi.LF) as [-> | Hne].
    + cbn [map]. rewrite join_with_cons.
      * rewrite IH. cbn [app]. rewrite text_app. reflexivity.
      * intros H. apply map_eq_nil in H. exact (split_on_nonempty _ _ _ H).
    + rewrite IH, <- app_assoc. reflexivity.
Qed.

Lemma join_split_lines (t : string) : join_with (String Ansi.LF "") (split_lines t) = t.
Proof. unfold split_lines. rewrite join_split_on. apply text_chars. Qed.

Lemma split_on_two piece l n :
  find_char Ansi.LF l = Some n ->
  (2 <= length (split_on Ansi.LF piece l))%nat.
Proof.
  revert piece n. induction l as [| c l IH]; intros piece n;
    cbn [find_char split_on]; [discriminate |].
  rewrite (Ascii.eqb_sym Ansi.LF c).
  destruct (Ascii.eqb c Ansi.LF).
  - intros _. pose proof (split_on_nonempty Ansi.LF [] l).
    destruct (split_on Ansi.LF [] l); [congruence | cbn [length]; lia].
  - destruct (find_char Ansi.LF l) as [m |]; [| discriminate].
    intros _. now apply (IH _ m).
Qed.

Lemma two_ends {A : Type} (l : list A) :
  (2 <= length l)%nat -> exists x mid y, l = x :: mid ++ [y].
Proof.
  destruct l as [| x l]; cbn; [lia |]. intros Hlen.
  destruct (exists_last (l := l)) as (mid & y & ->); [destruct l; cbn in *; [lia | congruence] |].
  eauto.
Qed.

Lemma split_lines_ends (t : string) n :
  find_char Ansi.LF (chars t) = Some n ->
  exists p0 mid pl, split_lines t = p0 :: mid ++ [pl].
Proof.
  intros Hn. apply two_ends. unfold split_lines. rewrite length_map.
  now apply (split_on_two _ _ n).
Qed.

Lemma index_in_range (i n : Z) : 0 <= i < n -> (0 <=? i) && (i <? n) = true.
Proof.
  intros Hi. apply andb_true_intro. split; [apply Z.leb_le | apply Z.ltb_lt]; lia.
Qed.

(** Indexing at a seam of a list. *)
Lemma get_item_seam {A : Type} (X Y : list A) (x : A) :
  get_item (Z.of_nat (length X)) (X ++ x :: Y) = Ok x.
Proof.
  destruct (get_item_in_range (Z.of_nat (length X)) (X ++ x :: Y))
    as (y & -> & Hy); [rewrite length_app; cbn; lia |].
  rewrite Nat2Z.id in Hy.
  rewrite (list_lookup_middle X Y x (length X) eq_refl) in Hy. congruence.
Qed.

Lemma list_set_seam {A : Type} (X Y : list A) (x v : A) :
  list_set (Z.of_nat (length X)) v (X ++ x :: Y) = Ok (X ++ v :: Y).
Proof.
  unfold list_set. rewrite of_nat_ltb_0, length_app. cbn [length].
  rewrite index_in_range by lia.
  rewrite Nat2Z.id. f_equal.
  rewrite insert_app_r_alt by lia. now rewrite Nat.sub_diag.
Qed.

Lemma list_del_seam {A : Type} (X Y : list A) (x : A) :
  list_del (Z.of_nat (length X)) (X ++ x :: Y) = Ok (X ++ Y).
Proof.
  unfold list_del. rewrite of_nat_ltb_0, length_app. cbn [length].
  rewrite index_in_range by lia.
  rewrite Nat2Z.id. f_equal.
  rewrite delete_middle. reflexivity.
Qed.

Lemma slice_assign_seam {A : Type} (X Y new : list A) (x : A) :
  slice_assign (Z.of_nat (length X)) (Z.of_nat (length X) + 1) new (X ++ x :: Y)
  = X ++ new ++ Y.
Proof.
  unfold slice_assign. rewrite of_nat_ltb_0, length_app. cbn [length].
  replace (Z.of_nat (length X) + 1 <? 0) with false
    by (symmetry; apply Z.ltb_ge; lia).
  replace (Z.to_nat (Z.min (Z.of_nat (length X)) (Z.of_nat (length X + S (length Y)))))
    with (length X) by lia.
  replace (Z.to_nat
             (Z.max (Z.min (Z.of_nat (length X)) (Z.of_nat (length X + S (length Y))))
                (Z.min (Z.of_nat (length X) + 1) (Z.of_nat (length X + S (length Y))))))
    with (S (length X)) by lia.
  change (take (length X) (X ++ x :: Y) ++ new ++ drop (S (length X)) (X ++ x :: Y)
          = X ++ new ++ Y).
  rewrite take_app_length.
  replace (X ++ x :: Y) with ((X ++ [x]) ++ Y) by now rewrite <- app_assoc.
  replace (S (length X)) with (length (X ++ [x])) by (rewrite length_app; cbn; lia).
  now rewrite drop_app_length.
Qed.

Lemma get_item_first {A : Type} (x : A) (l : list A) : get_item 0 (x :: l) = Ok x.
Proof.
  unfold get_item. cbn [Z.ltb Z.compare length].
  rewrite index_in_range by lia. reflexivity.
Qed.

Lemma get_item_minus_one {A : Type} (l : list A) (y : A) :
  get_item (-1) (l ++ [y]) = Ok y.
Proof.
  pose proof (get_item_seam l [] y) as H. unfold get_item in *.
  rewrite of_nat_ltb_0 in H. cbn [Z.ltb Z.compare].
  rewrite length_app in *. cbn [length] in *.
  replace (-1 + Z.of_nat (length l + 1)) with (Z.of_nat (length l)) by lia.
  exact H.
Qed.

Lemma slice_inner {A : Type} (x y : A) (mid : list A) :
  slice 1 (-1) (x :: mid ++ [y]) = mid.
Proof.
  unfold slice. cbn [Z.ltb Z.compare length]. rewrite length_app. cbn [length].
  replace (Z.to_nat (Z.min 1 (Z.of_nat (S (length mid + 1))))) with 1%nat by lia.
  replace (Z.to_nat (Z.max 0 (-1 + Z.of_nat (S (length mid + 1)))))
    with (S (length mid)) by lia.
  cbn [List.firstn List.skipn].
  change (take (length mid) (mid ++ [y]) = mid). apply take_app_length.
Qed.

(** The editor seen as the lines above the cursor, the two halves of the
    cursor line and the lines below. *)
Lemma cursor_on_text_zipper (e : TextEditor) :
  cursor_on_text e ->
  exists X a b Y,
    lines e = X ++ text (a ++ b) :: Y
    /\ cursor_line e = Z.of_nat (length X)
    /\ cursor_col e = Z.of_nat (length a).
Proof.
  intros [Hline (line & Hlook & Hcol)].
  exists (take (Z.to_nat (cursor_line e)) (lines e)),
         (take (Z.to_nat (cursor_col e)) (chars line)),
         (drop (Z.to_nat (cursor_col e)) (chars line)),
         (drop (S (Z.to_nat (cursor_line e))) (lines e)).
  rewrite take_drop, text_chars.
  unfold len in Hcol. rewrite length_chars in Hcol.
  rewrite !length_take. repeat split; try lia.
  symmetry. apply take_drop_middle. exact Hlook.
Qed.

Lemma zipper_texts (e : TextEditor) X a b Y :
  lines e = X ++ text (a ++ b) :: Y ->
  cursor_line e = Z.of_nat (length X) ->
  cursor_col e = Z.of_nat (length a) ->
  cursor_on_text e
  /\ text_before e = join_with (String Ansi.LF "") (X ++ [text a])
  /\ text_after e = join_with (String Ansi.LF "") (text b :: Y).
Proof.
  intros Hl Hcl Hcc.
  assert (Hlook : lines e !! Z.to_nat (cursor_line e) = Some (text (a ++ b))).
  { rewrite Hl, Hcl, Nat2Z.id. now apply list_lookup_middle. }
  split; [| split].
  - split.
    + rewrite Hl, Hcl, length_app. cbn. lia.
    + exists (text (a ++ b)). split; [exact Hlook |].
      unfold len. rewrite length_chars, chars_text, length_app. lia.
  - unfold text_before, cursor_text. rewrite Hlook. cbn [from_option id].
    rewrite Hcc, str_to_split, Hl, Hcl, Nat2Z.id, take_app_length. reflexivity.
  - unfold text_after, cursor_text. rewrite Hlook. cbn [from_option id].
    rewrite Hcc, str_from_split, Hl, Hcl, Nat2Z.id.
    replace (X ++ text (a ++ b) :: Y) with ((X ++ [text (a ++ b)]) ++ Y)
      by now rewrite <- app_assoc.
    replace (S (length X)) with (length (X ++ [text (a ++ b)]))
      by (rewrite length_app; cbn; lia).
    now rewrite drop_app_length.
Qed.

Lemma content_at_cursor (e : TextEditor) :
  cursor_on_text e -> content e = text_before e +:+ text_after e.
Proof.
  intros Hok. destruct (cursor_on_text_zipper e Hok) as (X & a & b & Y & Hl & Hcl & Hcc).
  destruct (zipper_texts e X a b Y Hl Hcl Hcc) as (_ & -> & ->).
  unfold content. rewrite Hl, text_app. apply join_with_seam.
Qed.

Lemma text_glue (a b : list ascii) (t : string) :
  text a +:+ t +:+ text b = text ((a ++ chars t) ++ b).
Proof. now rewrite !text_app, text_chars, str_app_assoc. Qed.

Lemma insert_text_zipper (t : string) (e : TextEditor) X a b Y :
  lines e = X ++ text (a ++ b) :: Y ->
  cursor_line e = Z.of_nat (length X) ->
  cursor_col e = Z.of_nat (length a) ->
  has_selection e = false ->
  truthy t = true ->
  exists e',
    insert_text t e = Ok e'
    /\ cursor_on_text e'
    /\ text_before e' = join_with (String Ansi.LF "") (X ++ [text a]) +:+ t
    /\ text_after e' = join_with (String Ansi.LF "") (text b :: Y)
    /\ clipboard e' = clipboard e.
Proof.
  intros Hl Hcl Hcc Hsel Ht.
  unfold insert_text. rewrite Ht, Hsel. cbn [negb]. editor_simpl.
  destruct e as [l cl cc sl sc anchor clip d pc]. editor_simpl. subst l cl cc.
  destruct (find_char Ansi.LF (chars t)) as [n |] eqn:Hfind.
  - destruct (split_lines_ends t n Hfind) as (p0 & mid & pl & Hparts).
    pose proof (join_split_lines t) as Hjoin.
    rewrite Hparts in *.
    rewrite get_item_seam. editor_simpl.
    rewrite get_item_first. editor_simpl.
    rewrite (get_item_minus_one (p0 :: mid) pl
             : get_item (-1) (p0 :: mid ++ [pl]) = Ok pl). editor_simpl.
    rewrite slice_inner, slice_assign_seam, str_to_split, str_from_split.
    eexists. split; [reflexivity |].
    match goal with
    | |- cursor_on_text ?e' /\ _ =>
        destruct (zipper_texts e' (X ++ [text a +:+ p0] ++ mid) (chars pl) b Y)
          as (H1 & H2 & H3)
    end.
    + editor_simpl. rewrite text_app, text_chars, <- !app_assoc. reflexivity.
    + editor_simpl. rewrite !length_app. cbn [length]. rewrite length_app.
      cbn [length]. lia.
    + editor_simpl. unfold len. now rewrite length_chars.
    + split; [exact H1 |]. split; [| split; [exact H3 | reflexivity]].
      rewrite H2, text_chars, <- !app_assoc.
      change ([text a +:+ p0] ++ mid ++ [pl]) with ((text a +:+ p0) :: (mid ++ [pl])).
      rewrite join_with_seam. now rewrite Hjoin.
  - rewrite get_item_seam. editor_simpl.
    rewrite list_set_seam. editor_simpl.
    rewrite str_to_split, str_from_split, text_glue.
    eexists. split; [reflexivity |].
    match goal with
    | |- cursor_on_text ?e' /\ _ =>
        destruct (zipper_texts e' X (a ++ chars t) b Y) as (H1 & H2 & H3)
    end.
    + reflexivity.
    + reflexivity.
    + editor_simpl. unfold len. rewrite length_chars, length_app. lia.
    + split; [exact H1 |]. split; [| split; [exact H3 | reflexivity]].
      rewrite H2, text_app, text_chars.
      replace (X ++ [text a +:+ t]) with (X ++ (text a +:+ t) :: []) by reflexivity.
      rewrite join_with_seam. reflexivity.
Qed.

(** X21.  Without a selection, inserting a non-empty text puts exactly
    that text at the cursor: the saved text up to the cursor grows by the
    inserted text, the saved text after the cursor is unchanged, and the
    cursor ends on the text, right behind the insertion.  This holds
    with and without newlines in the inserted text. *)
Theorem insert_text_at_cursor :
  forall t e,
    cursor_on_text e ->
    has_selection e = false ->
    truthy t = true ->
    exists e',
      insert_text t e = Ok e'
      /\ cursor_on_text e'
      /\ text_before e' = text_before e +:+ t
      /\ text_after e' = text_after e
      /\ content e' = text_before e +:+ t +:+ text_after e.
Proof.
  intros t e Hok Hsel Ht.
  destruct (cursor_on_text_zipper e Hok) as (X & a & b & Y & Hl & Hcl & Hcc).
  destruct (zipper_texts e X a b Y Hl Hcl Hcc) as (_ & Hbefore & Hafter).
  rewrite Hbefore, Hafter.
  destruct (insert_text_zipper t e X a b Y Hl Hcl Hcc Hsel Ht)
    as (e' & Hrun & Hok' & Hb & Ha & _).
  exists e'. repeat split; try assumption; try apply Hok'.
  rewrite (content_at_cursor e' Hok'), Hb, Ha. apply str_app_assoc.
Qed.

Lemma insert_text_at_cursor_witness :
  let e := mkTextEditor ["ab"; "c"] 0 1 0 0 None "" false 1 in
  exists e',
    insert_text (String "x" (String Ansi.LF "y")) e = Ok e'
    /\ cursor_on_text e'
    /\ text_before e' = text_before e +:+ String "x" (String Ansi.LF "y")
    /\ text_after e' = text_after e
    /\ content e' = text_before e +:+ String "x" (String Ansi.LF "y") +:+ text_after e.
Proof.
  apply (insert_text_at_cursor (String "x" (String Ansi.LF "y"))
           (mkTextEditor ["ab"; "c"] 0 1 0 0 None "" false 1)).
  - split; [cbn; lia |]. exists "ab". split; [reflexivity |]. unfold len. cbn. lia.
  - reflexivity.
  - reflexivity.
Defined.

Lemma len_text (l : list ascii) : len (text l) = Z.of_nat (length l).
Proof. unfold len. now rewrite length_chars, chars_text. Qed.

Lemma snoc_or_nil {A : Type} (l : list A) : l = [] \/ exists l' x, l = l' ++ [x].
Proof. induction l as [| x l _] using rev_ind; [now left | right; eauto]. Qed.

Lemma get_item_after_seam {A : Type} (X Y : list A) (p x : A) :
  get_item (Z.of_nat (length X) + 1) (X ++ p :: x :: Y) = Ok x.
Proof.
  replace (X ++ p :: x :: Y) with ((X ++ [p]) ++ x :: Y) by now rewrite <- app_assoc.
  replace (Z.of_nat (length X) + 1) with (Z.of_nat (length (X ++ [p])))
    by (rewrite length_app; cbn [length]; lia).
  apply get_item_seam.
Qed.

Lemma list_del_after_seam {A : Type} (X Y : list A) (p x : A) :
  list_del (Z.of_nat (length X) + 1) (X ++ p :: x :: Y) = Ok (X ++ p :: Y).
Proof.
  replace (X ++ p :: x :: Y) with ((X ++ [p]) ++ x :: Y) by now rewrite <- app_assoc.
  replace (Z.of_nat (length X) + 1) with (Z.of_nat (length (X ++ [p])))
    by (rewrite length_app; cbn [length]; lia).
  rewrite list_del_seam. now rewrite <- app_assoc.
Qed.

(** X22.  Without a selection, [backspace] removes exactly the character
    before the cursor of the saved text, a newline when the cursor is at
    the start of a line (the two lines are joined); at the very start of
    the text it removes nothing.  The text after the cursor is
    unchanged. *)
Theorem backspace_at_cursor :
  forall e,
    cursor_on_text e ->
    has_selection e = false ->
    exists e',
      backspace e = Ok e'
      /\ cursor_on_text e'
      /\ text_after e' = text_after e
      /\ ((text_before e = "" /\ text_before e' = "")
          \/ exists ch, text_before e = text_before e' +:+ String ch "").
Proof.
  intros e Hok Hsel.
  destruct (cursor_on_text_zipper e Hok) as (X & a & b & Y & Hl & Hcl & Hcc).
  destruct (zipper_texts e X a b Y Hl Hcl Hcc) as (_ & Hbefore & Hafter).
  rewrite Hbefore, Hafter. clear Hbefore Hafter.
  unfold backspace. rewrite Hsel.
  destruct e as [l cl cc sl sc anchor clip d pc]. editor_simpl. subst l cl cc.
  clear Hok Hsel.
  destruct (snoc_or_nil a) as [-> | (a' & ch & ->)].
  - (* at the start of a line *)
    change (Z.of_nat (length (@nil ascii))) with 0.
    change (0 <? 0) with false. cbn [app].
    destruct (snoc_or_nil X) as [-> | (X' & prev & ->)].
    + change (Z.of_nat (length (@nil string))) with 0.
      change (0 <? 0) with false. editor_simpl.
      eexists. split; [reflexivity |].
      match goal with
      | |- cursor_on_text ?e' /\ _ =>
          destruct (zipper_texts e' [] [] b Y) as (H1 & H2 & H3);
            [reflexivity | reflexivity | reflexivity |]
      end.
      split; [exact H1 |]. split; [exact H3 |]. left. split; [reflexivity | exact H2].
    + rewrite length_app. cbn [length].
      replace (Z.of_nat (length X' + 1)) with (Z.of_nat (length X') + 1) by lia.
      replace (0 <? Z.of_nat (length X') + 1) with true
        by (symmetry; apply Z.ltb_lt; lia).
      replace (Z.of_nat (length X') + 1 - 1) with (Z.of_nat (length X')) by lia.
      rewrite <- !app_assoc. cbn [app].
      rewrite get_item_seam. editor_simpl.
      rewrite get_item_after_seam. editor_simpl.
      rewrite list_set_seam. editor_simpl.
      rewrite list_del_after_seam. editor_simpl.
      eexists. split; [reflexivity |].
      match goal with
      | |- cursor_on_text ?e' /\ _ =>
          destruct (zipper_texts e' X' (chars prev) b Y) as (H1 & H2 & H3)
      end.
      * editor_simpl. now rewrite text_app, text_chars.
      * editor_simpl. reflexivity.
      * editor_simpl. unfold len. now rewrite length_chars.
      * split; [exact H1 |]. split; [exact H3 |]. right. exists Ansi.LF.
        rewrite H2, text_chars.
        change (text []) with "".
        replace (X' ++ [prev; ""]) with ((X' ++ [prev]) ++ [""])
          by now rewrite <- app_assoc.
        rewrite (join_with_snoc (String Ansi.LF "") "" (X' ++ [prev]))
          by (destruct X'; cbn; congruence).
        now rewrite str_app_nil_r.
  - (* inside a line *)
    rewrite length_app. cbn [length].
    replace (0 <? Z.of_nat (length a' + 1)) with true
      by (symmetry; apply Z.ltb_lt; lia).
    rewrite get_item_seam. editor_simpl.
    rewrite list_set_seam. editor_simpl.
    replace (Z.of_nat (length a' + 1)) with (Z.of_nat (length (a' ++ [ch])))
      by (rewrite length_app; reflexivity).
    rewrite str_from_split.
    replace (Z.of_nat (length (a' ++ [ch])) - 1) with (Z.of_nat (length a'))
      by (rewrite length_app; cbn [length]; lia).
    rewrite <- (app_assoc a' [ch] b), str_to_split, <- text_app.
    eexists. split; [reflexivity |].
    match goal with
    | |- cursor_on_text ?e' /\ _ =>
        destruct (zipper_texts e' X a' b Y) as (H1 & H2 & H3);
          [reflexivity | reflexivity | reflexivity |]
    end.
    split; [exact H1 |]. split; [exact H3 |]. right. exists ch.
    rewrite H2, text_app.
    replace (X ++ [text a' +:+ text [ch]]) with (X ++ (text a' +:+ text [ch]) :: [])
      by reflexivity.
    rewrite join_with_seam. reflexivity.
Qed.

Lemma backspace_at_cursor_witness :
  let e := mkTextEditor ["ab"; "c"] 1 0 0 0 None "" false 0 in
  exists e',
    backspace e = Ok e'
    /\ cursor_on_text e'
    /\ text_after e' = text_after e
    /\ ((text_before e = "" /\ text_before e' = "")
        \/ exists ch, text_before e = text_before e' +:+ String ch "").
Proof.
  apply (backspace_at_cursor (mkTextEditor ["ab"; "c"] 1 0 0 0 None "" false 0)).
  - split; [cbn; lia |]. exists "c". split; [reflexivity |]. unfold len. cbn. lia.
  - reflexivity.
Defined.

Ltac ltb_false :=
  match goal with
  | |- context [if ?x <? ?y then _ else _] =>
      replace (x <? y) with false
        by (symmetry; apply Z.ltb_ge; rewrite ?length_app; cbn [length]; lia)
  end.

Ltac ltb_true :=
  match goal with
  | |- context [if ?x <? ?y then _ else _] =>
      replace (x <? y) with true
        by (symmetry; apply Z.ltb_lt; rewrite ?length_app; cbn [length]; lia)
  end.

(** X23.  Without a selection, [delete_forward] removes exactly the
    character after the cursor of the saved text, a newline when the
    cursor is at the end of a line; at the very end of the text it
    changes nothing.  The text before the cursor is unchanged. *)
Theorem delete_forward_at_cursor :
  forall e,
    cursor_on_text e ->
    has_selection e = false ->
    exists e',
      delete_forward e = Ok e'
      /\ cursor_on_text e'
      /\ text_before e' = text_before e
      /\ ((text_after e = "" /\ e' = e)
          \/ exists ch, text_after e = String ch (text_after e')).
Proof.
  intros e Hok Hsel.
  destruct (cursor_on_text_zipper e Hok) as (X & a & b & Y & Hl & Hcl & Hcc).
  destruct (zipper_texts e X a b Y Hl Hcl Hcc) as (_ & Hbefore & Hafter).
  rewrite Hbefore, Hafter. clear Hbefore Hafter.
  unfold delete_forward. rewrite Hsel.
  destruct e as [l cl cc sl sc anchor clip d pc]. editor_simpl. subst l cl cc.
  clear Hok Hsel.
  rewrite get_item_seam. editor_simpl. rewrite len_text.
  destruct b as [| ch b'].
  - (* at the end of a line *)
    ltb_false.
    destruct Y as [| next Y'].
    + ltb_false.
      eexists. split; [reflexivity |].
      match goal with
      | |- cursor_on_text ?e' /\ _ =>
          destruct (zipper_texts e' X a [] []) as (H1 & H2 & H3);
            [reflexivity | reflexivity | reflexivity |]
      end.
      split; [exact H1 |]. split; [exact H2 |]. left. now split.
    + ltb_true.
      rewrite get_item_after_seam. editor_simpl.
      rewrite list_set_seam. editor_simpl.
      rewrite list_del_after_seam. editor_simpl.
      eexists. split; [reflexivity |].
      match goal with
      | |- cursor_on_text ?e' /\ _ =>
          destruct (zipper_texts e' X a (chars next) Y') as (H1 & H2 & H3)
      end.
      * editor_simpl. now rewrite app_nil_r, text_app, text_chars.
      * reflexivity.
      * reflexivity.
      * split; [exact H1 |]. split; [exact H2 |]. right. exists Ansi.LF.
        rewrite H3, text_chars. reflexivity.
  - (* inside a line *)
    ltb_true.
    rewrite list_set_seam. editor_simpl.
    rewrite str_to_split.
    replace (a ++ ch :: b') with ((a ++ [ch]) ++ b') by now rewrite <- app_assoc.
    replace (Z.of_nat (length a) + 1) with (Z.of_nat (length (a ++ [ch])))
      by (rewrite length_app; cbn [length]; lia).
    rewrite str_from_split, <- text_app.
    eexists. split; [reflexivity |].
    match goal with
    | |- cursor_on_text ?e' /\ _ =>
        destruct (zipper_texts e' X a b' Y) as (H1 & H2 & H3);
          [reflexivity | reflexivity | reflexivity |]
    end.
    split; [exact H1 |]. split; [exact H2 |]. right. exists ch.
    rewrite H3.
    destruct Y; reflexivity.
Qed.

Lemma delete_forward_at_cursor_witness :
  let e := mkTextEditor ["ab"; "c"] 0 2 0 0 None "" false 2 in
  exists e',
    delete_forward e = Ok e'
    /\ cursor_on_text e'
    /\ text_before e' = text_before e
    /\ ((text_after e = "" /\ e' = e)
        \/ exists ch, text_after e = String ch (text_after e')).
Proof.
  apply (delete_forward_at_cursor (mkTextEditor ["ab"; "c"] 0 2 0 0 None "" false 2)).
  - split; [cbn; lia |]. exists "ab". split; [reflexivity |]. unfold len. cbn. lia.
  - reflexivity.
Defined.

Lemma universal_newlines_plain (l : list ascii) :
  Forall (fun c => Ascii.eqb c Ansi.CR = false) l ->
  universal_newlines false l = l.
Proof.
  induction 1 as [| c l Hc _ IH]; [reflexivity |].
  cbn [universal_newlines andb]. now rewrite Hc, IH.
Qed.

Lemma line_boundary_cases (c : ascii) :
  line_boundary c = false ->
  Ascii.eqb c Ansi.CR = false /\ Ascii.eqb c Ansi.LF = false.
Proof.
  intros Hc. split.
  - destruct (Ascii.eqb_spec c Ansi.CR) as [-> | _]; [discriminate | reflexivity].
  - destruct (Ascii.eqb_spec c Ansi.LF) as [-> | _]; [discriminate | reflexivity].
Qed.

Lemma splitlines_go_plain (l k piece : list ascii) :
  Forall (fun c => line_boundary c = false) l ->
  splitlines_go false piece (l ++ k) = splitlines_go false (piece ++ l) k.
Proof.
  intros Hl. revert piece. induction Hl as [| c l Hc _ IH]; intros piece.
  - now rewrite app_nil_r.
  - destruct (line_boundary_cases c Hc) as [Hcr _].
    cbn [app splitlines_go andb]. rewrite Hcr, Hc, IH, <- app_assoc. reflexivity.
Qed.

Lemma splitlines_go_last (l : list ascii) :
  Forall (fun c => line_boundary c = false) l ->
  splitlines_go false [] l = match l with [] => [] | _ => [l] end.
Proof.
  intros Hl. pose proof (splitlines_go_plain l [] [] Hl) as H.
  rewrite app_nil_r in H. rewrite H. reflexivity.
Qed.

Lemma splitlines_go_join (init : list string) (last : string) :
  Forall plain_line init ->
  splitlines_go false [] (chars (join_with (String Ansi.LF "") (init ++ [last])))
  = map chars init ++ splitlines_go false [] (chars last).
Proof.
  induction 1 as [| s init Hs _ IH]; [reflexivity |].
  change ((s :: init) ++ [last]) with (s :: (init ++ [last])).
  rewrite join_with_cons by (destruct init; cbn; congruence).
  rewrite !chars_app. change (chars (String Ansi.LF "")) with [Ansi.LF].
  rewrite splitlines_go_plain by exact Hs.
  cbn [app splitlines_go andb map].
  change (Ascii.eqb Ansi.LF Ansi.CR) with false.
  change (line_boundary Ansi.LF) with true. cbn iota.
  now rewrite IH.
Qed.

Lemma map_text_chars (l : list string) : map text (map chars l) = l.
Proof.
  induction l as [| s l IH]; [reflexivity |]. cbn [map]. now rewrite text_chars, IH.
Qed.

Lemma endswith_newline (t : string) :
  endswith (String Ansi.LF "") t
  = match last (chars t) with
    | Some c => Ascii.eqb Ansi.LF c
    | None => false
    end.
Proof.
  unfold endswith. change (text (rev (chars (String Ansi.LF "")))) with (String Ansi.LF "").
  destruct (snoc_or_nil (chars t)) as [-> | (l & c & ->)]; [reflexivity |].
  rewrite rev_app_distr, last_snoc. cbn [rev app].
  change (text (c :: rev l)) with (String c (text (rev l))).
  cbn [startswith]. apply andb_true_r.
Qed.

Lemma load_lines_of_joined (init : list string) (last : string) :
  Forall plain_line init ->
  plain_line last ->
  let content := join_with (String Ansi.LF "") (init ++ [last]) in
  read_text content = content
  /\ (let l := splitlines content in
      let l := if endswith (String Ansi.LF "") content then l ++ [""] else l in
      match l with [] => [""] | _ => l end) = init ++ [last].
Proof.
  intros Hinit Hlast content.
  assert (Hall : Forall plain_line (init ++ [last])).
  { apply Forall_app. split; [exact Hinit |]. now constructor. }
  split.
  - unfold read_text. rewrite universal_newlines_plain; [apply text_chars |].
    subst content. clear Hinit Hlast.
    induction Hall as [| s l Hs _ IH]; [constructor |].
    destruct l as [| s' l].
    + cbn [join_with]. eapply Forall_impl; [exact Hs |].
      intros c Hc. now apply line_boundary_cases.
    + rewrite join_with_cons by congruence. rewrite !chars_app.
      apply Forall_app. split.
      * eapply Forall_impl; [exact Hs |]. intros c Hc. now apply line_boundary_cases.
      * apply Forall_app. split; [repeat constructor | exact IH].
  - cbn zeta. unfold splitlines. subst content.
    rewrite splitlines_go_join by exact Hinit.
    rewrite splitlines_go_last by exact Hlast.
    rewrite map_app, map_text_chars, endswith_newline.
    destruct last as [| c last'].
    + (* the text ends with an empty line *)
      cbn [chars list_ascii_of_string map]. rewrite app_nil_r.
      destruct (snoc_or_nil init) as [-> | (init' & s & ->)]; [reflexivity |].
      rewrite join_with_snoc by (destruct init'; cbn; congruence).
      change (String Ansi.LF "" +:+ "") with (String Ansi.LF "").
      rewrite chars_app. change (chars (String Ansi.LF "")) with [Ansi.LF].
      rewrite last_snoc. change (Ascii.eqb Ansi.LF Ansi.LF) with true.
      destruct (init' ++ [s]) eqn:Heq; [| reflexivity].
      now destruct init'.
    + (* the text ends inside a line *)
      change (chars (String c last')) with (c :: chars last').
      cbn [map]. change (text (c :: chars last')) with (String c (text (chars last'))).
      rewrite text_chars.
      assert (Hends : exists P x,
                 chars (join_with (String Ansi.LF "") (init ++ [String c last']))
                 = P ++ [x] /\ line_boundary x = false).
      { destruct (snoc_or_nil (chars last')) as [Hnil | (l & x & Hl)].
        - exists (chars (join_with (String Ansi.LF "") init
                         +:+ (match init with [] => "" | _ => String Ansi.LF "" end))), c.
          split.
          + destruct init as [| s0 init0].
            * cbn [app join_with]. change (chars (String c last')) with (c :: chars last').
              now rewrite Hnil.
            * rewrite join_with_snoc by congruence. rewrite !chars_app.
              change (chars (String c last')) with (c :: chars last').
              rewrite Hnil, <- !app_assoc. reflexivity.
          + now inversion Hlast.
        - exists (chars (join_with (String Ansi.LF "") init
                         +:+ (match init with [] => "" | _ => String Ansi.LF "" end))
                  ++ c :: l), x.
          split.
          + destruct init as [| s0 init0].
            * cbn [app join_with]. change (chars (String c last')) with (c :: chars last').
              now rewrite Hl.
            * rewrite join_with_snoc by congruence. rewrite !chars_app.
              change (chars (String c last')) with (c :: chars last').
              rewrite Hl, <- !app_assoc. reflexivity.
          + inversion Hlast as [| ? ? _ Hrest]; subst.
            rewrite Hl in Hrest. apply Forall_app in Hrest as [_ Hx].
            now inversion Hx. }
      destruct Hends as (P & x & -> & Hx).
      rewrite last_snoc.
      destruct (line_boundary_cases x Hx) as [_ Hlf].
      rewrite Ascii.eqb_sym, Hlf.
      destruct init; reflexivity.
Qed.

(** X24.  [save_file] writes the lines joined by newlines, and loading
    what was written gives the same lines back, provided there is at
    least one line and no line holds a character [str.splitlines] breaks
    at (LF, VT, FF, CR, FS, GS, RS, NEL).  After the load the editor is
    clean and the cursor is on the text. *)
Theorem save_then_load_file_roundtrip :
  forall e saved e1,
    lines e <> [] ->
    Forall plain_line (lines e) ->
    save_file None e = Ok (saved, e1) ->
    saved = content e
    /\ lines (load_file (Some saved) e1) = lines e
    /\ dirty (load_file (Some saved) e1) = false
    /\ cursor_on_text (load_file (Some saved) e1).
Proof.
  intros e saved e1 Hne Hplain Hsave.
  unfold save_file in Hsave. injection Hsave as <- <-.
  split; [reflexivity |].
  destruct (snoc_or_nil (lines e)) as [Hnil | (init & last & Hl)]; [congruence |].
  rewrite Hl in Hplain. apply Forall_app in Hplain as [Hinit Hlast].
  inversion Hlast as [| ? ? Hlast' _]; subst.
  destruct (load_lines_of_joined init last Hinit Hlast') as [Hread Hload].
  cbn zeta in Hread, Hload.
  assert (Hlines : lines (load_file (Some (join_with (String Ansi.LF "") (lines e)))
                            (set_dirty false e)) = lines e).
  { unfold load_file. cbn [lines]. rewrite Hl, Hread. exact Hload. }
  split; [exact Hlines |]. split; [reflexivity |].
  split.
  - rewrite Hlines. unfold load_file. cbn [cursor_line].
    destruct (lines e); [congruence | cbn [length]; lia].
  - rewrite Hlines. unfold load_file. cbn [cursor_line cursor_col].
    destruct (lines e) as [| s l]; [congruence |].
    exists s. split; [reflexivity |]. pose proof (len_nonneg s). lia.
Qed.

Lemma save_then_load_file_roundtrip_witness :
  let e := mkTextEditor ["ab"; ""; "c"; ""] 2 1 0 0 None "" true 1 in
  let saved := String "a" (String "b" (String Ansi.LF (String Ansi.LF
                 (String "c" (String Ansi.LF ""))))) in
  saved = content e
  /\ lines (load_file (Some saved) (set_dirty false e)) = lines e
  /\ dirty (load_file (Some saved) (set_dirty false e)) = false
  /\ cursor_on_text (load_file (Some saved) (set_dirty false e)).
Proof.
  apply (save_then_load_file_roundtrip
           (mkTextEditor ["ab"; ""; "c"; ""] 2 1 0 0 None "" true 1)).
  - discriminate.
  - repeat constructor.
  - reflexivity.
Defined.

Lemma len_chars (s : string) : len s = Z.of_nat (length (chars s)).
Proof. unfold len. now rewrite length_chars. Qed.

Lemma str_to_all (s : string) : str_to (len s) s = s.
Proof.
  pose proof (str_to_split (chars s) []) as H.
  rewrite app_nil_r, text_chars in H. now rewrite len_chars.
Qed.

Lemma str_from_all (s : string) : str_from (len s) s = "".
Proof.
  pose proof (str_from_split (chars s) []) as H.
  rewrite app_nil_r, text_chars in H. now rewrite len_chars.
Qed.

Lemma str_to_none (s : string) : str_to 0 s = "".
Proof.
  pose proof (str_to_split [] (chars s)) as H. cbn [app length] in H.
  now rewrite text_chars in H.
Qed.

Lemma str_from_none (s : string) : str_from 0 s = s.
Proof.
  pose proof (str_from_split [] (chars s)) as H. cbn [app length] in H.
  now rewrite text_chars in H.
Qed.

Lemma str_slice_all (s : string) : str_slice 0 (len s) s = s.
Proof.
  unfold str_slice, slice. rewrite len_chars, of_nat_ltb_0. cbn [Z.ltb Z.compare].
  replace (Z.to_nat (Z.min 0 (Z.of_nat (length (chars s))))) with 0%nat by lia.
  replace (Z.to_nat (Z.min (Z.of_nat (length (chars s))) (Z.of_nat (length (chars s)))))
    with (length (chars s)) by lia.
  cbn [List.skipn]. change (text (take (length (chars s)) (chars s)) = s).
  now rewrite firstn_all, text_chars.
Qed.

Lemma len_ltb_0 (s : string) : (len s <? 0) = false.
Proof. apply Z.ltb_ge, len_nonneg. Qed.

Lemma len_eqb_0 (s : string) : (0 =? len s) = negb (truthy s).
Proof.
  destruct s; [reflexivity |]. unfold len. cbn [String.length truthy negb].
  apply Z.eqb_neq. lia.
Qed.

Lemma slice_inner_to {A : Type} (x y : A) (mid : list A) :
  slice 1 (Z.of_nat (S (length mid))) (x :: mid ++ [y]) = mid.
Proof.
  unfold slice. rewrite of_nat_ltb_0. cbn [Z.ltb Z.compare length].
  rewrite length_app. cbn [length].
  replace (Z.to_nat (Z.min 1 (Z.of_nat (S (length mid + 1))))) with 1%nat by lia.
  replace (Z.to_nat (Z.min (Z.of_nat (S (length mid))) (Z.of_nat (S (length mid + 1)))))
    with (S (length mid)) by lia.
  cbn [List.firstn List.skipn].
  change (take (length mid) (mid ++ [y]) = mid). apply take_app_length.
Qed.

Lemma slice_assign_all {A : Type} (new l : list A) :
  slice_assign 0 (Z.of_nat (length l)) new l = new.
Proof.
  unfold slice_assign. rewrite of_nat_ltb_0. cbn [Z.ltb Z.compare].
  replace (Z.to_nat (Z.min 0 (Z.of_nat (length l)))) with 0%nat by lia.
  replace (Z.to_nat (Z.max (Z.min 0 (Z.of_nat (length l)))
                       (Z.min (Z.of_nat (length l)) (Z.of_nat (length l)))))
    with (length l) by lia.
  cbn [List.firstn app]. change (new ++ drop (length l) l = new).
  now rewrite drop_all, app_nil_r.
Qed.

Lemma range_from_origin (l : list string) (n c sl sc : Z) clip d pc :
  0 <= n -> 0 <= c ->
  get_selection_range (mkTextEditor l n c sl sc (Some (0, 0)) clip d pc)
  = Some ((0, 0), (n, c)).
Proof.
  intros Hn Hc. unfold get_selection_range, pair_gtb. editor_simpl.
  replace (n <? 0) with false by (symmetry; apply Z.ltb_ge; lia).
  replace (c <? 0) with false by (symmetry; apply Z.ltb_ge; lia).
  now rewrite andb_false_r.
Qed.

Lemma paste_into_empty (t : string) (sl sc : Z) (d : bool) (pc : Z) :
  truthy t = true ->
  exists e3,
    paste_clipboard (mkTextEditor [""] 0 0 sl sc None t d pc) = Ok (true, e3)
    /\ content e3 = t.
Proof.
  intros Ht. unfold paste_clipboard. editor_simpl. rewrite Ht.
  destruct (insert_text_zipper t (mkTextEditor [""] 0 0 sl sc None t d pc)
              [] [] [] []) as (e3 & -> & Hok3 & Hb & Ha & _);
    try reflexivity; [exact Ht |].
  editor_simpl. eexists. split; [reflexivity |].
  rewrite (content_at_cursor e3 Hok3), Hb, Ha. cbn [app join_with].
  change (text []) with "". apply str_app_nil_r.
Qed.

(** What the editor does with a selection that runs from the origin to
    the end of the last line [y] of the text [l], at line [n]. *)
Lemma whole_text_selected (l : list string) (y : string) (n sl sc : Z) clip d pc :
  0 <= n ->
  get_item n l = Ok y ->
  (if 0 =? n
   then x ← get_item 0 l; Ok (str_slice 0 (len y) x)
   else first_line ← get_item 0 l;
        Ok (join_with (String Ansi.LF "")
              (([str_from 0 first_line] ++ slice (0 + 1) n l) ++ [str_to (len y) y])))
  = Ok (join_with (String Ansi.LF "") l) ->
  (if 0 =? n
   then x ← get_item 0 l; list_set 0 (str_to 0 x +:+ str_from (len y) x) l
   else first_line ← get_item 0 l;
        Ok (slice_assign 0 (n + 1) [str_to 0 first_line +:+ str_from (len y) y] l))
  = Ok [""] ->
  (negb (0 =? n) || negb (0 =? len y)) = truthy (join_with (String Ansi.LF "") l) ->
  let e1 := mkTextEditor l n (len y) sl sc (Some (0, 0)) clip d pc in
  get_selected_text e1 = Ok (join_with (String Ansi.LF "") l)
  /\ has_selection e1 = truthy (join_with (String Ansi.LF "") l)
  /\ (truthy (join_with (String Ansi.LF "") l) = true ->
      exists e2 e3,
        cut_selection e1 = Ok (true, e2)
        /\ lines e2 = [""]
        /\ cursor_line e2 = 0 /\ cursor_col e2 = 0
        /\ clipboard e2 = join_with (String Ansi.LF "") l
        /\ paste_clipboard e2 = Ok (true, e3)
        /\ content e3 = join_with (String Ansi.LF "") l).
Proof.
  intros Hn Hy Htext Hdel Hsel e1.
  assert (Hrange : forall clip', get_selection_range
                      (mkTextEditor l n (len y) sl sc (Some (0, 0)) clip' d pc)
                    = Some ((0, 0), (n, len y)))
    by (intros clip'; apply range_from_origin; [exact Hn | apply len_nonneg]).
  assert (Htxt : forall clip', get_selected_text
                    (mkTextEditor l n (len y) sl sc (Some (0, 0)) clip' d pc)
                  = Ok (join_with (String Ansi.LF "") l)).
  { intros clip'. unfold get_selected_text. rewrite Hrange. editor_simpl.
    rewrite <- Htext. destruct (0 =? n); [reflexivity |].
    destruct (get_item 0 l) as [x0 |]; [| reflexivity]. editor_simpl.
    rewrite Hy. reflexivity. }
  assert (Hhas : forall clip', has_selection
                    (mkTextEditor l n (len y) sl sc (Some (0, 0)) clip' d pc)
                  = truthy (join_with (String Ansi.LF "") l)).
  { intros clip'. unfold has_selection. rewrite Hrange. exact Hsel. }
  split; [apply Htxt |]. split; [apply Hhas |].
  intros Htruthy.
  destruct (paste_into_empty (join_with (String Ansi.LF "") l) sl sc true pc Htruthy)
    as (e3 & Hp & Hc).
  exists (mkTextEditor [""] 0 0 sl sc None (join_with (String Ansi.LF "") l) true pc), e3.
  split.
  - unfold cut_selection, copy_selection. subst e1.
    rewrite Hhas, Htruthy, Htxt. editor_simpl.
    unfold delete_selection, set_clipboard. editor_simpl. rewrite Hrange. editor_simpl.
    destruct (0 =? n).
    + destruct (get_item 0 l) as [x0 |]; [| discriminate]. editor_simpl.
      editor_simpl. rewrite Hdel. editor_simpl. reflexivity.
    + destruct (get_item 0 l) as [x0 |]; [| discriminate]. editor_simpl.
      rewrite Hy. editor_simpl. injection Hdel as ->. reflexivity.
  - editor_simpl. repeat split; try reflexivity; assumption.
Qed.

(** X25.  After [select_all] the selected text is the whole saved text,
    and there is a selection exactly when that text is not empty.
    Cutting it then leaves a single empty line with the cursor at the
    origin and the whole text on the clipboard, and pasting the clipboard
    restores the saved text. *)
Theorem select_all_cut_paste :
  forall e,
    lines e <> [] ->
    exists e1,
      select_all e = Ok e1
      /\ get_selected_text e1 = Ok (content e)
      /\ has_selection e1 = truthy (content e)
      /\ (truthy (content e) = true ->
          exists e2 e3,
            cut_selection e1 = Ok (true, e2)
            /\ lines e2 = [""]
            /\ cursor_line e2 = 0 /\ cursor_col e2 = 0
            /\ clipboard e2 = content e
            /\ paste_clipboard e2 = Ok (true, e3)
            /\ content e3 = content e).
Proof.
  intros e Hne. unfold content at 1 2 3 4 6.
  destruct e as [l cl cc sl sc anchor clip d pc]. editor_simpl.
  destruct l as [| x rest]; [congruence |]. clear Hne.
  destruct (snoc_or_nil rest) as [-> | (mid & y & ->)].
  - (* one line *)
    unfold select_all. cbn zeta. editor_simpl.
    change (get_item (-1) [x]) with (Ok x : outcome string). editor_simpl.
    eexists. split; [reflexivity |].
    change (Z.of_nat (length [x]) - 1) with 0.
    apply (whole_text_selected [x] x 0 sl sc clip d (len x)).
    + lia.
    + reflexivity.
    + change (0 =? 0) with true. cbn iota. change (get_item 0 [x]) with (Ok x : outcome string).
      editor_simpl. now rewrite str_slice_all.
    + change (0 =? 0) with true. cbn iota. change (get_item 0 [x]) with (Ok x : outcome string).
      editor_simpl. now rewrite str_to_none, str_from_all.
    + change (0 =? 0) with true. cbn [negb orb join_with].
      rewrite len_eqb_0. apply negb_involutive.
  - (* several lines *)
    unfold select_all. cbn zeta. editor_simpl.
    rewrite (get_item_minus_one (x :: mid) y
             : get_item (-1) (x :: mid ++ [y]) = Ok y). editor_simpl.
    eexists. split; [reflexivity |].
    assert (Hn : Z.of_nat (length (x :: mid ++ [y])) - 1 = Z.of_nat (S (length mid))).
    { cbn [length]. rewrite length_app. cbn [length]. lia. }
    rewrite Hn.
    assert (Hz : (0 =? Z.of_nat (S (length mid))) = false) by (apply Z.eqb_neq; lia).
    apply (whole_text_selected (x :: mid ++ [y]) y (Z.of_nat (S (length mid)))
             sl sc clip d (len y)).
    + lia.
    + exact (get_item_seam (x :: mid) [] y).
    + rewrite Hz, get_item_first. editor_simpl.
      replace (0 + 1) with 1 by lia.
      now rewrite slice_inner_to, str_from_none, str_to_all.
    + rewrite Hz, get_item_first. editor_simpl.
      rewrite str_to_none, str_from_all.
      replace (Z.of_nat (S (length mid)) + 1) with (Z.of_nat (length (x :: mid ++ [y])))
        by lia.
      now rewrite slice_assign_all.
    + rewrite Hz. cbn [negb orb].
      rewrite join_with_cons by (destruct mid; cbn; congruence).
      destruct x; reflexivity.
Qed.

Lemma select_all_cut_paste_witness :
  let e := mkTextEditor ["ab"; "c"] 0 1 0 0 None "" false 1 in
  exists e1,
    select_all e = Ok e1
    /\ get_selected_text e1 = Ok (content e)
    /\ has_selection e1 = truthy (content e)
    /\ (truthy (content e) = true ->
        exists e2 e3,
          cut_selection e1 = Ok (true, e2)
          /\ lines e2 = [""]
          /\ cursor_line e2 = 0 /\ cursor_col e2 = 0
          /\ clipboard e2 = content e
          /\ paste_clipboard e2 = Ok (true, e3)
          /\ content e3 = content e).
Proof.
  apply (select_all_cut_paste (mkTextEditor ["ab"; "c"] 0 1 0 0 None "" false 1)).
  discriminate.
Defined.

End Editor.

(** ** The escape filter across chunks *)

Section EscapeFilterChunks.

(** X26.  As long as the PTY output holds no minus sign, the escape
    filter never raises and after every chunk the cursor is between 0 and
    the length of the line under assembly, however the output is cut
    into chunks (escape sequences may straddle them). *)
Theorem escape_filter_cursor_stays_in_bounds :
  forall (chunks : list string) s,
    Forall (fun chunk => no_minus (chars chunk)) chunks ->
    exists r' s',
      feed_chunks chunks (start_reader s, s) = Ok (r', s')
      /\ cursor_in_bounds r'.
Proof.
  intros chunks s Hchunks. unfold feed_chunks.
  assert (Hgen : forall r0 s0,
             cursor_in_bounds r0 ->
             no_minus (chars (escape_buffer r0)) ->
             exists r' s',
               fold_left (fun acc chunk => st ← acc; feed chunk st) chunks
                         (Ok (r0, s0))
               = Ok (r', s')
               /\ cursor_in_bounds r').
  { induction Hchunks as [| chunk chunks Hc _ IH]; intros r0 s0 Hb Hbuf.
    - exists r0, s0. now split.
    - destruct (feed_chars_in_bounds (chars chunk) r0 s0 Hb Hbuf Hc)
        as (r1 & s1 & Hrun & Hb1 & Hbuf1).
      cbn [fold_left mbind outcome_bind]. unfold feed at 2. rewrite Hrun.
      cbn [mbind outcome_bind]. now apply IH. }
  apply Hgen; [apply start_reader_in_bounds |].
  unfold start_reader. cbn. intros [].
Qed.

Lemma escape_filter_cursor_stays_in_bounds_witness :
  exists r' s',
    feed_chunks ["ab" +:+ CSI; "3D" +:+ CSI +:+ "K"] (start_reader demo_shell, demo_shell)
    = Ok (r', s')
    /\ cursor_in_bounds r'.
Proof.
  apply (escape_filter_cursor_stays_in_bounds
           ["ab" +:+ CSI; "3D" +:+ CSI +:+ "K"] demo_shell).
  repeat constructor; vm_compute; intuition discriminate.
Defined.

End EscapeFilterChunks.

(** ** Commands handed on to the shell *)

Section Dispatch.

Lemma resolve_history_reference_result cmd s s1 cmd' :
  resolve_history_reference cmd s = Ok (s1, Some cmd') ->
  command_history s1 = command_history s
  /\ history_next_index s1 = history_next_index s
  /\ get_prompt_text s1 = get_prompt_text s
  /\ (cmd' = cmd \/ exists e, In e (command_history s) /\ cmd' = command e).
Proof.
  unfold resolve_history_reference.
  destruct (startswith "!" (strip cmd) && isdigit (tail_from 1 (strip cmd))).
  - destruct (int (tail_from 1 (strip cmd))) as [i |]; [| discriminate].
    destruct (get_history_entry i s) as [e |] eqn:Hget; [| discriminate].
    intros [= <- <-]. repeat split.
    right. exists e. split; [| reflexivity].
    exact (proj1 (find_entry_In _ _ _ Hget)).
  - intros [= <- <-]. repeat split. now left.
Qed.

(** X27.  A command that [execute_command] hands on past the [help],
    [clear] and [history] built-ins was first recorded and echoed: the
    executor is in neither editor nor PTY
    mode, the command is the submitted line or the text of a stored
    history entry, the newest history entry holds it under the counter
    value from before the call (for a retention cap that is not
    negative), the counter went up by one, the recall cursor is just past
    the newest entry, and the last output line is the echo. *)
Theorem dispatched_command_is_recorded :
  forall timestamp wr wr_clear cmd s w s' w' cmd',
    0 <= config_max_history w ->
    execute_command timestamp wr wr_clear cmd s w = Ok (s', w', Dispatched cmd') ->
    in_editor_mode s = false
    /\ in_pty_mode s = false
    /\ (cmd' = cmd \/ exists e, In e (command_history s) /\ cmd' = command e)
    /\ last (command_history s') = Some (mkEntry (history_next_index s) cmd')
    /\ history_next_index s' = history_next_index s + 1
    /\ history_index s' = Z.of_nat (length (command_history s'))
    /\ last (output_lines s') = Some (echo_line timestamp cmd' s).
Proof.
  intros ts wr wr' cmd s w s' w' cmd' Hmh. unfold execute_command.
  destruct (negb (truthy (strip cmd))); [discriminate |].
  destruct (in_editor_mode s); [discriminate |].
  destruct (in_pty_mode s); [discriminate |].
  destruct (resolve_history_reference cmd s) as [[s1 [c |]] | err] eqn:Hres;
    cbn [mbind outcome_bind]; try discriminate.
  destruct (resolve_history_reference_result cmd s s1 c Hres)
    as (Hhist & Hnext & Hprompt & Horigin).
  destruct (add_history_entry wr c s1 w) as [s2 w2] eqn:Hadd.
  assert (Hs2 : s2 = (add_history_entry wr c s1 w).1) by now rewrite Hadd.
  unfold run_command.
  repeat match goal with
         | |- context [if ?b then _ else _] => destruct b
         end; try discriminate.
  - destruct (history_builtin wr' c _ w2) as [[s3 w3] | err]; discriminate.
  - intros [= <- <- <-].
    split; [reflexivity |]. split; [reflexivity |]. split; [exact Horigin |].
    rewrite add_output_last. subst s2.
    unfold add_history_entry. cbn [fst].
    cbn [command_history history_next_index history_index set_history_index
         set_command_history set_history_next_index trim_history add_output
         set_output_lines].
    rewrite Hnext.
    repeat split.
    + apply trim_to_max_history_last, Hmh.
    + f_equal. unfold echo_line. f_equal. f_equal. rewrite <- Hprompt. reflexivity.
Qed.

Lemma dispatched_command_is_recorded_witness :
  exists s' w',
    execute_command "12:00:00" Written Written "ls -l" demo_shell demo_host
    = Ok (s', w', Dispatched "ls -l")
    /\ last (command_history s') = Some (mkEntry (history_next_index demo_shell) "ls -l")
    /\ history_next_index s' = history_next_index demo_shell + 1
    /\ last (output_lines s') = Some (echo_line "12:00:00" "ls -l" demo_shell).
Proof.
  destruct (execute_command "12:00:00" Written Written "ls -l" demo_shell demo_host)
    as [[[s' w'] r] | e] eqn:Hrun.
  - assert (Hr : r = Dispatched "ls -l") by (vm_compute in Hrun; congruence).
    subst r. exists s', w'. split; [reflexivity |].
    assert (Hmh : 0 <= config_max_history demo_host) by (cbn; lia).
    destruct (dispatched_command_is_recorded
                "12:00:00" Written Written "ls -l" demo_shell demo_host s' w' "ls -l"
                Hmh Hrun) as (_ & _ & _ & Hlast & Hnext & _ & Hecho).
    repeat split; assumption.
  - vm_compute in Hrun. discriminate.
Defined.

End Dispatch.

(** ** Screen helpers *)

Section ScreenHelpers.

Lemma str_cut (n : Z) (t : string) : str_to n t +:+ str_from n t = t.
Proof.
  unfold str_to, str_from, slice_to, slice_from. cbn zeta.
  now rewrite <- text_app, firstn_skipn, text_chars.
Qed.

Lemma join_empty_snoc (l : list string) (x : string) :
  join_with "" (l ++ [x]) = join_with "" l +:+ x.
Proof.
  destruct l as [| y l]; [reflexivity |].
  now rewrite join_with_snoc by congruence.
Qed.

Lemma wrap_loop_chunks (max_chars : Z) :
  1 <= max_chars ->
  forall (fuel : nat) (t : string) (acc : list string),
    (length (chars t) < fuel)%nat ->
    exists l,
      wrap_loop fuel max_chars t acc = Some (acc ++ l)
      /\ join_with "" (acc ++ l) = join_with "" acc +:+ t
      /\ Forall (fun x => 1 <= len x <= max_chars) l.
Proof.
  intros Hmax fuel. induction fuel as [| fuel IH]; intros t acc Hfuel; [lia |].
  cbn [wrap_loop]. destruct t as [| c t'].
  - exists []. cbn [truthy]. rewrite app_nil_r, str_app_nil_r.
    repeat split. constructor.
  - cbn [truthy]. set (t := String c t') in *.
    assert (Hlen : 1 <= len t) by (unfold len, t; cbn [String.length]; lia).
    assert (Hto : len (str_to max_chars t) = Z.min max_chars (len t)).
    { unfold len, str_to, slice_to. rewrite !length_chars, chars_text.
      replace (max_chars <? 0) with false by (symmetry; apply Z.ltb_ge; lia).
      rewrite length_firstn. lia. }
    assert (Hfrom : (length (chars (str_from max_chars t)) < length (chars t))%nat).
    { unfold str_from, slice_from. rewrite chars_text.
      replace (max_chars <? 0) with false by (symmetry; apply Z.ltb_ge; lia).
      rewrite length_skipn. unfold len in Hlen. rewrite length_chars in Hlen. lia. }
    destruct (IH (str_from max_chars t) (acc ++ [str_to max_chars t])) as (l & Hrun & Hjoin & Hall);
      [lia |].
    exists (str_to max_chars t :: l).
    replace (acc ++ str_to max_chars t :: l) with ((acc ++ [str_to max_chars t]) ++ l)
      by now rewrite <- app_assoc.
    split; [exact Hrun |]. split.
    + rewrite Hjoin, join_empty_snoc, str_app_assoc, str_cut. reflexivity.
    + constructor; [lia | exact Hall].
Qed.

Lemma wrap_loop_hangs (max_chars : Z) :
  max_chars <= 0 ->
  forall (fuel : nat) (t : string) (acc : list string),
    truthy t = true -> wrap_loop fuel max_chars t acc = None.
Proof.
  intros Hmax fuel. induction fuel as [| fuel IH]; intros t acc Ht; [reflexivity |].
  cbn [wrap_loop]. rewrite Ht. apply IH.
  destruct t as [| c t']; [discriminate |].
  unfold str_from, slice_from.
  assert (Hlen : (1 <= length (chars (String c t')))%nat) by (cbn; lia).
  set (n := length (chars (String c t'))) in *.
  destruct (max_chars <? 0) eqn:Hneg.
  - destruct (List.skipn (Z.to_nat (Z.max 0 (max_chars + Z.of_nat n))) (chars (String c t')))
      as [| x l] eqn:Hskip; [| reflexivity].
    apply (f_equal (@length ascii)) in Hskip. rewrite length_skipn in Hskip.
    cbn [length] in Hskip. fold n in Hskip. lia.
  - apply Z.ltb_ge in Hneg. replace max_chars with 0 by lia. reflexivity.
Qed.

Lemma wrap_loop_mono (max_chars : Z) (f1 : nat) :
  forall (f2 : nat) (u : string) (acc r : list string),
    wrap_loop f1 max_chars u acc = Some r ->
    (f1 <= f2)%nat ->
    wrap_loop f2 max_chars u acc = Some r.
Proof.
  induction f1 as [| f1 IH]; intros f2 u acc r Hr Hle; [discriminate |].
  destruct f2 as [| f2]; [lia |]. cbn [wrap_loop] in *.
  destruct (truthy u); [| exact Hr]. apply IH; [exact Hr | lia].
Qed.

(** X28.  For a width of at least one character, [wrap_text] returns
    (given fuel beyond the length of the text) pieces of at most that
    many characters which concatenate to the text, none of them empty
    unless the text is.  For a width of less than one character and a
    non-empty text the loop never ends. *)
Theorem wrap_text_chunks :
  forall t max_width char_width,
    char_width <> 0 ->
    (1 <= max_width / char_width ->
     exists l,
       (forall fuel, (length (chars t) < fuel)%nat ->
                     wrap_text fuel t max_width char_width = Lines_ l)
       /\ join_with "" l = t
       /\ Forall (fun x => len x <= max_width / char_width) l
       /\ (truthy t = true -> Forall (fun x => 1 <= len x) l))
    /\ (max_width / char_width <= 0 ->
        truthy t = true ->
        forall fuel, wrap_text fuel t max_width char_width = Unfinished).
Proof.
  intros t max_width char_width Hcw.
  apply Z.eqb_neq in Hcw. unfold wrap_text. rewrite Hcw. cbn zeta.
  set (max_chars := max_width / char_width). split.
  - intros Hmax. destruct (len t <=? max_chars) eqn:Hfit.
    + apply Z.leb_le in Hfit. exists [t]. repeat split.
      * constructor; [exact Hfit | constructor].
      * intros Ht. constructor; [| constructor].
        destruct t; [discriminate |]. unfold len. cbn [String.length]. lia.
    + destruct (wrap_loop_chunks max_chars Hmax (S (length (chars t))) t [])
        as (l & Hrun & Hjoin & Hall); [lia |].
      exists l. cbn [app join_with] in Hjoin, Hrun.
      split; [| split; [exact Hjoin | split]].
      * intros fuel Hfuel.
        rewrite (wrap_loop_mono max_chars _ fuel t [] l Hrun) by lia. reflexivity.
      * eapply Forall_impl; [exact Hall |]. cbn. intros; lia.
      * intros _. eapply Forall_impl; [exact Hall |]. cbn. intros; lia.
  - intros Hmax Ht fuel.
    replace (len t <=? max_chars) with false.
    + now rewrite (wrap_loop_hangs max_chars Hmax fuel t [] Ht).
    + symmetry. apply Z.leb_gt. destruct t; [discriminate |].
      unfold len. cbn [String.length]. lia.
Qed.

Lemma wrap_text_chunks_witness :
  (exists l,
      (forall fuel, (length (chars "abcdefg") < fuel)%nat ->
                    wrap_text fuel "abcdefg" 24 8 = Lines_ l)
      /\ join_with "" l = "abcdefg"
      /\ Forall (fun x => len x <= 24 / 8) l
      /\ (truthy "abcdefg" = true -> Forall (fun x => 1 <= len x) l))
  /\ (forall fuel, wrap_text fuel "abcdefg" 4 8 = Unfinished).
Proof.
  split.
  - apply (wrap_text_chunks "abcdefg" 24 8); [lia | change (24 / 8) with 3; lia].
  - apply (wrap_text_chunks "abcdefg" 4 8);
      [lia | change (4 / 8) with 0; lia | reflexivity].
Defined.

Lemma list_index_elem (x : string) (l : list string) :
  x ∈ l ->
  exists n, list_index x l = Some n /\ l !! n = Some x.
Proof.
  induction l as [| y l IH]; intros Hin; [inversion Hin |].
  cbn [list_index]. destruct (String.eqb_spec y x) as [-> | Hne].
  - exists O. now split.
  - apply elem_of_cons in Hin as [-> | Hin]; [congruence |].
    destruct (IH Hin) as (n & -> & Hn). exists (S n). now split.
Qed.

Lemma list_index_NoDup (x : string) (l : list string) (n : nat) :
  NoDup l -> l !! n = Some x -> list_index x l = Some n.
Proof.
  intros Hnd Hn.
  destruct (list_index_elem x l) as (m & Hm & Hlook);
    [apply list_elem_of_lookup; eauto |].
  rewrite Hm. f_equal. exact (NoDup_lookup l m n x Hnd Hlook Hn).
Qed.

(** X29.  For a non-empty list of options [cycle_option] never raises and
    returns one of the options.  When the options are distinct and the
    current value is among them, a step by a multiple of their number
    returns the current value, and a step back by the same amount undoes
    a step. *)
Theorem cycle_option_stays_in_options :
  forall current options direction,
    options <> [] ->
    exists r,
      cycle_option current options direction = Ok r
      /\ r ∈ options
      /\ (current ∈ options ->
          direction mod Z.of_nat (length options) = 0 ->
          NoDup options ->
          r = current)
      /\ (current ∈ options ->
          NoDup options ->
          cycle_option r options (- direction) = Ok current).
Proof.
  intros current options direction Hne.
  assert (Hlen : 0 < Z.of_nat (length options))
    by (destruct options; [congruence | cbn [length]; lia]).
  assert (Hstep : forall c d,
             c ∈ options ->
             exists idx r,
               list_index c options = Some idx
               /\ options !! idx = Some c
               /\ cycle_option c options d = Ok r
               /\ options !! Z.to_nat ((Z.of_nat idx + d) mod Z.of_nat (length options))
                  = Some r).
  { intros c d Hc. destruct (list_index_elem c options Hc) as (idx & Hidx & Hlook).
    pose proof (Z.mod_pos_bound (Z.of_nat idx + d) _ Hlen) as Hrange.
    destruct (get_item_in_range _ options Hrange) as (r & Hget & Hr).
    exists idx, r. repeat split; try assumption.
    unfold cycle_option. destruct options as [| o options']; [congruence |].
    rewrite bool_decide_eq_true_2 by exact Hc.
    cbn [mbind outcome_bind]. rewrite Hidx. exact Hget. }
  assert (Hfirst : exists c0, c0 ∈ options
                              /\ forall d, cycle_option current options d
                                           = cycle_option c0 options d
                              /\ (current ∈ options -> c0 = current)).
  { destruct (decide (current ∈ options)) as [Hin | Hnotin].
    - exists current. split; [exact Hin |]. now split.
    - destruct options as [| o options']; [congruence |].
      exists o. split; [left |]. intros d. split; [| tauto].
      unfold cycle_option.
      rewrite bool_decide_eq_false_2 by exact Hnotin.
      rewrite bool_decide_eq_true_2 by left.
      rewrite get_item_first. reflexivity. }
  destruct Hfirst as (c0 & Hc0 & Hsame).
  destruct (Hstep c0 direction Hc0) as (idx & r & Hidx & Hlook & Hrun & Hr).
  exists r. split; [rewrite (proj1 (Hsame direction)); exact Hrun |].
  assert (Hrin : r ∈ options) by (apply list_elem_of_lookup; eauto).
  split; [exact Hrin |].
  assert (Hidx_lt : Z.of_nat idx < Z.of_nat (length options)).
  { apply lookup_lt_Some in Hlook. lia. }
  split.
  - intros Hcur Hzero Hnd. rewrite <- (proj2 (Hsame direction) Hcur).
    rewrite Z.add_mod, Hzero, Z.add_0_r, Z.mod_mod, Z.mod_small in Hr by lia.
    rewrite Nat2Z.id in Hr. congruence.
  - intros Hcur Hnd. rewrite <- (proj2 (Hsame direction) Hcur).
    destruct (Hstep r (- direction) Hrin) as (j & back & Hj & _ & Hback & Hb).
    rewrite Hback. f_equal.
    pose proof (Z.mod_pos_bound (Z.of_nat idx + direction) _ Hlen) as Hrange.
    rewrite (list_index_NoDup r options _ Hnd Hr) in Hj. injection Hj as <-.
    rewrite Z2Nat.id in Hb by lia.
    rewrite Zplus_mod_idemp_l in Hb.
    replace (Z.of_nat idx + direction + - direction) with (Z.of_nat idx) in Hb by lia.
    rewrite Z.mod_small, Nat2Z.id in Hb by lia. congruence.
Qed.

Lemma cycle_option_stays_in_options_witness :
  exists r,
    cycle_option "b" ["a"; "b"; "c"] 2 = Ok r
    /\ r ∈ ["a"; "b"; "c"]
    /\ cycle_option r ["a"; "b"; "c"] (- 2) = Ok "b"
    /\ cycle_option "b" ["a"; "b"; "c"] 3 = Ok "b".
Proof.
  assert (Hin : "b" ∈ ["a"; "b"; "c"]) by (right; left).
  assert (Hnd : NoDup ["a"; "b"; "c"])
    by (apply (bool_decide_unpack _); vm_compute; exact I).
  destruct (cycle_option_stays_in_options "b" ["a"; "b"; "c"] 2)
    as (r & Hrun & Hr & _ & Hback); [discriminate |].
  destruct (cycle_option_stays_in_options "b" ["a"; "b"; "c"] 3)
    as (r3 & Hrun3 & _ & Hsame & _); [discriminate |].
  exists r. split; [exact Hrun |]. split; [exact Hr |].
  split; [exact (Hback Hin Hnd) |].
  rewrite Hrun3. f_equal. apply Hsame; [exact Hin | reflexivity | exact Hnd].
Defined.

(** X30.  For a layout with at least one row, [clamp_layout_cursor] never
    raises and leaves the cursor on a row of the layout and, unless that
    row is empty, on one of its keys; a cursor that was on a key already
    is not moved, and clamping twice changes nothing more. *)
Theorem clamp_layout_cursor_on_key :
  forall current_layout cursor_x cursor_y,
    current_layout <> [] ->
    exists x y row,
      clamp_layout_cursor current_layout cursor_x cursor_y = Ok (x, y)
      /\ clamp_layout_cursor current_layout x y = Ok (x, y)
      /\ current_layout !! Z.to_nat y = Some row
      /\ 0 <= y < Z.of_nat (length current_layout)
      /\ (row <> [] -> 0 <= x < Z.of_nat (length row))
      /\ (0 <= cursor_y < Z.of_nat (length current_layout) -> y = cursor_y)
      /\ (0 <= cursor_y < Z.of_nat (length current_layout) ->
          0 <= cursor_x < Z.of_nat (length row) -> x = cursor_x).
Proof.
  intros layout cx cy Hne. unfold clamp_layout_cursor.
  destruct layout as [| row0 rest]; [congruence |]. clear Hne.
  set (layout := row0 :: rest).
  assert (Hlen : 0 < Z.of_nat (length layout)) by (unfold layout; cbn [length]; lia).
  set (y := if cy <? 0 then 0
            else if Z.of_nat (length layout) <=? cy
                 then Z.of_nat (length layout) - 1 else cy).
  assert (Hy : 0 <= y < Z.of_nat (length layout)).
  { subst y. destruct (cy <? 0) eqn:H1; [lia |].
    destruct (Z.of_nat (length layout) <=? cy) eqn:H2; lia. }
  assert (Hyy : (if y <? 0 then 0
                 else if Z.of_nat (length layout) <=? y
                      then Z.of_nat (length layout) - 1 else y) = y).
  { destruct (y <? 0) eqn:H1; [lia |].
    destruct (Z.of_nat (length layout) <=? y) eqn:H2; lia. }
  destruct (get_item_in_range y layout Hy) as (row & Hget & Hrow).
  cbn zeta. rewrite Hget. cbn [mbind outcome_bind].
  destruct row as [| k row'].
  - exists 0, y, []. split; [reflexivity |]. split.
    + rewrite Hyy, Hget. reflexivity.
    + repeat split; try lia; try assumption; try congruence.
      * subst y. intros Hc. destruct (cy <? 0) eqn:H1; [lia |].
        destruct (Z.of_nat (length layout) <=? cy) eqn:H2; lia.
      * cbn [length]. lia.
  - set (row := k :: row') in *.
    assert (Hrlen : 0 < Z.of_nat (length row)) by (unfold row; cbn [length]; lia).
    set (x := if cx <? 0 then 0
              else if Z.of_nat (length row) <=? cx
                   then Z.of_nat (length row) - 1 else cx).
    assert (Hx : 0 <= x < Z.of_nat (length row)).
    { subst x. destruct (cx <? 0) eqn:H1; [lia |].
      destruct (Z.of_nat (length row) <=? cx) eqn:H2; lia. }
    exists x, y, row. split; [reflexivity |]. split.
    + rewrite Hyy, Hget. cbn [mbind outcome_bind]. f_equal. f_equal.
      destruct (x <? 0) eqn:H1; [lia |].
      destruct (Z.of_nat (length row) <=? x) eqn:H2; lia.
    + repeat split; try lia; try assumption.
      * subst y. intros Hc. destruct (cy <? 0) eqn:H1; [lia |].
        destruct (Z.of_nat (length layout) <=? cy) eqn:H2; lia.
      * subst x. intros _ Hc. destruct (cx <? 0) eqn:H1; [lia |].
        destruct (Z.of_nat (length row) <=? cx) eqn:H2; lia.
Qed.

Lemma clamp_layout_cursor_on_key_witness :
  exists x y row,
    clamp_layout_cursor [["a"; "b"; "c"]; ["d"]] 2 7 = Ok (x, y)
    /\ clamp_layout_cursor [["a"; "b"; "c"]; ["d"]] x y = Ok (x, y)
    /\ [["a"; "b"; "c"]; ["d"]] !! Z.to_nat y = Some row
    /\ 0 <= y < Z.of_nat (length [["a"; "b"; "c"]; ["d"]])
    /\ (row <> [] -> 0 <= x < Z.of_nat (length row))
    /\ (0 <= 7 < Z.of_nat (length [["a"; "b"; "c"]; ["d"]]) -> y = 7)
    /\ (0 <= 7 < Z.of_nat (length [["a"; "b"; "c"]; ["d"]]) ->
        0 <= 2 < Z.of_nat (length row) -> x = 2).
Proof.
  apply (clamp_layout_cursor_on_key [["a"; "b"; "c"]; ["d"]] 2 7). discriminate.
Defined.

End ScreenHelpers.
